(** * odoo_sdk: a shallow embedding of the JSON-RPC client

    The development follows [src/odoo_sdk.py].  Python values that travel
    over the wire are JSON trees, a method of [OdooClient] is a computation
    in a state-and-exception monad whose state holds the client instance,
    the chronological trace of everything the client did to the outside
    world (HTTP posts, sleeps, log records) and the store of mutable
    dictionaries the caller shares with the client. *)

From Stdlib Require Import ZArith Lia.
From stdpp Require Import gmap strings list.

Set Warnings "-register-all".
Local Open Scope Z_scope.

(** ** Values *)

(** What [json.loads] produces and [json.dumps] consumes: [None], booleans,
    integers, strings, lists and string-keyed dictionaries (a dictionary
    keeps its insertion order, so it is an association list).  JSON
    numbers with a fractional part are left out: no statement below
    depends on them. *)
Inductive json : Type :=
| JNull
| JBool (b : bool)
| JInt (n : Z)
| JStr (s : string)
| JList (xs : list json)
| JObj (kvs : list (string * json)).

(** Python truthiness, as used by [x or y], [if x:] and [bool(x)]. *)
Definition truthy (v : json) : bool :=
  match v with
  | JNull => false
  | JBool b => b
  | JInt n => negb (n =? 0)
  | JStr s => negb (String.eqb s "")
  | JList xs => match xs with [] => false | _ => true end
  | JObj kvs => match kvs with [] => false | _ => true end
  end.

(** [isinstance(v, int)]: [bool] is a subclass of [int]. *)
Definition isinstance_int (v : json) : bool :=
  match v with
  | JInt _ | JBool _ => true
  | _ => false
  end.

(** [v is None]. *)
Definition is_None (v : json) : bool :=
  match v with JNull => true | _ => false end.

(** *** Text

    A Python [str] is a sequence of code points; a [string] holds its
    UTF-8 encoding, in which a byte [10xxxxxx] continues the code point
    begun before it and every other byte begins one. *)
Definition is_continuation (a : Ascii.ascii) : bool :=
  let n := Ascii.N_of_ascii a in ((128 <=? n) && (n <? 192))%N.

(** The code points of a text, each as a text of one character: what
    iterating over a [str] yields. *)
Fixpoint code_points (s : string) : list string :=
  match s with
  | EmptyString => []
  | String a s' =>
      match s' with
      | String b _ =>
          if is_continuation b then
            match code_points s' with
            | cp :: cps => String a cp :: cps
            | [] => [String a EmptyString]
            end
          else String a EmptyString :: code_points s'
      | EmptyString => [String a EmptyString]
      end
  end.

(** [s[:n]]: the first [n] code points, each with its continuation
    bytes. *)
Fixpoint take_code_points (n : nat) (s : string) : string :=
  match s with
  | EmptyString => EmptyString
  | String a s' =>
      if is_continuation a then String a (take_code_points n s')
      else match n with
           | O => EmptyString
           | S n' => String a (take_code_points n' s')
           end
  end.

(** *** Dictionaries *)

Section Dict.
Context {K V : Type} (keq : K -> K -> bool).

(** [k in d] and [d.get(k)]. *)
Fixpoint dict_get (k : K) (d : list (K * V)) : option V :=
  match d with
  | [] => None
  | (k', v) :: d' => if keq k' k then Some v else dict_get k d'
  end.

(** [d[k] = v]: an existing key keeps its position (and its spelling),
    a new key goes last. *)
Fixpoint dict_set (k : K) (v : V) (d : list (K * V)) : list (K * V) :=
  match d with
  | [] => [(k, v)]
  | (k', v') :: d' =>
      if keq k' k then (k', v) :: d' else (k', v') :: dict_set k v d'
  end.
End Dict.

Definition sget : string -> list (string * json) -> option json :=
  dict_get String.eqb.
Definition sset : string -> json -> list (string * json) -> list (string * json) :=
  dict_set String.eqb.

(** ** Exceptions *)

Inductive exn : Type :=
| ConnectionError                 (* requests.ConnectionError and subclasses *)
| HTTPError (status : Z)          (* requests.HTTPError, with exc.response.status_code *)
| RequestException                (* every other exception of [Session.post] *)
| JSONDecodeError                 (* [Response.json()] on a body that is not JSON *)
| RPCError (payload : json)
| AuthenticationError (payload : json)
| KeyError (key : string)
| StopIteration
| TypeError
| AttributeError
| ValueError
| RuntimeError (msg : string).

Inductive result (A : Type) : Type :=
| Ok (a : A)
| Raise (e : exn).
Arguments Ok {A} a.
Arguments Raise {A} e.

(** ** The outside world *)

Record Response := mkResponse {
  status_code : Z;
  body : option json            (* the decoded body, if it is JSON at all *)
}.

(** What one call of [self._sess.post(...)] can do. *)
Inductive post_outcome : Type :=
| PostConnectionError
| PostOtherError
| PostReturns (r : Response).

Inductive log_record : Type :=
| LogTransient (exc : exn) (wait : Z)      (* warning, [_post] *)
| LogRpc (payload : json)                  (* debug, [_json_rpc] *)
| LogRpcError (err : json)                 (* error, [_json_rpc] *)
| LogAuthenticated (uid : json)            (* info, [authenticate] *)
| LogStateLabelNotFound (label : string).  (* warning, [move_task] *)

Inductive event : Type :=
| EvPost (url : string) (payload : json) (timeout : Z) (verify : bool)
         (outcome : post_outcome)
| EvSleep (secs : Z)
| EvLog (r : log_record)
| EvClose.                                 (* [Session.close()] *)

(** ** The client *)

Record OdooClient := mkClient {
  url : string;
  db : string;
  username : string;
  api_key : string;
  timeout : Z;
  verify_ssl : bool;
  uid : json                     (* Optional[int]: [JNull] is [None] *)
}.

Definition loc := positive.

Record state := mkState {
  self : OdooClient;
  trace : list event;
  objects : gmap loc (list (string * json))   (* dictionaries held by reference *)
}.

Definition M (A : Type) : Type := state -> result A * state.

Definition ret {A} (a : A) : M A := fun st => (Ok a, st).
Definition raise {A} (e : exn) : M A := fun st => (Raise e, st).
Definition bind {A B} (m : M A) (k : A -> M B) : M B :=
  fun st =>
    match m st with
    | (Ok a, st') => k a st'
    | (Raise e, st') => (Raise e, st')
    end.

Notation "'let*' x ':=' m 'in' k" := (bind m (fun x => k))
  (at level 10, x name, m at level 100, k at level 200).
Notation "m ;; k" := (bind m (fun _ => k))
  (at level 100, k at level 200, right associativity).

Definition emit (ev : event) : M unit :=
  fun st => (Ok tt, mkState (self st) (trace st ++ [ev]) (objects st)).
Definition get_self : M OdooClient := fun st => (Ok (self st), st).
Definition set_uid (v : json) : M unit :=
  fun st =>
    let c := self st in
    (Ok tt,
     mkState (mkClient (url c) (db c) (username c) (api_key c) (timeout c)
                       (verify_ssl c) v)
             (trace st) (objects st)).

Definition logger (r : log_record) : M unit := emit (EvLog r).
Definition sleep (secs : Z) : M unit := emit (EvSleep secs).

(** The events a computation appends to the trace. *)
Definition events_of {A} (m : M A) (st : state) : list event :=
  drop (length (trace st)) (trace (snd (m st))).

Section Client.
(** The remote service answers a post from what happened so far and what
    is posted now; [entropy] feeds [random.randint]. *)
Variable remote : list event -> json -> post_outcome.
Variable entropy : list event -> Z.

(** *** Transport *)

Definition sess_post (payload : json) : M Response :=
  fun st =>
    let c := self st in
    let out := remote (trace st) payload in
    let st' := mkState c
                 (trace st ++ [EvPost (url c) payload (timeout c) (verify_ssl c) out])
                 (objects st) in
    match out with
    | PostConnectionError => (Raise ConnectionError, st')
    | PostOtherError => (Raise RequestException, st')
    | PostReturns r => (Ok r, st')
    end.

Definition raise_for_status (r : Response) : M unit :=
  if (400 <=? status_code r) && (status_code r <? 600)
  then raise (HTTPError (status_code r))
  else ret tt.

(** [except (requests.ConnectionError, requests.HTTPError)]. *)
Definition post_catches (exc : exn) : bool :=
  match exc with
  | ConnectionError | HTTPError _ => true
  | _ => false
  end.

(** [isinstance(exc, requests.HTTPError) and exc.response.status_code < 500]. *)
Definition http_below_500 (exc : exn) : bool :=
  match exc with
  | HTTPError s => s <? 500
  | _ => false
  end.

(** The body of [for attempt in range(3)], over the attempts still to run. *)
Fixpoint _post_from (attempts : list Z) (payload : json) : M Response :=
  match attempts with
  | [] => raise (RuntimeError "Unreachable")
  | attempt :: rest =>
      fun st =>
        match (let* resp := sess_post payload in
               raise_for_status resp ;;
               ret resp) st with
        | (Ok resp, st1) => (Ok resp, st1)
        | (Raise exc, st1) =>
            if post_catches exc then
              if (attempt =? 2) || http_below_500 exc
              then (Raise exc, st1)
              else (let wait := 2 ^ attempt in
                    logger (LogTransient exc wait) ;;
                    sleep wait ;;
                    _post_from rest payload) st1
            else (Raise exc, st1)
        end
  end.

Definition _post (payload : json) : M Response :=
  _post_from [0; 1; 2] payload.


(** *** Python built-ins on decoded values *)

(** [k in v] for a string [k]. *)
Definition py_contains (v : json) (k : string) : M bool :=
  match v with
  | JObj kvs => ret (match sget k kvs with Some _ => true | None => false end)
  | JList xs =>
      ret (existsb (fun x => match x with JStr s => String.eqb s k | _ => false end) xs)
  | JStr s => ret (match String.index 0%nat k s with Some _ => true | None => false end)
  | _ => raise TypeError
  end.

(** [v[k]] for a string [k]. *)
Definition py_getitem (v : json) (k : string) : M json :=
  match v with
  | JObj kvs =>
      match sget k kvs with
      | Some x => ret x
      | None => raise (KeyError k)
      end
  | _ => raise TypeError
  end.

(** [v.get(k)]. *)
Definition py_get (v : json) (k : string) : M json :=
  match v with
  | JObj kvs => ret (default JNull (sget k kvs))
  | _ => raise AttributeError
  end.

(** [list(v)]. *)
Definition py_list (v : json) : M (list json) :=
  match v with
  | JList xs => ret xs
  | JObj kvs => ret (map (fun kv => JStr (fst kv)) kvs)
  | JStr s => ret (map JStr (code_points s))
  | _ => raise TypeError
  end.

(** [int(v)]; [int_of_str] is the parser of [int] on strings. *)
Variable int_of_str : string -> option Z.

Definition py_int (v : json) : M Z :=
  match v with
  | JInt n => ret n
  | JBool b => ret (if b then 1 else 0)
  | JStr s =>
      match int_of_str s with
      | Some n => ret n
      | None => raise ValueError
      end
  | _ => raise TypeError
  end.

(** Equality of dictionary keys: [True == 1] and [False == 0]. *)
Definition py_key_eqb (a b : json) : bool :=
  match a, b with
  | JNull, JNull => true
  | JStr s, JStr t => String.eqb s t
  | JInt n, JInt m => n =? m
  | JBool x, JBool y => Bool.eqb x y
  | JInt n, JBool y | JBool y, JInt n => n =? (if y then 1 else 0)
  | _, _ => false
  end.

(** One element of the sequence given to [dict(...)]: it must itself be an
    iterable of exactly two items, the first one hashable. *)
Definition py_pair (x : json) : M (json * json) :=
  let* kv :=
    match x with
    | JList [a; b] => ret (a, b)
    | JStr s =>
        match code_points s with
        | [a; b] => ret (JStr a, JStr b)
        | _ => raise ValueError
        end
    | JObj [(k1, _); (k2, _)] => ret (JStr k1, JStr k2)
    | JList _ | JObj _ => raise ValueError
    | _ => raise TypeError
    end in
  match fst kv with
  | JList _ | JObj _ => raise TypeError
  | _ => ret kv
  end.

Fixpoint py_dict_update (d : list (json * json)) (xs : list json)
  : M (list (json * json)) :=
  match xs with
  | [] => ret d
  | x :: xs' =>
      let* kv := py_pair x in
      py_dict_update (dict_set py_key_eqb (fst kv) (snd kv) d) xs'
  end.

(** [dict(v)]. *)
Definition py_dict (v : json) : M (list (json * json)) :=
  match v with
  | JObj kvs => ret (map (fun kv => (JStr (fst kv), snd kv)) kvs)
  | JList xs => py_dict_update [] xs
  | JStr s => py_dict_update [] (map (fun a => JStr (String a EmptyString))
                                     (String.list_ascii_of_string s))
  | _ => raise TypeError
  end.

(** [try: m except <catches>: h]. *)
Definition try_except {A} (m : M A) (catches : exn -> bool) (h : M A) : M A :=
  fun st =>
    match m st with
    | (Raise e, st') => if catches e then h st' else (Raise e, st')
    | r => r
    end.

(** *** Envelope *)

Definition randint (lo hi : Z) : M Z :=
  fun st => (Ok (lo + entropy (trace st) mod (hi - lo + 1)), st).

Definition envelope (service method : string) (args : list json) (id : Z) : json :=
  JObj [("jsonrpc", JStr "2.0");
        ("method", JStr "call");
        ("params", JObj [("service", JStr service);
                         ("method", JStr method);
                         ("args", JList args)]);
        ("id", JInt id)].

(** [Response.json()]. *)
Definition response_json (r : Response) : M json :=
  match body r with
  | Some v => ret v
  | None => raise JSONDecodeError
  end.

Definition _json_rpc (service method : string) (args : list json) : M json :=
  let* id := randint 1 1000000 in
  let payload := envelope service method args id in
  logger (LogRpc payload) ;;
  let* r := _post payload in
  let* resp := response_json r in
  let* has_error := py_contains resp "error" in
  if has_error then
    let* err := py_getitem resp "error" in
    logger (LogRpcError err) ;;
    raise (RPCError err)
  else py_get resp "result".

(** *** Core methods *)

Definition _COMMON : string := "common".
Definition _OBJECT : string := "object".

Definition authenticate : M json :=
  let* c := get_self in
  let* result := _json_rpc _COMMON "authenticate"
                   [JStr (db c); JStr (username c); JStr (api_key c); JObj []] in
  if negb (isinstance_int result) then raise (AuthenticationError result)
  else
    set_uid result ;;
    let* c' := get_self in
    logger (LogAuthenticated (uid c')) ;;
    ret result.

Definition execute_kw (model method : string) (args : list json)
           (kwargs : list (string * json)) : M json :=
  let* c := get_self in
  (if is_None (uid c) then authenticate ;; ret tt else ret tt) ;;
  let* c := get_self in
  _json_rpc _OBJECT "execute_kw"
    [JStr (db c); uid c; JStr (api_key c); JStr model; JStr method;
     JList args; JObj kwargs].

(** *** Utilities *)

Definition fields_get (model : string) (attributes : option (list string)) : M json :=
  execute_kw model "fields_get" [JList []]
    [("attributes", JList (map JStr (default [] attributes)))].

Definition selection_labels (model field : string) : M (list (json * json)) :=
  let* meta := fields_get model (Some ["selection"%string]) in
  let* fmeta := py_getitem meta field in
  let* sel := py_getitem fmeta "selection" in
  py_dict sel.

(** *** Generic CRUD wrappers *)

Definition create (model : string) (values : list (string * json)) : M Z :=
  let* r := execute_kw model "create" [JObj values] [] in
  py_int r.


Definition update (model : string) (ids : list Z) (values : list (string * json))
  : M bool :=
  let* r := execute_kw model "write" [JList (map JInt ids); JObj values] [] in
  ret (truthy r).

Definition delete (model : string) (ids : list Z) : M bool :=
  let* r := execute_kw model "unlink" [JList (map JInt ids)] [] in
  ret (truthy r).

Definition opt_json {A} (f : A -> json) (o : option A) : json :=
  match o with Some a => f a | None => JNull end.


(** The keyword dictionary [opts] that [search_read] builds. *)
Definition search_read_opts (fields : option (list string)) (offset : Z)
           (limit : option Z) (order : option string) : list (string * json) :=
  let opts := [] in
  let opts := match fields with
              | Some fs => sset "fields" (JList (map JStr fs)) opts
              | None => opts
              end in
  let opts := if truthy (JInt offset) then sset "offset" (JInt offset) opts else opts in
  let opts := match limit with
              | Some l => sset "limit" (JInt l) opts
              | None => opts
              end in
  let opts := if truthy (opt_json JStr order)
              then sset "order" (opt_json JStr order) opts else opts in
  opts.

Definition search_read (model : string) (domain : option (list json))
           (fields : option (list string)) (offset : Z) (limit : option Z)
           (order : option string) : M (list json) :=
  let* r := execute_kw model "search_read" [JList (default [] domain)]
              (search_read_opts fields offset limit order) in
  py_list r.


(** *** Batch *)

Definition execute_batch (calls : list json) : M json :=
  let* c := get_self in
  let* u := (if truthy (uid c) then ret (uid c) else authenticate) in
  _json_rpc _OBJECT "execute" [JStr (db c); u; JStr (api_key c); JList calls].

(** *** Project, stage and task helpers

    [attach_file] reads a file from disk and base64-encodes it before a
    plain [create]; it is left out. *)

Definition _PROJECT_MODEL : string := "project.project".
Definition _TASK_MODEL : string := "project.task".
Definition _STAGE_MODEL : string := "project.task.type".

Definition create_project (values : list (string * json)) : M Z :=
  create _PROJECT_MODEL values.

Definition update_project (project_id : Z) (values : list (string * json)) : M bool :=
  update _PROJECT_MODEL [project_id] values.

Definition create_task (values : list (string * json)) : M Z :=
  create _TASK_MODEL values.

Definition update_task (task_id : Z) (values : list (string * json)) : M bool :=
  update _TASK_MODEL [task_id] values.

Definition set_task_description (task_id : Z) (html : string) : M bool :=
  update_task task_id [("description", JStr html)].

(** Dictionaries held by reference: [dict(values)] allocates a new
    object, [vals[k] = v] writes to the object behind [vals]. *)
Definition deref (l : loc) : M (list (string * json)) :=
  fun st =>
    match objects st !! l with
    | Some d => (Ok d, st)
    | None => (Raise TypeError, st)
    end.

Definition dict_copy (l : loc) : M loc :=
  let* d := deref l in
  fun st =>
    let l' := fresh (dom (objects st)) in
    (Ok l', mkState (self st) (trace st) (<[l' := d]> (objects st))).

Definition setitem (l : loc) (k : string) (v : json) : M unit :=
  let* d := deref l in
  fun st => (Ok tt, mkState (self st) (trace st) (<[l := sset k v d]> (objects st))).

(** [values] is the caller's dictionary; [create_task] receives the
    entries of [vals] as they are when the payload is serialised (the
    client writes to no dictionary in between). *)
Definition create_subtask (parent_id : Z) (values : loc) : M Z :=
  let* vals := dict_copy values in
  setitem vals "parent_id" (JInt parent_id) ;;
  let* d := deref vals in
  create_task d.

(** [str.lower]. *)
Variable lower : string -> string.

(** [next(c for c, lbl in sel.items() if lbl.lower() == state_label.lower())]. *)
Fixpoint next_code (sel : list (json * json)) (state_label : string) : M json :=
  match sel with
  | [] => raise StopIteration
  | (c, lbl) :: sel' =>
      match lbl with
      | JStr l =>
          if String.eqb (lower l) (lower state_label) then ret c
          else next_code sel' state_label
      | _ => raise AttributeError
      end
  end.

(** [except (StopIteration, KeyError)]. *)
Definition move_task_catches (exc : exn) : bool :=
  match exc with
  | StopIteration | KeyError _ => true
  | _ => false
  end.

Definition move_task (task_id stage_id : Z) (state_label : option string) : M bool :=
  let vals := [("stage_id"%string, JInt stage_id)] in
  let* vals :=
    match state_label with
    | Some lbl =>
        if truthy (JStr lbl) then
          try_except
            (let* sel := selection_labels _TASK_MODEL "state" in
             let* code := next_code sel lbl in
             ret (sset "state" code vals))
            move_task_catches
            (logger (LogStateLabelNotFound lbl) ;; ret vals)
        else ret vals
    | None => ret vals
    end in
  update_task task_id vals.

Definition delete_project (project_id : Z) : M bool :=
  delete _PROJECT_MODEL [project_id].

Definition archive_project (project_id : Z) (active : bool) : M bool :=
  update_project project_id [("active", JBool active)].

Definition create_stage (project_id : Z) (name : string) (seq : Z) (fold : bool) : M Z :=
  create _STAGE_MODEL
    [("name", JStr name); ("sequence", JInt seq); ("fold", JBool fold);
     ("project_ids", JList [JList [JInt 4; JInt project_id]])].

Definition update_stage (stage_id : Z) (values : list (string * json)) : M bool :=
  update _STAGE_MODEL [stage_id] values.

Definition archive_stage (stage_id : Z) (active : bool) : M bool :=
  update _STAGE_MODEL [stage_id] [("active", JBool active)].

Definition delete_stage (stage_id : Z) : M bool :=
  delete _STAGE_MODEL [stage_id].

Definition delete_task (task_id : Z) : M bool :=
  delete _TASK_MODEL [task_id].

Definition archive_task (task_id : Z) (active : bool) : M bool :=
  update_task task_id [("active", JBool active)].

Definition assign_task (task_id user_id : Z) (add_follower : bool) : M bool :=
  let vals := [("user_id"%string, JInt user_id)] in
  let vals := if add_follower
              then sset "message_follower_ids" (JList [JList [JInt 4; JInt user_id]]) vals
              else vals in
  update_task task_id vals.

(** *** Advanced helpers *)

Definition copy_record (model : string) (record_id : Z)
           (defaults : option (list (string * json))) : M Z :=
  let* r := execute_kw model "copy"
              [JList [JInt record_id]; JObj (default [] defaults)] [] in
  py_int r.


(** The generator object of [iter_search_read]: where its frame is
    suspended, with the local variables [records] and [offset]. *)
Inductive generator : Type :=
| GenStart                                     (* created, not yet run *)
| GenYield (records pending : list json) (offset : Z)   (* inside [yield from] *)
| GenDone.

Section Pagination.
Variables (model : string) (domain : option (list json)) (batch : Z)
          (fields : option (list string)) (order : option string).

(** One turn of [while True], up to the first [yield]. *)
Definition iter_page (offset : Z) : M (option json * generator) :=
  let* records := search_read model domain fields offset (Some batch) order in
  match records with
  | [] => ret (None, GenDone)
  | r :: pending => ret (Some r, GenYield records pending offset)
  end.

(** [next(gen)]; [None] is [StopIteration]. *)
Definition gen_next (g : generator) : M (option json * generator) :=
  match g with
  | GenStart => iter_page 0
  | GenYield records (r :: pending) offset =>
      ret (Some r, GenYield records pending offset)
  | GenYield records [] offset =>
      iter_page (offset + Z.of_nat (length records))
  | GenDone => ret (None, GenDone)
  end.

(** A consumer that pulls at most [n] times ([list(gen)], a [for] loop). *)
Fixpoint gen_take (n : nat) (g : generator) : M (list json * generator) :=
  match n with
  | O => ret ([], g)
  | S n' =>
      let* x := gen_next g in
      match x with
      | (None, g') => ret ([], g')
      | (Some r, g') =>
          let* rest := gen_take n' g' in
          ret (r :: fst rest, snd rest)
      end
  end.

Definition iter_search_read : generator := GenStart.
End Pagination.

Definition list_attachments (res_model : string) (res_id : Z)
           (fields : option (list string)) : M (list json) :=
  search_read "ir.attachment"
    (Some [JList [JStr "res_model"; JStr "="; JStr res_model];
           JList [JStr "res_id"; JStr "="; JInt res_id]])
    (Some (match fields with
           | Some (f :: fs) => f :: fs
           | _ => ["name"; "mimetype"; "datas_fname"]%string
           end))
    0 None None.

(** One entry of the comprehension in [bulk_write]. *)
Definition write_call (model : string) (item : Z * list (string * json)) : json :=
  JObj [("model", JStr model);
        ("method", JStr "write");
        ("args", JList [JList [JInt (fst item)]; JObj (snd item)]);
        ("kwargs", JObj [])].

(** [id_vals_map.items()] is the list of entries in insertion order. *)
Definition bulk_write (model : string) (id_vals_map : list (Z * list (string * json)))
  : M json :=
  let calls := map (write_call model) id_vals_map in
  execute_batch calls.

Definition version : M json := _json_rpc _COMMON "version" [].

(** *** Lifecycle *)

Definition __enter__ : M unit := authenticate ;; ret tt.

(** "Nothing to dispose - keep session open for re-use." *)
Definition __exit__ : M unit := ret tt.

(** [with client: body]. *)
Definition with_client {A} (body : M A) : M A :=
  fun st =>
    match __enter__ st with
    | (Raise e, st1) => (Raise e, st1)
    | (Ok _, st1) =>
        let (r, st2) := body st1 in
        match __exit__ st2 with
        | (Raise e, st3) => (Raise e, st3)
        | (Ok _, st3) => (r, st3)
        end
    end.

(** *** Sequences of authenticated operations *)

Inductive operation : Type :=
| CallExecuteKw (model method : string) (args : list json)
                (kwargs : list (string * json))
| CallExecuteBatch (calls : list json).

Definition run_operation (op : operation) : M json :=
  match op with
  | CallExecuteKw model method args kwargs => execute_kw model method args kwargs
  | CallExecuteBatch calls => execute_batch calls
  end.

(** The caller issues the operations one after the other and keeps each
    outcome, an exception included. *)
Fixpoint run_operations (ops : list operation) : M (list (result json)) :=
  match ops with
  | [] => ret []
  | op :: ops' =>
      fun st =>
        let (r, st1) := run_operation op st in
        let (rs, st2) := run_operations ops' st1 in
        (match rs with
         | Ok l => Ok (r :: l)
         | Raise e => Raise e
         end, st2)
  end.

End Client.

(** ** Observations on a trace *)

(** The outcome of every HTTP post, the payload of every HTTP post, the
    delays slept, and the payload of every remote call (one per call of
    [_json_rpc], however many posts it took). *)
Definition outcomes : list event -> list post_outcome :=
  omap (fun ev => match ev with EvPost _ _ _ _ o => Some o | _ => None end).
Definition posts : list event -> list json :=
  omap (fun ev => match ev with EvPost _ p _ _ _ => Some p | _ => None end).
Definition sleeps : list event -> list Z :=
  omap (fun ev => match ev with EvSleep s => Some s | _ => None end).
Definition rpcs : list event -> list json :=
  omap (fun ev => match ev with EvLog (LogRpc p) => Some p | _ => None end).

(** A connection-level failure or a 5xx status. *)
Definition transient (o : post_outcome) : bool :=
  match o with
  | PostConnectionError => true
  | PostOtherError => false
  | PostReturns r => (500 <=? status_code r) && (status_code r <? 600)
  end.

(** What a single attempt of [_post] makes of the outcome of its post. *)
Definition attempt_result (o : post_outcome) : result Response :=
  match o with
  | PostConnectionError => Raise ConnectionError
  | PostOtherError => Raise RequestException
  | PostReturns r =>
      if (400 <=? status_code r) && (status_code r <? 600)
      then Raise (HTTPError (status_code r))
      else Ok r
  end.

Definition failure_of (o : post_outcome) : exn :=
  match attempt_result o with
  | Raise e => e
  | Ok _ => RuntimeError "no failure"
  end.

(** The events of a run of [_post] whose posts had the outcomes [outs]:
    every post but the last is followed by a warning and a sleep of
    [2 ^ attempt] seconds. *)
Fixpoint retry_events (c : OdooClient) (payload : json) (attempt : Z)
         (outs : list post_outcome) : list event :=
  match outs with
  | [] => []
  | o :: outs' =>
      EvPost (url c) payload (timeout c) (verify_ssl c) o ::
      match outs' with
      | [] => []
      | _ => EvLog (LogTransient (failure_of o) (2 ^ attempt)) ::
             EvSleep (2 ^ attempt) ::
             retry_events c payload (attempt + 1) outs'
      end
  end.

(** The state after the events [evs] were appended to the trace. *)
Definition with_events (st : state) (evs : list event) : state :=
  mkState (self st) (trace st ++ evs) (objects st).

Definition post_event (st : state) (payload : json) (o : post_outcome) : event :=
  EvPost (url (self st)) payload (timeout (self st)) (verify_ssl (self st)) o.

(** ** Vocabulary of the statements *)

(** A status on which [raise_for_status] raises nothing. *)
Definition ok_status (r : Response) : bool :=
  negb ((400 <=? status_code r) && (status_code r <? 600)).

(** The payload [_json_rpc] builds in state [st]. *)
Definition rpc_payload (entropy : list event -> Z) (st : state)
           (service method : string) (args : list json) : json :=
  envelope service method args (1 + entropy (trace st) mod 1000000).

(** The state after [self.uid = u]. *)
Definition with_uid (st : state) (u : json) : state :=
  let c := self st in
  mkState (mkClient (url c) (db c) (username c) (api_key c) (timeout c) (verify_ssl c) u)
          (trace st) (objects st).


(** The arguments of the authentication call. *)
Definition auth_args (c : OdooClient) : list json :=
  [JStr (db c); JStr (username c); JStr (api_key c); JObj []].


(** The field [k] of a decoded response: only an object has fields. *)
Definition field (k : string) (v : json) : option json :=
  match v with
  | JObj o => sget k o
  | _ => None
  end.

(** The envelope claim for one call, as stated: whatever the decoded body
    [v] of the response the transport hands back, [RPCError] is raised,
    with the remote error, exactly when [v] has an "error" field, and
    without one the "result" field is returned as it is. *)
Definition _json_rpc_as_stated (remote : list event -> json -> post_outcome)
           (entropy : list event -> Z) (service method : string) (args : list json)
           (st : state) : Prop :=
  let p := rpc_payload entropy st service method args in
  forall r st1 v,
    _post remote p (with_events st [EvLog (LogRpc p)]) = (Ok r, st1) ->
    body r = Some v ->
    let res := fst (_json_rpc remote entropy service method args st) in
    (forall err, res = Raise (RPCError err) <-> field "error" v = Some err)
    /\ (field "error" v = None -> res = Ok (default JNull (field "result" v))).

(** Between one and three posts, each of the payload [p]. *)
Definition posted (ps : list json) (p : json) : Prop :=
  exists n, (1 <= n <= 3)%nat /\ ps = replicate n p.


(** ** Construction *)

(** [s.rstrip("/")]. *)
Fixpoint rstrip_slash (s : string) : string :=
  match s with
  | EmptyString => EmptyString
  | String a s' =>
      match rstrip_slash s' with
      | EmptyString => if Ascii.eqb a (Ascii.ascii_of_nat 47) then EmptyString else String a EmptyString
      | t => String a t
      end
  end.

Definition __init__ (url db username api_key : string) (timeout : Z)
           (verify_ssl : bool) : OdooClient :=
  mkClient (rstrip_slash url) db username api_key timeout verify_ssl JNull.

(** The world right after construction: nothing has happened yet. *)
Definition new_state (c : OdooClient) : state := mkState c [] ∅.

(** ** Remotes and clients for the examples *)

(** A remote that answers the [k]-th post, counted after the [skip] posts
    already in the trace, with the [k]-th outcome of a script, and
    refuses the connection once the script is over. *)
Definition scripted_from (skip : nat) (script : list post_outcome)
  : list event -> json -> post_outcome :=
  fun tr _ => nth (length (posts tr) - skip) script PostConnectionError.

Definition scripted : list post_outcome -> list event -> json -> post_outcome :=
  scripted_from 0.

(** A 200 response carrying [{"jsonrpc": "2.0", "result": result}]. *)
Definition reply (result : json) : post_outcome :=
  PostReturns (mkResponse 200 (Some (JObj [("jsonrpc", JStr "2.0"); ("result", result)]))).

(** A 200 response carrying [{"jsonrpc": "2.0", "error": err}]. *)
Definition reply_error (err : json) : post_outcome :=
  PostReturns (mkResponse 200 (Some (JObj [("jsonrpc", JStr "2.0"); ("error", err)]))).

(** A response with the given status and a body that is not JSON. *)
Definition status_only (status : Z) : post_outcome :=
  PostReturns (mkResponse status None).

Definition no_entropy : list event -> Z := fun _ => 0.

(** [str.lower] on the ASCII letters. *)
Definition ascii_lower (a : Ascii.ascii) : Ascii.ascii :=
  let n := Ascii.N_of_ascii a in
  if ((65 <=? n) && (n <=? 90))%N then Ascii.ascii_of_N (n + 32) else a.

Fixpoint lower_ascii (s : string) : string :=
  match s with
  | EmptyString => EmptyString
  | String a s' => String (ascii_lower a) (lower_ascii s')
  end.

Definition demo_client : OdooClient :=
  __init__ "https://my.odoo.com/jsonrpc/" "my" "bot@example.com" "secret" 30 true.

(** The demo client with uid 7 cached. *)
Definition demo_session : state := with_uid (new_state demo_client) (JInt 7).

(** ** Counting authentications *)

(** The service and the method a payload addresses. *)
Definition rpc_target (p : json) : option (string * string) :=
  match p with
  | JObj kvs =>
      match sget "params" kvs with
      | Some (JObj ps) =>
          match sget "service" ps, sget "method" ps with
          | Some (JStr s), Some (JStr m) => Some (s, m)
          | _, _ => None
          end
      | _ => None
      end
  | _ => None
  end.

Definition is_auth (p : json) : bool :=
  match rpc_target p with
  | Some (s, m) => String.eqb s "common" && String.eqb m "authenticate"
  | None => false
  end.

(** How many times [authenticate] was called in a stretch of trace. *)
Definition auth_count (evs : list event) : nat :=
  length (List.filter is_auth (rpcs evs)).

(** ** The scoped session as the specification words it *)

(** The scoped-session claim, as stated: entering the scope does not
    authenticate (the first use does), and leaving it releases the
    connection pool and makes no call to the remote. *)
Definition scoped_session_as_stated (remote : list event -> json -> post_outcome)
           (entropy : list event -> Z) (c : OdooClient) : Prop :=
  rpcs (events_of (with_client remote entropy (ret tt)) (new_state c)) = []
  /\ EvClose ∈ events_of (with_client remote entropy (ret tt)) (new_state c)
  /\ posts (events_of __exit__ (snd (__enter__ remote entropy (new_state c)))) = [].

(** A payload of the batch executor. *)
Definition is_batch (p : json) : bool :=
  match rpc_target p with
  | Some (s, m) => String.eqb s "object" && String.eqb m "execute"
  | None => false
  end.

(** [self.uid or self.authenticate()], the uid [execute_batch] sends. *)
Definition uid_or_authenticate (remote : list event -> json -> post_outcome)
           (entropy : list event -> Z) : M json :=
  fun st =>
    if truthy (uid (self st)) then (Ok (uid (self st)), st)
    else authenticate remote entropy st.

(** The bulk-write claim for one call that returns, as stated: the batch
    made exactly one round trip and the returned list has one result per
    entry of the mapping. *)
Definition bulk_write_as_stated (remote : list event -> json -> post_outcome)
           (entropy : list event -> Z) (model : string)
           (id_vals_map : list (Z * list (string * json))) (st : state) : Prop :=
  let run := bulk_write remote entropy model id_vals_map in
  forall res,
    fst (run st) = Ok res ->
    length (List.filter is_batch (posts (events_of run st))) = 1%nat
    /\ exists results, res = JList results /\ length results = length id_vals_map.

(** ** The CRUD facade as data *)





(** ** Vocabulary of the pagination statements *)

(** The "params" member of a posted payload. *)
Definition rpc_params (p : json) : json :=
  match p with
  | JObj kvs => default JNull (sget "params" kvs)
  | _ => JNull
  end.

(** The "params" of the [search_read] call that [iter_search_read] makes at
    [offset]. *)
Definition search_read_params (c : OdooClient) (model : string)
           (domain : option (list json)) (batch : Z) (fields : option (list string))
           (order : option string) (offset : Z) : json :=
  JObj [("service", JStr "object");
        ("method", JStr "execute_kw");
        ("args", JList [JStr (db c); uid c; JStr (api_key c);
                        JStr model; JStr "search_read";
                        JList [JList (default [] domain)];
                        JObj (search_read_opts fields offset (Some batch) order)])].

(** The offset a [search_read] payload asks for (the server starts at 0
    when the key is absent). *)
Definition wire_offset (p : json) : Z :=
  match rpc_params p with
  | JObj ps =>
      match sget "args" ps with
      | Some (JList [_; _; _; _; _; _; JObj kwargs]) =>
          match sget "offset" kwargs with
          | Some (JInt o) => o
          | _ => 0
          end
      | _ => 0
      end
  | _ => 0
  end.

(** The offsets of the round trips over the given pages: each one is the
    previous one plus the size of the page it returned. *)
Fixpoint page_offsets (start : Z) (pages : list (list json)) : list Z :=
  match pages with
  | [] => [start]
  | page :: pages' => start :: page_offsets (start + Z.of_nat (length page)) pages'
  end.

(** The remote answers the posts that follow the first [k] ones with the
    given pages, one per post, and then with an empty page. *)
Definition serves_pages (remote : list event -> json -> post_outcome) (k : nat)
           (pages : list (list json)) : Prop :=
  forall i page tr payload,
    (pages ++ [[]]) !! i = Some page ->
    length (posts tr) = (k + i)%nat ->
    remote tr payload = reply (JList page).

(** A page of [size] records numbered from [from]. *)
Definition numbered_page (from : Z) (size : nat) : list json :=
  map (fun i => JObj [("id", JInt i)]) (seqZ from (Z.of_nat size)).

Definition pages_237 : list (list json) :=
  [numbered_page 0 100; numbered_page 100 100; numbered_page 200 37].

(** ** Vocabulary of the move-task statements *)

(** A code-to-label mapping whose codes and labels are strings, as
    [selection_labels] hands it over. *)
Definition typed_selection (sel : list (string * string)) : list (json * json) :=
  map (fun cl => (JStr (fst cl), JStr (snd cl))) sel.

(** The first code whose label equals [label] up to case. *)
Definition first_match (lower : string -> string) (sel : list (string * string))
           (label : string) : option string :=
  fst <$> List.find (fun cl => String.eqb (lower (snd cl)) (lower label)) sel.


(** The metadata of the examples: the "state" selection of project.task. *)
Definition task_state_meta : json :=
  JObj [("state", JObj [("selection",
          JList [JList [JStr "01_in_progress"; JStr "In Progress"];
                 JList [JStr "1_done"; JStr "Done"];
                 JList [JStr "1_canceled"; JStr "Cancelled"]])])].

(** The "params" of the [write] call of [update_task] on the demo session. *)
Definition write_params (task_id : Z) (values : list (string * json)) : json :=
  JObj [("service", JStr "object");
        ("method", JStr "execute_kw");
        ("args", JList [JStr "my"; JInt 7; JStr "secret";
                        JStr "project.task"; JStr "write";
                        JList [JList [JInt task_id]; JObj values];
                        JObj []])].

(** ** Vocabulary of the further statements *)

(** A string of [n] slashes. *)
Fixpoint slashes (n : nat) : string :=
  match n with
  | O => EmptyString
  | S n' => String (Ascii.ascii_of_nat 47) (slashes n')
  end.

(** The last character of a string, if any. *)
Fixpoint last_char (s : string) : option Ascii.ascii :=
  match s with
  | EmptyString => None
  | String a EmptyString => Some a
  | String _ s' => last_char s'
  end.

(** The keys of a dictionary, in order. *)
Definition keys {K V : Type} (d : list (K * V)) : list K := map fst d.

(** The settings of a client, the uid apart. *)
Definition same_config (c c' : OdooClient) : Prop :=
  url c' = url c /\ db c' = db c /\ username c' = username c
  /\ api_key c' = api_key c /\ timeout c' = timeout c /\ verify_ssl c' = verify_ssl c.

(** An event the client may cause: a post goes to the endpoint of the
    client with its timeout and TLS flag, the session is never closed. *)
Definition well_targeted (c : OdooClient) (ev : event) : Prop :=
  match ev with
  | EvPost u _ t v _ => u = url c /\ t = timeout c /\ v = verify_ssl c
  | EvClose => False
  | _ => True
  end.

(** How a run may change the world: the trace grows by well-targeted
    events, the store and the settings stay, and the uid either stays or
    becomes an [int]. *)
Definition evolves (st st' : state) : Prop :=
  (exists evs, trace st' = trace st ++ evs /\ Forall (well_targeted (self st)) evs)
  /\ objects st' = objects st
  /\ same_config (self st) (self st')
  /\ (uid (self st') = uid (self st) \/ isinstance_int (uid (self st')) = true).

(** [Optional[int]]: no uid, or an [int]. *)
Definition uid_ok (c : OdooClient) : Prop :=
  uid c = JNull \/ isinstance_int (uid c) = true.

(** The third-from-left argument list of a payload: its "args". *)
Definition rpc_args (p : json) : list json :=
  match rpc_params p with
  | JObj ps =>
      match sget "args" ps with
      | Some (JList args) => args
      | _ => []
      end
  | _ => []
  end.

(** The payload [execute_kw] builds in state [st]. *)
Definition kw_payload (entropy : list event -> Z) (st : state) (model method : string)
           (args : list json) (kwargs : list (string * json)) : json :=
  rpc_payload entropy st "object" "execute_kw"
    [JStr (db (self st)); uid (self st); JStr (api_key (self st));
     JStr model; JStr method; JList args; JObj kwargs].

(** The remote answers the call [p], made in state [st], at once, with a
    non-error status and an object without "error" whose "result" is [v]
    ([None] when the key is missing). *)
Definition answers (remote : list event -> json -> post_outcome) (st : state)
           (p v : json) : Prop :=
  exists resp o,
    remote (trace st ++ [EvLog (LogRpc p)]) p = PostReturns resp
    /\ ok_status resp = true
    /\ body resp = Some (JObj o)
    /\ sget "error" o = None
    /\ default JNull (sget "result" o) = v.

(** A selection as the metadata lists it: pairs [[code, label]]. *)
Definition selection_json (sel : list (string * string)) : json :=
  JList (map (fun cl => JList [JStr (fst cl); JStr (snd cl)]) sel).

(** The label listed last for a code. *)
Definition last_label (sel : list (string * string)) (code : string) : option string :=
  fold_left (fun acc cl => if String.eqb (fst cl) code then Some (snd cl) else acc) sel None.

(** What [dict(...)] makes of the listed pairs: a later pair with the same
    code replaces the label and keeps the place of the first one. *)
Definition selection_dict (sel : list (string * string)) : list (string * string) :=
  fold_left (fun d cl => dict_set String.eqb (fst cl) (snd cl) d) sel [].

(** ** The REST gateway ([odoo_api.py])

    A route is run with the client that [get_client] has opened; its
    exceptions are those of the SDK and of the built-ins, [IndexError],
    and the [HTTPException] the route raises itself. *)

Inductive api_exn : Type :=
| IndexError
| Sdk (e : exn)
| HTTPException (status : Z) (detail : string).

Inductive api_result (A : Type) : Type :=
| Returned (a : A)
| Raised (e : api_exn).
Arguments Returned {A} a.
Arguments Raised {A} e.

Definition Api (A : Type) : Type := state -> api_result A * state.

Definition api_ret {A} (a : A) : Api A := fun st => (Returned a, st).
Definition api_raise {A} (e : api_exn) : Api A := fun st => (Raised e, st).
Definition api_bind {A B} (m : Api A) (k : A -> Api B) : Api B :=
  fun st =>
    match m st with
    | (Returned a, st') => k a st'
    | (Raised e, st') => (Raised e, st')
    end.

(** A call into the SDK. *)
Definition sdk {A} (m : M A) : Api A :=
  fun st =>
    match m st with
    | (Ok a, st') => (Returned a, st')
    | (Raise e, st') => (Raised (Sdk e), st')
    end.

(** [val[0] if isinstance(val, (list, tuple)) else val]. *)
Definition _m2o_id (val : json) : api_result json :=
  match val with
  | JList [] => Raised IndexError
  | JList (x :: _) => Returned x
  | _ => Returned val
  end.

(** [{"id": x, **payload}]: the entries of [payload] written over [base]. *)
Definition dict_merge (base payload : list (string * json)) : list (string * json) :=
  fold_left (fun d kv => sset (fst kv) (snd kv) d) payload base.

(** [len(v)]. *)
Definition py_len (v : json) : result Z :=
  match v with
  | JList xs => Ok (Z.of_nat (length xs))
  | JObj kvs => Ok (Z.of_nat (length kvs))
  | JStr s => Ok (Z.of_nat (length (code_points s)))
  | _ => Raise TypeError
  end.

Section Gateway.
Variable remote : list event -> json -> post_outcome.
Variable entropy : list event -> Z.

(** What slicing a dictionary raises: [TypeError] (unhashable slice)
    before Python 3.12, [KeyError] since. *)
Variable dict_slice_exn : exn.

(** [v[:10]]. *)
Definition slice_10 (v : json) : api_result json :=
  match v with
  | JStr s => Returned (JStr (take_code_points 10 s))
  | JList xs => Returned (JList (take 10 xs))
  | JObj _ => Raised (Sdk dict_slice_exn)
  | _ => Raised (Sdk TypeError)
  end.

Definition _normalize_task (rec : list (string * json))
  : api_result (list (string * json)) :=
  let out := rec in
  match _m2o_id (default JNull (sget "project_id" out)) with
  | Raised e => Raised e
  | Returned p =>
      let out := sset "project_id" p out in
      match _m2o_id (default JNull (sget "stage_id" out)) with
      | Raised e => Raised e
      | Returned s =>
          let out := sset "stage_id" s out in
          match (if truthy (default JNull (sget "parent_id" out))
                 then match _m2o_id (default JNull (sget "parent_id" out)) with
                      | Returned x => Returned (sset "parent_id" x out)
                      | Raised e => Raised e
                      end
                 else Returned out) with
          | Raised e => Raised e
          | Returned out =>
              if truthy (default JNull (sget "date_deadline" out))
              then match slice_10 (default JNull (sget "date_deadline" out)) with
                   | Returned d => Returned (sset "date_deadline" d out)
                   | Raised e => Raised e
                   end
              else Returned out
          end
      end
  end.

(** [GET /version].  [odoo.__version__] is looked up on the client:
    neither the instance nor the class [OdooClient] has such an
    attribute ([__version__] is a global of the module). *)
Definition get_versions : Api json :=
  api_bind (sdk (version remote entropy)) (fun v =>
  api_bind (sdk (py_getitem v "server_version")) (fun _ =>
  api_raise (Sdk AttributeError))).

(** [PUT /projects/{project_id}]. *)
Definition api_update_project (project_id : Z) (payload : list (string * json)) : Api json :=
  api_bind (sdk (update_project remote entropy project_id payload)) (fun ok =>
  if negb ok then api_raise (HTTPException 404 "Project not found")
  else api_ret (JObj (dict_merge [("id", JInt project_id)] payload))).

(** [PATCH /projects/{project_id}/archive]. *)
Definition api_archive_project (project_id : Z) (active : bool) : Api json :=
  api_bind (sdk (archive_project remote entropy project_id active)) (fun _ =>
  api_ret (JObj [("id", JInt project_id); ("active", JBool active)])).

(** [DELETE /projects/{project_id}]. *)
Definition api_delete_project (project_id : Z) : Api json :=
  api_bind (sdk (delete_project remote entropy project_id)) (fun ok =>
  if negb ok then api_raise (HTTPException 404 "Project not found")
  else api_ret JNull).

(** [PUT /stages/{stage_id}]. *)
Definition api_update_stage (stage_id : Z) (payload : list (string * json)) : Api json :=
  api_bind (sdk (update_stage remote entropy stage_id payload)) (fun ok =>
  if negb ok then api_raise (HTTPException 404 "Stage not found")
  else api_ret (JObj (dict_merge [("id", JInt stage_id)] payload))).

(** [PATCH /stages/{stage_id}/archive]. *)
Definition api_archive_stage (stage_id : Z) (active : bool) : Api json :=
  api_bind (sdk (archive_stage remote entropy stage_id active)) (fun _ =>
  api_ret (JObj [("id", JInt stage_id); ("active", JBool active)])).

(** [DELETE /stages/{stage_id}]. *)
Definition api_delete_stage (stage_id : Z) : Api json :=
  api_bind (sdk (delete_stage remote entropy stage_id)) (fun ok =>
  if negb ok then api_raise (HTTPException 404 "Stage not found")
  else api_ret JNull).

(** [PUT /tasks/{task_id}]. *)
Definition api_update_task (task_id : Z) (payload : list (string * json)) : Api json :=
  api_bind (sdk (update_task remote entropy task_id payload)) (fun ok =>
  if negb ok then api_raise (HTTPException 404 "Task not found")
  else api_ret (JObj (dict_merge [("id", JInt task_id)] payload))).

(** [DELETE /tasks/{task_id}]. *)
Definition api_delete_task (task_id : Z) : Api json :=
  api_bind (sdk (delete_task remote entropy task_id)) (fun ok =>
  if negb ok then api_raise (HTTPException 404 "Task not found")
  else api_ret JNull).

(** [POST /bulk/{model}]: [{"updated": len(result)}]. *)
Definition api_bulk_write (model : string) (values : list (Z * list (string * json)))
  : Api json :=
  api_bind (sdk (bulk_write remote entropy model values)) (fun result =>
  api_bind (sdk (fun st => (py_len result, st))) (fun n =>
  api_ret (JObj [("updated", JInt n)]))).

(** [_normalize_task(r)] for an item of the list [search_read] returned:
    the lookups need a dictionary. *)
Definition normalize_item (r : json) : api_result json :=
  match r with
  | JObj rec =>
      match _normalize_task rec with
      | Returned out => Returned (JObj out)
      | Raised e => Raised e
      end
  | _ => Raised (Sdk AttributeError)
  end.

(** [[_normalize_task(r) for r in raw]], from left to right. *)
Fixpoint normalize_all (raw : list json) : api_result (list json) :=
  match raw with
  | [] => Returned []
  | r :: rest =>
      match normalize_item r with
      | Raised e => Raised e
      | Returned x =>
          match normalize_all rest with
          | Raised e => Raised e
          | Returned xs => Returned (x :: xs)
          end
      end
  end.

(** [dom] of [GET /tasks]: [if project_id] takes 0 for no filter. *)
Definition tasks_domain (project_id : option Z) : list json :=
  match project_id with
  | Some p => if p =? 0 then [] else [JList [JStr "project_id"; JStr "="; JInt p]]
  | None => []
  end.

Definition tasks_fields : list string :=
  ["id"; "name"; "project_id"; "stage_id"; "state"; "parent_id"; "date_deadline"]%string.

(** [GET /tasks]. *)
Definition api_list_tasks (project_id : option Z) : Api json :=
  api_bind (sdk (search_read remote entropy "project.task" (Some (tasks_domain project_id))
                   (Some tasks_fields) 0 None None)) (fun raw st =>
  (match normalize_all raw with
   | Returned l => Returned (JList l)
   | Raised e => Raised e
   end, st)).

End Gateway.

(** The value a many2one field is flattened to. *)
Definition m2o_flat (v : json) : json :=
  match v with
  | JList (x :: _) => x
  | _ => v
  end.

(** The first ten code points of a string, the first ten items of a list. *)
Definition cut_10 (v : json) : json :=
  match v with
  | JStr s => JStr (take_code_points 10 s)
  | JList xs => JList (take 10 xs)
  | _ => v
  end.

(** A deadline [_normalize_task] can cut: a falsy value, a string, a list. *)
Definition sliceable (v : json) : bool :=
  negb (truthy v) || match v with JStr _ | JList _ => true | _ => false end.

(** The fields [_normalize_task] rewrites. *)
Definition task_fields : list string :=
  ["project_id"; "stage_id"; "parent_id"; "date_deadline"]%string.

(** [isinstance(v, (list, tuple))] for a decoded value. *)
Definition is_list (v : json) : bool :=
  match v with JList _ => true | _ => false end.

(** The many2one fields [_normalize_task] flattens. *)
Definition m2o_fields : list string :=
  ["project_id"; "stage_id"; "parent_id"]%string.

(** [v == []] for a decoded value. *)
Definition is_empty_list (v : json) : bool :=
  match v with JList [] => true | _ => false end.

(** The record [_normalize_task] returns when it returns. *)
Definition normalized (rec : list (string * json)) : list (string * json) :=
  let get k := default JNull (sget k rec) in
  let out := sset "project_id" (m2o_flat (get "project_id")) rec in
  let out := sset "stage_id" (m2o_flat (get "stage_id")) out in
  let out := if truthy (get "parent_id")
             then sset "parent_id" (m2o_flat (get "parent_id")) out else out in
  if truthy (get "date_deadline")
  then sset "date_deadline" (cut_10 (get "date_deadline")) out else out.



(** Discharges [answers] on a scripted remote by evaluation. *)
Ltac answered :=
  eexists _, _; split_and!; [vm_compute; reflexivity|reflexivity..].

(** ** Transport: the retry policy *)

Section Transport.
Variable remote : list event -> json -> post_outcome.

Lemma with_events_nil st : with_events st [] = st.
Proof. destruct st; unfold with_events; cbn. by rewrite app_nil_r. Qed.

Lemma with_events_app st e1 e2 :
  with_events (with_events st e1) e2 = with_events st (e1 ++ e2).
Proof. unfold with_events; cbn. by rewrite app_assoc. Qed.

Lemma _post_from_cons attempt rest payload st :
  _post_from remote (attempt :: rest) payload st =
    let o := remote (trace st) payload in
    if transient o && negb (attempt =? 2)
    then _post_from remote rest payload
           (with_events st [post_event st payload o;
                            EvLog (LogTransient (failure_of o) (2 ^ attempt));
                            EvSleep (2 ^ attempt)])
    else (attempt_result o, with_events st [post_event st payload o]).
Proof.
  cbn [_post_from]. unfold bind at 1 2, sess_post, raise_for_status, post_event, with_events.
  cbn zeta. destruct (remote (trace st) payload) as [| |r] eqn:E; cbn [transient attempt_result failure_of post_catches http_below_500 andb orb].
  - destruct (attempt =? 2); cbn; [done|].
    unfold bind, logger, sleep, emit; cbn. by rewrite <- !app_assoc.
  - done.
  - unfold bind, ret, raise.
    destruct (400 <=? status_code r) eqn:H4, (status_code r <? 600) eqn:H6,
             (500 <=? status_code r) eqn:H5; cbn;
      try (destruct (status_code r <? 500) eqn:H7); 
      try (destruct (attempt =? 2) eqn:H2); cbn; try done; try lia.
    all: unfold bind, logger, sleep, emit, failure_of, attempt_result; cbn;
      rewrite ?H4, ?H6; cbn; rewrite <- ?app_assoc; try done.
Qed.

Lemma _post_from_shape n : forall a st payload,
  (0 < n)%nat -> (a + n = 3)%nat ->
  exists outs,
    (1 <= length outs <= n)%nat
    /\ snd (_post_from remote (map Z.of_nat (seq a n)) payload st)
       = with_events st (retry_events (self st) payload (Z.of_nat a) outs)
    /\ Forall (fun o => transient o = true) (removelast outs)
    /\ (forall o, last outs = Some o ->
          fst (_post_from remote (map Z.of_nat (seq a n)) payload st) = attempt_result o
          /\ (transient o = true -> length outs = n)).
Proof.
  induction n as [|n IH]; intros a st payload Hn Ha; [lia|].
  cbn [seq map]. rewrite _post_from_cons. cbn zeta.
  set (o := remote (trace st) payload).
  destruct (transient o && negb (Z.of_nat a =? 2)) eqn:Hretry.
  - apply andb_true_iff in Hretry as [Ht Hne].
    assert (0 < n)%nat as Hn' by (destruct n; [|lia]; assert (a = 2%nat) by lia; subst; done).
    destruct (IH (S a) (with_events st [post_event st payload o;
                            EvLog (LogTransient (failure_of o) (2 ^ Z.of_nat a));
                            EvSleep (2 ^ Z.of_nat a)]) payload Hn' ltac:(lia))
      as (outs & Hlen & Hst & Htr & Hlast).
    replace (Z.of_nat (S a)) with (Z.of_nat a + 1) in Hst by lia.
    destruct outs as [|o' outs']; [cbn in Hlen; lia|].
    exists (o :: o' :: outs'). split; [cbn in *; lia|]. split.
    { rewrite Hst, with_events_app. done. }
    split.
    { change (removelast (o :: o' :: outs')) with (o :: removelast (o' :: outs')).
      by constructor. }
    intros o0 Ho0. change (last (o :: o' :: outs')) with (last (o' :: outs')) in Ho0.
    destruct (Hlast o0 Ho0) as [Hres Hfull]. split; [done|].
    intros Hto. specialize (Hfull Hto). cbn in *; lia.
  - exists [o]. split; [cbn; lia|]. split; [done|]. split; [constructor|].
    intros o0 [= <-]. split; [done|]. intros Ht. rewrite Ht in Hretry. cbn in Hretry.
    apply negb_false_iff in Hretry. assert (a = 2%nat) by lia. subst. cbn. lia.
Qed.


Lemma _post_shape payload st :
  exists outs,
    (1 <= length outs <= 3)%nat
    /\ snd (_post remote payload st)
       = with_events st (retry_events (self st) payload 0 outs)
    /\ Forall (fun o => transient o = true) (removelast outs)
    /\ (forall o, last outs = Some o ->
          fst (_post remote payload st) = attempt_result o
          /\ (transient o = true -> length outs = 3%nat)).
Proof. apply (_post_from_shape 3 0); lia. Qed.

Lemma events_of_with_events {A} (m : M A) st evs :
  snd (m st) = with_events st evs -> events_of m st = evs.
Proof.
  unfold events_of. intros ->. cbn. by rewrite drop_app_length.
Qed.

(** C1.  Whatever the remote does, [_post] posts the payload between one
    and three times; it posts again only after a connection error or a
    5xx status, and only after having slept 1 second (after the first
    failure) or 2 seconds (after the second); a 4xx status ends the run
    at once with that [HTTPError], and a transient failure of the third
    post is raised to the caller. *)
Theorem _post_bounded_retry payload st :
  let r := fst (_post remote payload st) in
  let evs := events_of (_post remote payload) st in
  let outs := outcomes evs in
  (1 <= length outs <= 3)%nat
  /\ posts evs = replicate (length outs) payload
  /\ (forall i o, outs !! i = Some o -> (S i < length outs)%nat -> transient o = true)
  /\ (forall i o, outs !! i = Some o -> transient o = true -> (i < 2)%nat ->
        (S i < length outs)%nat)
  /\ sleeps evs = take (length outs - 1) [1; 2]
  /\ evs = retry_events (self st) payload 0 outs
  /\ (forall i resp, outs !! i = Some (PostReturns resp) ->
        400 <= status_code resp < 500 ->
        length outs = S i /\ r = Raise (HTTPError (status_code resp)))
  /\ (forall o, outs !! 2%nat = Some o -> transient o = true ->
        r = Raise (failure_of o)).
Proof.
  intros r evs outs.
  destruct (_post_shape payload st) as (outs0 & Hlen & Hst & Htr & Hlast).
  assert (evs = retry_events (self st) payload 0 outs0) as Hevs
    by (by apply events_of_with_events).
  fold r in Hlast. clearbody r evs. subst evs. clear Hst.
  assert (Hc : forall resp, 400 <= status_code resp < 500 ->
               transient (PostReturns resp) = false
               /\ attempt_result (PostReturns resp) = Raise (HTTPError (status_code resp))).
  { intros resp Hs. cbn.
    replace (400 <=? status_code resp) with true by lia.
    replace (500 <=? status_code resp) with false by lia.
    replace (status_code resp <? 600) with true by lia. done. }
  assert (Hf : forall o, transient o = true -> attempt_result o = Raise (failure_of o)).
  { intros [| |resp]; cbn; try done. unfold failure_of; cbn. intros Hs.
    replace (400 <=? status_code resp) with true by lia.
    replace (status_code resp <? 600) with true by lia. done. }
  destruct outs0 as [|o1 [|o2 [|o3 [|]]]]; cbn in Hlen; try lia; subst outs; cbn;
    destruct (Hlast _ eq_refl) as [Hr Hfull]; cbn in Htr, Hfull;
    repeat match goal with H : Forall _ (_ :: _) |- _ => inversion_clear H end;
    (split; [lia|]); (split; [done|]);
    (split; [intros [|[|[|i]]] o; cbn; intros [= <-] Hi; (done || lia)|]);
    (split; [intros [|[|[|i]]] o; cbn; intros [= <-] Ht Hi; try lia;
             specialize (Hfull Ht); lia|]);
    (split; [done|]); (split; [done|]);
    (split; [intros [|[|[|i]]] resp; cbn; intros [= Ho] Hs; subst;
             destruct (Hc resp Hs) as [Hnt Hres]; try congruence;
             split; [done|congruence]|]);
    intros o; cbn; intros [= <-] Ht; rewrite Hr; auto.
Qed.
End Transport.

(** ** Envelope and session: frames and wire format *)

Section Envelope.
Variable remote : list event -> json -> post_outcome.
Variable entropy : list event -> Z.

Lemma outcomes_retry_events c p a outs : outcomes (retry_events c p a outs) = outs.
Proof.
  revert a. induction outs as [|o outs IH]; intros a; [done|].
  cbn. destruct outs; [done|]. cbn. f_equal. apply (IH (a + 1)).
Qed.

Lemma posts_retry_events c p a outs :
  posts (retry_events c p a outs) = replicate (length outs) p.
Proof.
  revert a. induction outs as [|o outs IH]; intros a; [done|].
  cbn. destruct outs; [done|]. cbn. f_equal. apply (IH (a + 1)).
Qed.

Lemma rpcs_retry_events c p a outs : rpcs (retry_events c p a outs) = [].
Proof.
  revert a. induction outs as [|o outs IH]; intros a; [done|].
  cbn. destruct outs; [done|]. cbn. apply (IH (a + 1)).
Qed.


Lemma _json_rpc_unfold service method args st :
  _json_rpc remote entropy service method args st =
    let p := rpc_payload entropy st service method args in
    match _post remote p (with_events st [EvLog (LogRpc p)]) with
    | (Ok r, st1) =>
        match body r with
        | Some (JObj o) =>
            match sget "error" o with
            | Some err => (Raise (RPCError err), with_events st1 [EvLog (LogRpcError err)])
            | None => (Ok (default JNull (sget "result" o)), st1)
            end
        | Some resp =>
            (let* has_error := py_contains resp "error" in
             if has_error then
               let* err := py_getitem resp "error" in
               logger (LogRpcError err) ;; raise (RPCError err)
             else py_get resp "result") st1
        | None => (Raise JSONDecodeError, st1)
        end
    | (Raise e, st1) => (Raise e, st1)
    end.
Proof.
  unfold _json_rpc, rpc_payload, randint, with_events, logger, emit.
  unfold bind at 1 2 3. cbn -[_post Z.modulo Z.add].
  change (1000000 - 1 + 1) with 1000000.
  destruct (_post remote _ _) as [[r|e] st1]; [|done].
  unfold response_json. unfold bind at 1. destruct (body r) as [resp|]; [|done].
  cbn. destruct resp; try done.
  unfold bind, py_contains, py_getitem, ret, raise; cbn.
  destruct (sget "error" kvs) as [err|] eqn:He; cbn.
  all: done.
Qed.

(** Every run of [_json_rpc] logs one call and posts its payload one to
    three times; nothing else of the state changes. *)
Lemma _json_rpc_frame service method args st :
  let p := rpc_payload entropy st service method args in
  exists evs n,
    snd (_json_rpc remote entropy service method args st)
    = with_events st (EvLog (LogRpc p) :: evs)
    /\ rpcs evs = [] /\ posts evs = replicate n p /\ (1 <= n <= 3)%nat.
Proof.
  intros p. rewrite _json_rpc_unfold. fold p. cbn zeta.
  destruct (_post_shape remote p (with_events st [EvLog (LogRpc p)]))
    as (outs & Hlen & Hst & _ & _).
  destruct (_post remote p _) as [[r|e] st1]; cbn in Hst; subst st1.
  2:{ exists (retry_events (self st) p 0 outs), (length outs).
      rewrite with_events_app. cbn.
      by rewrite rpcs_retry_events, posts_retry_events. }
  assert (Hplain : exists evs n,
             with_events (with_events st [EvLog (LogRpc p)]) (retry_events (self st) p 0 outs)
             = with_events st (EvLog (LogRpc p) :: evs)
             /\ rpcs evs = [] /\ posts evs = replicate n p /\ (1 <= n <= 3)%nat).
  { exists (retry_events (self st) p 0 outs), (length outs).
    rewrite with_events_app. cbn.
    by rewrite rpcs_retry_events, posts_retry_events. }
  destruct (body r) as [resp|]; [|done].
  destruct resp; try done.
  - unfold bind, py_contains, py_getitem, py_get, ret, raise; cbn.
    destruct (String.index 0 "error" s); done.
  - unfold bind, py_contains, py_getitem, py_get, ret, raise; cbn.
    destruct (existsb _ xs); done.
  - destruct (sget "error" kvs) as [err|]; [|done].
    exists (retry_events (self st) p 0 outs ++ [EvLog (LogRpcError err)]), (length outs).
    rewrite !with_events_app. cbn. split; [done|].
    unfold rpcs, posts. rewrite !omap_app. fold rpcs posts.
    rewrite rpcs_retry_events, posts_retry_events. cbn. by rewrite app_nil_r.
Qed.


Lemma posts_app e1 e2 : posts (e1 ++ e2) = posts e1 ++ posts e2.
Proof. apply omap_app. Qed.
Lemma rpcs_app e1 e2 : rpcs (e1 ++ e2) = rpcs e1 ++ rpcs e2.
Proof. apply omap_app. Qed.

Lemma authenticate_unfold st :
  authenticate remote entropy st =
    match _json_rpc remote entropy _COMMON "authenticate" (auth_args (self st)) st with
    | (Ok u, st1) =>
        if isinstance_int u
        then (Ok u, with_events (with_uid st1 u) [EvLog (LogAuthenticated u)])
        else (Raise (AuthenticationError u), st1)
    | (Raise e, st1) => (Raise e, st1)
    end.
Proof.
  unfold authenticate, bind, get_self, auth_args.
  destruct (_json_rpc remote entropy _ _ _ st) as [[u|e] st1]; [|done].
  destruct (isinstance_int u); done.
Qed.

(** [authenticate]: one call to the common namespace; the uid is cached
    exactly when the call returns normally. *)
Lemma authenticate_frame st :
  let p := rpc_payload entropy st _COMMON "authenticate" (auth_args (self st)) in
  exists evs n,
    rpcs evs = [p] /\ posts evs = replicate n p /\ (1 <= n <= 3)%nat /\
    match fst (authenticate remote entropy st) with
    | Ok u => snd (authenticate remote entropy st) = with_events (with_uid st u) evs
              /\ isinstance_int u = true
    | Raise _ => snd (authenticate remote entropy st) = with_events st evs
    end.
Proof.
  intros p. rewrite authenticate_unfold.
  destruct (_json_rpc_frame _COMMON "authenticate" (auth_args (self st)) st)
    as (evs & n & Hst & Hr & Hp & Hn). fold p in Hst, Hp.
  destruct (_json_rpc remote entropy _ _ _ st) as [[u|e] st1]; cbn in Hst; subst st1.
  - destruct (isinstance_int u) eqn:Hu; cbn.
    + exists (EvLog (LogRpc p) :: evs ++ [EvLog (LogAuthenticated u)]), n.
      cbn. rewrite rpcs_app, posts_app, Hr, Hp. cbn. rewrite app_nil_r.
      repeat split; try done; try lia.
      unfold with_events, with_uid; cbn. by rewrite <- app_assoc.
    + exists (EvLog (LogRpc p) :: evs), n. cbn. rewrite Hr, Hp. repeat split; (done || lia).
  - exists (EvLog (LogRpc p) :: evs), n. cbn. rewrite Hr, Hp. repeat split; (done || lia).
Qed.

Lemma execute_kw_unfold model method args kwargs st :
  execute_kw remote entropy model method args kwargs st =
    let call st1 :=
      _json_rpc remote entropy _OBJECT "execute_kw"
        [JStr (db (self st1)); uid (self st1); JStr (api_key (self st1));
         JStr model; JStr method; JList args; JObj kwargs] st1 in
    if is_None (uid (self st)) then
      match authenticate remote entropy st with
      | (Ok _, st1) => call st1
      | (Raise e, st1) => (Raise e, st1)
      end
    else call st.
Proof.
  unfold execute_kw, bind, get_self. cbn zeta.
  destruct (is_None (uid (self st))); [|done].
  destruct (authenticate remote entropy st) as [[u|e] st1]; done.
Qed.

Lemma execute_batch_unfold calls st :
  execute_batch remote entropy calls st =
    let call u st1 :=
      _json_rpc remote entropy _OBJECT "execute"
        [JStr (db (self st)); u; JStr (api_key (self st)); JList calls] st1 in
    if truthy (uid (self st)) then call (uid (self st)) st
    else
      match authenticate remote entropy st with
      | (Ok u, st1) => call u st1
      | (Raise e, st1) => (Raise e, st1)
      end.
Proof.
  unfold execute_batch, bind, get_self. cbn zeta.
  destruct (truthy (uid (self st))); [done|].
  destruct (authenticate remote entropy st) as [[u|e] st1]; done.
Qed.

(** The whole run of [_json_rpc]: the call is logged, posted with the
    outcomes [outs], of which all but the last are transient failures,
    and an error object is logged; a result is the "result" field of the
    last response. *)
Lemma _json_rpc_shape service method args st :
  let p := rpc_payload entropy st service method args in
  exists outs tail,
    (1 <= length outs <= 3)%nat
    /\ snd (_json_rpc remote entropy service method args st)
       = with_events st (EvLog (LogRpc p) :: retry_events (self st) p 0 outs ++ tail)
    /\ (tail = [] \/ exists err, tail = [EvLog (LogRpcError err)])
    /\ Forall (fun o => transient o = true) (removelast outs)
    /\ (forall res, fst (_json_rpc remote entropy service method args st) = Ok res ->
          exists resp o,
            last outs = Some (PostReturns resp) /\ ok_status resp = true
            /\ body resp = Some (JObj o) /\ sget "error" o = None
            /\ res = default JNull (sget "result" o)).
Proof.
  intros p. rewrite _json_rpc_unfold. fold p. cbn zeta.
  destruct (_post_shape remote p (with_events st [EvLog (LogRpc p)]))
    as (outs & Hlen & Hst & Htr & Hlast).
  change (self (with_events st [EvLog (LogRpc p)])) with (self st) in Hst.
  assert (Hev : forall tail,
             with_events (with_events (with_events st [EvLog (LogRpc p)])
                            (retry_events (self st) p 0 outs)) tail
             = with_events st (EvLog (LogRpc p) :: retry_events (self st) p 0 outs ++ tail)).
  { intros tail. by rewrite !with_events_app. }
  assert (Hok : forall r, fst (_post remote p (with_events st [EvLog (LogRpc p)])) = Ok r ->
                last outs = Some (PostReturns r) /\ ok_status r = true).
  { intros r Hr. destruct (last outs) as [o|] eqn:Ho.
    - destruct (Hlast o eq_refl) as [Hres _]. rewrite Hr in Hres.
      destruct o as [| |r']; cbn in Hres; try done. unfold ok_status.
      destruct ((400 <=? status_code r') && (status_code r' <? 600)) eqn:E; [done|].
      injection Hres as ->. by rewrite E.
    - apply last_None in Ho. subst outs. cbn in Hlen. lia. }
  destruct (_post remote p (with_events st [EvLog (LogRpc p)])) as [[r|e] st1];
    cbn [snd] in Hst; subst st1.
  2:{ exists outs, []. split; [done|]. split; [by rewrite <- Hev, with_events_nil|].
      split; [by left|]. split; [done|]. by intros res. }
  destruct (Hok r eq_refl) as [Hl Hs].
  assert (Hplain : forall e : exn,
             exists outs0 tail,
               (1 <= length outs0 <= 3)%nat
               /\ with_events (with_events st [EvLog (LogRpc p)])
                    (retry_events (self st) p 0 outs)
                  = with_events st (EvLog (LogRpc p) :: retry_events (self st) p 0 outs0 ++ tail)
               /\ (tail = [] \/ exists err, tail = [EvLog (LogRpcError err)])
               /\ Forall (fun o => transient o = true) (removelast outs0)
               /\ (forall res, @Raise json e = Ok res ->
                     exists resp o,
                       last outs0 = Some (PostReturns resp) /\ ok_status resp = true
                       /\ body resp = Some (JObj o) /\ sget "error" o = None
                       /\ res = default JNull (sget "result" o))).
  { intros e. exists outs, []. rewrite <- (Hev []), with_events_nil.
    split_and!; [lia|lia|done|by left|done|by intros res]. }
  destruct (body r) as [resp|] eqn:Hb; [|apply Hplain].
  destruct resp as [| | |s|xs|kvs].
  1-5: unfold bind, py_contains, py_getitem, py_get, ret, raise; cbn;
    try destruct (String.index 0 "error" s); try destruct (existsb _ xs);
    apply Hplain.
  destruct (sget "error" kvs) as [err|] eqn:He; cbn [fst snd].
  - exists outs, [EvLog (LogRpcError err)]. rewrite Hev.
    split_and!; [lia|lia|done| |done|by intros res]. right. by exists err.
  - exists outs, []. rewrite <- (Hev []), with_events_nil.
    split_and!; [lia|lia|done|by left|done|].
    intros res [= <-]. by exists r, kvs.
Qed.

(** C7 (amended).  When the transport hands back a response whose body
    decodes to [v]: if [v] is a JSON object, [_json_rpc] raises [RPCError]
    with the value of the "error" field exactly when [v] has such a
    field, and raises nothing else; without an "error" field it returns
    the value of the "result" field as it is ([None] when the field is
    missing).  If [v] is not an object (a list, a string, a number, a
    boolean or [null]), [_json_rpc] raises [TypeError] or
    [AttributeError]: no [RPCError], and no result. *)
Theorem _json_rpc_error_iff service method args st r st1 v :
  let p := rpc_payload entropy st service method args in
  _post remote p (with_events st [EvLog (LogRpc p)]) = (Ok r, st1) ->
  body r = Some v ->
  let res := fst (_json_rpc remote entropy service method args st) in
  (forall o, v = JObj o ->
     (forall err, res = Raise (RPCError err) <-> sget "error" o = Some err)
     /\ ((exists e, res = Raise e) <-> is_Some (sget "error" o))
     /\ (sget "error" o = None -> res = Ok (default JNull (sget "result" o)))
     /\ (forall x, sget "error" o = None -> sget "result" o = Some x -> res = Ok x))
  /\ ((forall o, v <> JObj o) ->
      exists e, res = Raise e /\ (e = TypeError \/ e = AttributeError)).
Proof.
  intros p Hpost Hbody res. subst res. rewrite _json_rpc_unfold. fold p. cbn zeta.
  rewrite Hpost, Hbody. split.
  - intros o ->. destruct (sget "error" o) as [err|]; cbn.
    + split_and!; try done.
      * intros err'. split; by intros [= ->].
      * split; eauto.
    + split_and!; try done.
      * split; [by intros [e He]|by intros [? ?]].
      * by intros x _ ->.
  - intros Hv. destruct v as [| | |s|xs|o]; [..|by destruct (Hv o)];
      unfold bind, py_contains, py_getitem, py_get, ret, raise; cbn;
      try destruct (String.index 0 "error" s); try destruct (existsb _ xs);
      eexists; (split; [reflexivity|]); auto.
Qed.

Lemma events_of_trace {A} (m : M A) st evs :
  trace (snd (m st)) = trace st ++ evs -> events_of m st = evs.
Proof. unfold events_of. intros ->. by rewrite drop_app_length. Qed.

End Envelope.

(** ** Session: lazy authentication and the scoped session *)

Section Session.
Variable remote : list event -> json -> post_outcome.
Variable entropy : list event -> Z.

(** The payload of a call addresses what [rpc_payload] was asked for. *)
Lemma is_auth_rpc_payload st service method args :
  is_auth (rpc_payload entropy st service method args)
  = String.eqb service "common" && String.eqb method "authenticate".
Proof. done. Qed.

(** An operation on a client whose cached uid is truthy makes exactly one
    call, to the object service, and leaves the client as it is. *)
Lemma run_operation_cached op st :
  truthy (uid (self st)) = true ->
  exists p evs,
    snd (run_operation remote entropy op st) = with_events st (EvLog (LogRpc p) :: evs)
    /\ rpcs evs = [] /\ is_auth p = false.
Proof.
  intros Hu.
  assert (is_None (uid (self st)) = false) as Hn by (destruct (uid (self st)); done).
  destruct op as [model method args kwargs|calls]; cbn [run_operation].
  - rewrite execute_kw_unfold. cbn zeta. rewrite Hn.
    destruct (_json_rpc_frame remote entropy _OBJECT "execute_kw"
                [JStr (db (self st)); uid (self st); JStr (api_key (self st));
                 JStr model; JStr method; JList args; JObj kwargs] st)
      as (evs & n & Hst & Hr & _).
    eexists _, evs. split; [apply Hst|]. split; [done|]. apply is_auth_rpc_payload.
  - rewrite execute_batch_unfold. cbn zeta. rewrite Hu.
    destruct (_json_rpc_frame remote entropy _OBJECT "execute"
                [JStr (db (self st)); uid (self st); JStr (api_key (self st));
                 JList calls] st)
      as (evs & n & Hst & Hr & _).
    eexists _, evs. split; [apply Hst|]. split; [done|]. apply is_auth_rpc_payload.
Qed.

Lemma run_operations_cons op ops st :
  run_operations remote entropy (op :: ops) st =
    let (r, st1) := run_operation remote entropy op st in
    let (rs, st2) := run_operations remote entropy ops st1 in
    (match rs with Ok l => Ok (r :: l) | Raise e => Raise e end, st2).
Proof. done. Qed.

Lemma run_operations_cached ops : forall st,
  truthy (uid (self st)) = true ->
  exists evs,
    snd (run_operations remote entropy ops st) = with_events st evs
    /\ auth_count evs = 0%nat.
Proof.
  induction ops as [|op ops IH]; intros st Hu.
  - exists []. by rewrite with_events_nil.
  - rewrite run_operations_cons.
    destruct (run_operation_cached op st Hu) as (p & evs1 & Hst1 & Hr1 & Hp).
    destruct (run_operation remote entropy op st) as [r st1]. cbn in Hst1. subst st1.
    destruct (IH (with_events st (EvLog (LogRpc p) :: evs1)) Hu) as (evs2 & Hst2 & Hc2).
    destruct (run_operations remote entropy ops _) as [rs st2]. cbn in Hst2. subst st2.
    exists ((EvLog (LogRpc p) :: evs1) ++ evs2). cbn [snd].
    split; [by rewrite with_events_app|].
    unfold auth_count in *. rewrite rpcs_app. cbn. rewrite Hr1. cbn. rewrite Hp. done.
Qed.

(** Lazy authentication where the two entry points agree: an operation
    that finds no cached uid ([None]) starts with the authentication
    call; and from a client whose cached uid is non-zero, no sequence of
    operations, whatever the remote answers, calls [authenticate] again
    or changes the client. *)
Lemma lazy_authentication :
  (forall op st, uid (self st) = JNull ->
     hd_error (rpcs (events_of (run_operation remote entropy op) st))
     = Some (rpc_payload entropy st "common" "authenticate" (auth_args (self st))))
  /\ (forall ops st, truthy (uid (self st)) = true ->
        auth_count (events_of (run_operations remote entropy ops) st) = 0%nat
        /\ self (snd (run_operations remote entropy ops st)) = self st).
Proof.
  split.
  - intros op st Hu.
    assert (forall k : json -> state -> result json * state,
               (forall u st1, exists e, trace (snd (k u st1)) = trace st1 ++ e) ->
               hd_error (rpcs (drop (length (trace st))
                  (trace (snd (match authenticate remote entropy st with
                               | (Ok u, st1) => k u st1
                               | (Raise e, st1) => (Raise e, st1)
                               end)))))
               = Some (rpc_payload entropy st "common" "authenticate" (auth_args (self st))))
      as Hgen.
    { intros k Hk.
      destruct (authenticate_frame remote entropy st) as (evs & n & Hr & _ & _ & Hst).
      destruct (authenticate remote entropy st) as [[u|e] st1]; cbn in Hst.
      - destruct Hst as [-> _]. destruct (Hk u (with_events (with_uid st u) evs)) as [e2 He2].
        rewrite He2. cbn. rewrite <- app_assoc, drop_app_length, rpcs_app, Hr. done.
      - subst st1. cbn. rewrite drop_app_length, Hr. done. }
    unfold events_of.
    destruct op as [model method args kwargs|calls]; cbn [run_operation].
    + rewrite execute_kw_unfold. cbn zeta. rewrite Hu. cbn [is_None].
      apply (Hgen (fun _ st1 => _json_rpc remote entropy _OBJECT "execute_kw"
             [JStr (db (self st1)); uid (self st1); JStr (api_key (self st1));
              JStr model; JStr method; JList args; JObj kwargs] st1)).
      intros _ st1. destruct (_json_rpc_frame remote entropy _OBJECT "execute_kw"
             [JStr (db (self st1)); uid (self st1); JStr (api_key (self st1));
              JStr model; JStr method; JList args; JObj kwargs] st1) as (e & n & -> & _).
      eexists. done.
    + rewrite execute_batch_unfold. cbn zeta. rewrite Hu. cbn [truthy].
      apply (Hgen (fun u st1 => _json_rpc remote entropy _OBJECT "execute"
             [JStr (db (self st)); u; JStr (api_key (self st)); JList calls] st1)).
      intros u st1. destruct (_json_rpc_frame remote entropy _OBJECT "execute"
             [JStr (db (self st)); u; JStr (api_key (self st)); JList calls] st1)
        as (e & n & -> & _).
      eexists. done.
  - intros ops st Hu.
    destruct (run_operations_cached ops st Hu) as (evs & Hst & Hc).
    rewrite (events_of_with_events _ _ _ Hst), Hst. done.
Qed.

(** C9 (amended).  Construction makes no call and leaves the uid absent;
    entering the scope authenticates at once, before the body runs;
    leaving the scope does nothing: no event at all, so the HTTP session
    stays open and no call goes to the remote. *)
Theorem scoped_session :
  (forall url db username api_key timeout verify_ssl,
      uid (__init__ url db username api_key timeout verify_ssl) = JNull
      /\ trace (new_state (__init__ url db username api_key timeout verify_ssl)) = [])
  /\ (forall st,
        rpcs (events_of (__enter__ remote entropy) st)
        = [rpc_payload entropy st "common" "authenticate" (auth_args (self st))])
  /\ (forall A (body : M A) st,
        with_client remote entropy body st =
          match authenticate remote entropy st with
          | (Ok _, st1) => body st1
          | (Raise e, st1) => (Raise e, st1)
          end)
  /\ (forall st, __exit__ st = (Ok tt, st) /\ events_of __exit__ st = []).
Proof.
  split_and!.
  - done.
  - intros st. unfold __enter__, events_of, bind.
    destruct (authenticate_frame remote entropy st) as (evs & n & Hr & _ & _ & Hst).
    destruct (authenticate remote entropy st) as [[u|e] st1]; cbn in Hst.
    + destruct Hst as [-> _]. cbn. by rewrite drop_app_length.
    + subst st1. cbn. by rewrite drop_app_length.
  - intros A body st. unfold with_client, __enter__, bind.
    destruct (authenticate remote entropy st) as [[u|e] st1]; [|done].
    cbn. destruct (body st1) as [r st2]. done.
  - intros st. split; [done|]. unfold events_of. cbn. by rewrite drop_all.
Qed.

(** On a cached uid that is falsy ([False] or 0), [execute_batch] starts
    with an authentication call although [self.uid] is not [None]. *)
Lemma execute_batch_falsy_uid calls st :
  truthy (uid (self st)) = false ->
  hd_error (rpcs (events_of (execute_batch remote entropy calls) st))
  = Some (rpc_payload entropy st "common" "authenticate" (auth_args (self st))).
Proof.
  intros Hu. unfold events_of. rewrite execute_batch_unfold. cbn zeta. rewrite Hu.
  destruct (authenticate_frame remote entropy st) as (evs & n & Hr & _ & _ & Hst).
  destruct (authenticate remote entropy st) as [[u|e] st1]; cbn in Hst.
  - destruct Hst as [-> _].
    destruct (_json_rpc_frame remote entropy _OBJECT "execute"
                [JStr (db (self st)); u; JStr (api_key (self st)); JList calls]
                (with_events (with_uid st u) evs)) as (e2 & n2 & -> & _).
    cbn. rewrite <- app_assoc, drop_app_length, rpcs_app, Hr. done.
  - subst st1. cbn. rewrite drop_app_length, Hr. done.
Qed.
End Session.

(** ** Answered calls: authentication and the batch executor *)

Section Facade.
Variable remote : list event -> json -> post_outcome.
Variable entropy : list event -> Z.

Lemma _post_returns payload st resp :
  remote (trace st) payload = PostReturns resp ->
  ok_status resp = true ->
  _post remote payload st
  = (Ok resp, with_events st [post_event st payload (PostReturns resp)]).
Proof.
  intros Hr Hok. unfold _post. rewrite _post_from_cons. cbn zeta. rewrite Hr.
  unfold ok_status in Hok. apply negb_true_iff in Hok. cbn [transient attempt_result].
  rewrite Hok.
  destruct (500 <=? status_code resp) eqn:H5, (status_code resp <? 600) eqn:H6;
    cbn; try done.
  apply andb_false_iff in Hok. destruct Hok; lia.
Qed.

(** A call that is answered at once by a 2xx response carrying an object
    without an "error" field returns its "result". *)
Lemma _json_rpc_returns service method args st resp o :
  let p := rpc_payload entropy st service method args in
  remote (trace st ++ [EvLog (LogRpc p)]) p = PostReturns resp ->
  ok_status resp = true ->
  body resp = Some (JObj o) ->
  sget "error" o = None ->
  _json_rpc remote entropy service method args st
  = (Ok (default JNull (sget "result" o)),
     with_events st [EvLog (LogRpc p); post_event st p (PostReturns resp)]).
Proof.
  intros p Hr Hok Hb He. rewrite _json_rpc_unfold. fold p. cbn zeta.
  rewrite (_post_returns p (with_events st [EvLog (LogRpc p)]) resp Hr Hok).
  rewrite Hb, He. by rewrite with_events_app.
Qed.

(** What [authenticate] makes of the answer of the remote: an [int] (a
    [bool] included) is cached and returned, anything else raises
    [AuthenticationError] and leaves the client as it was. *)
Lemma authenticate_returns st resp o :
  let p := rpc_payload entropy st "common" "authenticate" (auth_args (self st)) in
  let v := default JNull (sget "result" o) in
  remote (trace st ++ [EvLog (LogRpc p)]) p = PostReturns resp ->
  ok_status resp = true ->
  body resp = Some (JObj o) ->
  sget "error" o = None ->
  fst (authenticate remote entropy st)
  = (if isinstance_int v then Ok v else Raise (AuthenticationError v))
  /\ uid (self (snd (authenticate remote entropy st)))
     = (if isinstance_int v then v else uid (self st)).
Proof.
  intros p v Hr Hok Hb He. rewrite authenticate_unfold.
  rewrite (_json_rpc_returns _COMMON "authenticate" (auth_args (self st)) st resp o
             Hr Hok Hb He).
  fold v. by destruct (isinstance_int v).
Qed.

Lemma filter_is_batch_replicate n p :
  is_batch p = false -> List.filter is_batch (replicate n p) = [].
Proof. intros Hp. induction n as [|n IH]; cbn; [done|]. by rewrite Hp. Qed.

Lemma filter_is_batch_replicate_true n p :
  is_batch p = true -> List.filter is_batch (replicate n p) = replicate n p.
Proof. intros Hp. induction n as [|n IH]; cbn; [done|]. by rewrite Hp, IH. Qed.

(** C4 (amended).  [bulk_write] builds one [write] call per entry of the
    mapping, in the order of the entries, each with the single record id
    and its values.  When no uid can be had (the lazy authentication
    raises), that exception is raised and no batch is sent.  Once the
    client holds a uid, cached or just obtained, [bulk_write] makes
    exactly one batch call with these calls as its payload, and posts it
    between one and three times (more than once only when the transport
    retries); when it returns, it returns the "result" field of the last
    response received, as it is: the client neither inspects nor counts
    it.  When the remote answers the first post of the batch, that post
    is the only one. *)
Theorem bulk_write_single_batch model id_vals_map st :
  let c := self st in
  let calls := map (write_call model) id_vals_map in
  let run := bulk_write remote entropy model id_vals_map in
  let evs := events_of run st in
  length calls = length id_vals_map
  /\ (forall i rid vals,
        id_vals_map !! i = Some (rid, vals) ->
        calls !! i = Some (JObj [("model", JStr model);
                                 ("method", JStr "write");
                                 ("args", JList [JList [JInt rid]; JObj vals]);
                                 ("kwargs", JObj [])]))
  /\ (forall e st1,
        uid_or_authenticate remote entropy st = (Raise e, st1) ->
        run st = (Raise e, st1)
        /\ List.filter is_batch (rpcs evs) = []
        /\ List.filter is_batch (posts evs) = [])
  /\ (forall u st1,
        uid_or_authenticate remote entropy st = (Ok u, st1) ->
        let p := rpc_payload entropy st1 "object" "execute"
                   [JStr (db c); u; JStr (api_key c); JList calls] in
        List.filter is_batch (rpcs evs) = [p]
        /\ posted (List.filter is_batch (posts evs)) p
        /\ (forall res,
              fst (run st) = Ok res ->
              exists resp o,
                last (outcomes evs) = Some (PostReturns resp)
                /\ ok_status resp = true
                /\ body resp = Some (JObj o)
                /\ sget "error" o = None
                /\ res = default JNull (sget "result" o))
        /\ (forall resp o,
              remote (trace st1 ++ [EvLog (LogRpc p)]) p = PostReturns resp ->
              ok_status resp = true ->
              body resp = Some (JObj o) ->
              sget "error" o = None ->
              fst (run st) = Ok (default JNull (sget "result" o))
              /\ List.filter is_batch (posts evs) = [p])).
Proof.
  intros c calls run evs. subst evs run. unfold bulk_write. fold calls.
  split; [apply length_map|].
  split.
  { intros i rid vals Hi. subst calls. rewrite list_lookup_fmap, Hi. done. }
  pose proof (execute_batch_unfold remote entropy calls st) as Heq.
  cbn zeta in Heq. fold c in Heq.
  split.
  { intros e st1 Hu. unfold uid_or_authenticate in Hu. fold c in Hu.
    destruct (truthy (uid c)); [done|].
    destruct (authenticate_frame remote entropy st) as (evs & n & Hr & Hp & _ & Hst).
    rewrite Hu in Hst, Heq. cbn in Hst.
    split; [done|].
    rewrite (events_of_trace _ st evs) by (by rewrite Heq, Hst).
    rewrite Hr, Hp. split; [done|]. by apply filter_is_batch_replicate. }
  intros u st1 Hu.
  set (p := rpc_payload entropy st1 "object" "execute"
              [JStr (db c); u; JStr (api_key c); JList calls]).
  (* the state in which the batch call is made *)
  assert (Hpre : exists evs n pa,
             st1 = with_events (if truthy (uid c) then st else with_uid st u) evs
             /\ List.filter is_batch (rpcs evs) = []
             /\ posts evs = replicate n pa /\ is_batch pa = false
             /\ execute_batch remote entropy calls st
                = _json_rpc remote entropy _OBJECT "execute"
                    [JStr (db c); u; JStr (api_key c); JList calls] st1).
  { unfold uid_or_authenticate in Hu. fold c in Hu.
    destruct (truthy (uid c)).
    - injection Hu as <- <-. exists [], 0%nat, JNull.
      by rewrite with_events_nil.
    - destruct (authenticate_frame remote entropy st) as (evs & n & Hr & Hp & _ & Hst).
      rewrite Hu in Hst, Heq. cbn in Hst. destruct Hst as [-> _].
      exists evs, n, (rpc_payload entropy st _COMMON "authenticate" (auth_args (self st))).
      rewrite Hr. done. }
  destruct Hpre as (evs & n & pa & Hst1 & Hr1 & Hp1 & Hpa & Hrun).
  assert (Htr1 : trace st1 = trace st ++ evs).
  { rewrite Hst1. by destruct (truthy (uid c)). }
  destruct (_json_rpc_shape remote entropy _OBJECT "execute"
              [JStr (db c); u; JStr (api_key c); JList calls] st1)
    as (outs & tail & Hlen & Hst2 & Htail & _ & Hres). fold p in Hst2.
  rewrite <- Hrun in Hst2, Hres.
  assert (Hevs : events_of (execute_batch remote entropy calls) st
                 = evs ++ EvLog (LogRpc p) :: retry_events (self st1) p 0 outs ++ tail).
  { apply events_of_trace. rewrite Hst2. cbn. by rewrite Htr1, <- app_assoc. }
  assert (Htl : rpcs tail = [] /\ posts tail = [] /\ outcomes tail = []).
  { by destruct Htail as [->|[err ->]]. }
  destruct Htl as (Ht1 & Ht2 & Ht3).
  assert (Hposts : List.filter is_batch (posts (events_of (execute_batch remote entropy calls) st))
                   = replicate (length outs) p).
  { rewrite Hevs, posts_app, List.filter_app, Hp1, filter_is_batch_replicate by done.
    cbn. rewrite posts_app, posts_retry_events, Ht2, app_nil_r.
    by apply filter_is_batch_replicate_true. }
  split_and!.
  - rewrite Hevs, rpcs_app, List.filter_app, Hr1. cbn.
    by rewrite rpcs_app, rpcs_retry_events, Ht1.
  - rewrite Hposts. by exists (length outs).
  - intros res Hok. destruct (Hres res Hok) as (resp & o & Hl & H).
    exists resp, o. split; [|done].
    rewrite Hevs. unfold outcomes. rewrite omap_app. cbn. rewrite omap_app.
    fold outcomes. rewrite outcomes_retry_events, Ht3, app_nil_r.
    rewrite last_app, Hl. done.
  - intros resp o Hr Hok Hb He.
    pose proof (_json_rpc_returns _OBJECT "execute"
                  [JStr (db c); u; JStr (api_key c); JList calls] st1 resp o
                  Hr Hok Hb He) as Hret.
    rewrite <- Hrun in Hret. fold p in Hret.
    split; [by rewrite Hret|].
    rewrite (events_of_trace _ st
               (evs ++ [EvLog (LogRpc p); post_event st1 p (PostReturns resp)])).
    2:{ rewrite Hret. cbn. by rewrite Htr1, <- app_assoc. }
    rewrite posts_app, List.filter_app, Hp1, filter_is_batch_replicate by done. done.
Qed.
End Facade.

(** ** Pagination helper *)

Section Pages.
Variable remote : list event -> json -> post_outcome.
Variable entropy : list event -> Z.
Variables (model : string) (domain : option (list json)) (batch : Z)
          (fields : option (list string)) (order : option string).

Lemma search_read_page offset st page :
  let kw := search_read_opts fields offset (Some batch) order in
  let p := rpc_payload entropy st "object" "execute_kw"
             [JStr (db (self st)); uid (self st); JStr (api_key (self st));
              JStr model; JStr "search_read"; JList [JList (default [] domain)];
              JObj kw] in
  is_None (uid (self st)) = false ->
  remote (trace st ++ [EvLog (LogRpc p)]) p = reply (JList page) ->
  search_read remote entropy model domain fields offset (Some batch) order st
  = (Ok page, with_events st [EvLog (LogRpc p); post_event st p (reply (JList page))]).
Proof.
  intros kw p Hu Hr. unfold search_read. unfold bind at 1.
  rewrite execute_kw_unfold. cbn zeta. rewrite Hu. fold kw. unfold _OBJECT.
  rewrite (_json_rpc_returns remote entropy _ _ _ st _ _ Hr eq_refl eq_refl eq_refl).
  done.
Qed.

Lemma gen_take_pending pending : forall records offset n st,
  gen_take remote entropy model domain batch fields order
           (length pending + n) (GenYield records pending offset) st
  = match gen_take remote entropy model domain batch fields order
                   n (GenYield records [] offset) st with
    | (Ok (l, g), st') => (Ok (pending ++ l, g), st')
    | (Raise e, st') => (Raise e, st')
    end.
Proof.
  induction pending as [|r pending IH]; intros records offset n st.
  - cbn [length Nat.add app].
    destruct (gen_take _ _ _ _ _ _ _ _ _ st) as [[[l g]|e] st']; done.
  - cbn [length Nat.add gen_take]. unfold bind at 1. cbn [gen_next ret].
    unfold bind at 1. rewrite IH.
    destruct (gen_take _ _ _ _ _ _ _ n _ st) as [[[l g]|e] st']; done.
Qed.

Lemma serves_pages_tail k page pages :
  serves_pages remote k (page :: pages) -> serves_pages remote (S k) pages.
Proof.
  intros H i pg tr payload Hi Hlen. apply (H (S i)); [done|lia].
Qed.

Lemma gen_take_pages pages : forall g offset n st,
  gen_next remote entropy model domain batch fields order g
  = iter_page remote entropy model domain batch fields order offset ->
  is_None (uid (self st)) = false ->
  Forall (fun page => page <> []) pages ->
  serves_pages remote (length (posts (trace st))) pages ->
  (length (concat pages) < n)%nat ->
  exists evs,
    gen_take remote entropy model domain batch fields order n g st
    = (Ok (concat pages, GenDone), with_events st evs)
    /\ map rpc_params (posts evs)
       = map (search_read_params (self st) model domain batch fields order)
             (page_offsets offset pages).
Proof.
  induction pages as [|page pages IH]; intros g offset n st Hg Hu Hne Hserve Hn.
  - destruct n as [|n]; [cbn in Hn; lia|].
    cbn [gen_take]. unfold bind at 1. rewrite Hg. unfold iter_page. unfold bind at 1.
    erewrite search_read_page; [|done|].
    2:{ apply (Hserve 0%nat); [done|]. unfold posts. rewrite omap_app. cbn.
        rewrite length_app. cbn. lia. }
    cbn. eexists. split; [done|]. cbn. done.
  - destruct n as [|n]; [cbn in Hn; lia|].
    cbn [gen_take]. unfold bind at 1. rewrite Hg. unfold iter_page. unfold bind at 1.
    erewrite search_read_page; [|done|].
    2:{ apply (Hserve 0%nat); [done|]. unfold posts. rewrite omap_app. cbn.
        rewrite length_app. cbn. lia. }
    inversion_clear Hne as [|? ? Hp Hps].
    destruct page as [|r pending]; [done|]. cbn [ret].
    cbn [concat] in Hn. rewrite length_app in Hn. cbn [length] in Hn.
    replace n with (length pending + (n - length pending))%nat by lia.
    unfold bind at 1. rewrite gen_take_pending.
    match goal with |- context [gen_take _ _ _ _ _ _ _ _ _ ?s] => set (st1 := s) end.
    assert (Hs1 : serves_pages remote (length (posts (trace st1))) pages).
    { replace (length (posts (trace st1))) with (S (length (posts (trace st)))).
      - by apply serves_pages_tail with (r :: pending).
      - subst st1. cbn. rewrite posts_app. cbn. rewrite length_app. cbn. lia. }
    destruct (IH (GenYield (r :: pending) [] offset)
                 (offset + Z.of_nat (length (r :: pending)))
                 (n - length pending)%nat st1 eq_refl Hu Hps Hs1 ltac:(lia))
      as (evs & Hrun & Hposts).
    rewrite Hrun. eexists. split.
    + subst st1. rewrite with_events_app. cbn. done.
    + change (posts (?a :: ?b :: evs)) with (posts [a; b] ++ posts evs).
      rewrite map_app, Hposts. done.
Qed.


Lemma wire_offset_search_read p c offset :
  rpc_params p = search_read_params c model domain batch fields order offset ->
  wire_offset p = offset.
Proof.
  unfold wire_offset. intros ->. unfold search_read_params, search_read_opts.
  cbn [sget dict_get String.eqb Ascii.eqb Bool.eqb].
  destruct fields as [fs|], (Z.eqb_spec offset 0) as [->|Hne],
           order as [[|a s]|]; cbn; try done.
  all: destruct offset; done.
Qed.

Lemma page_offsets_length start pages :
  length (page_offsets start pages) = S (length pages).
Proof. revert start. induction pages as [|p ps IH]; intros start; cbn; [done|]. by rewrite IH. Qed.

Lemma page_offsets_step pages : forall start i o page,
  page_offsets start pages !! i = Some o ->
  pages !! i = Some page ->
  page_offsets start pages !! S i = Some (o + Z.of_nat (length page)).
Proof.
  induction pages as [|p ps IH]; intros start i o page Ho Hp; [done|].
  destruct i as [|i]; cbn in *.
  - injection Ho as <-. injection Hp as <-. destruct ps; done.
  - by apply IH.
Qed.

(** C5.  Let the remote answer the successive posts with the non-empty
    pages [pages] and then with an empty page.  A consumer that pulls
    often enough from the generator of [iter_search_read] gets exactly
    the concatenation of the pages and leaves the generator finished; the
    client has posted one [search_read] call per page, the empty one
    included, and the offsets on the wire start at 0 and grow, from one
    call to the next, by the number of records of the page in between. *)
Theorem iter_search_read_pages pages n st :
  is_None (uid (self st)) = false ->
  Forall (fun page => page <> []) pages ->
  serves_pages remote (length (posts (trace st))) pages ->
  (length (concat pages) < n)%nat ->
  let run := gen_take remote entropy model domain batch fields order n iter_search_read in
  let sent := posts (events_of run st) in
  fst (run st) = Ok (concat pages, GenDone)
  /\ length sent = S (length pages)
  /\ map rpc_params sent
     = map (search_read_params (self st) model domain batch fields order)
           (page_offsets 0 pages)
  /\ map wire_offset sent = page_offsets 0 pages
  /\ (forall i o page,
        page_offsets 0 pages !! i = Some o ->
        pages !! i = Some page ->
        page_offsets 0 pages !! S i = Some (o + Z.of_nat (length page))).
Proof.
  intros Hu Hne Hserve Hn run sent.
  destruct (gen_take_pages pages GenStart 0 n st eq_refl Hu Hne Hserve Hn)
    as (evs & Hrun & Hposts).
  subst sent run. unfold iter_search_read.
  rewrite (events_of_with_events _ st evs) by (by rewrite Hrun).
  assert (Hlen : length (posts evs) = S (length pages)).
  { rewrite <- (length_map rpc_params), Hposts, length_map. apply page_offsets_length. }
  split_and!.
  - by rewrite Hrun.
  - done.
  - done.
  - clear Hlen. revert Hposts. generalize (page_offsets 0 pages), (posts evs).
    intros offs sent. revert offs.
    induction sent as [|p sent IH]; intros [|o offs]; cbn; try done.
    intros [= Hp Hrest]. f_equal; [by eapply wire_offset_search_read|by apply IH].
  - apply page_offsets_step.
Qed.
End Pages.

Lemma scripted_serves_pages k pages :
  serves_pages (scripted_from k (map (fun page => reply (JList page)) (pages ++ [[]])))
               k pages.
Proof.
  intros i page tr payload Hi Hlen. unfold scripted_from.
  replace (length (posts tr) - k)%nat with i by lia.
  apply (nth_lookup_Some _ _ PostConnectionError).
  by rewrite list_lookup_fmap, Hi.
Qed.

(** ** Domain helpers: moving a task *)

Section Helpers.
Variable remote : list event -> json -> post_outcome.
Variable entropy : list event -> Z.
Variable lower : string -> string.

Lemma execute_kw_frame model method args kwargs st :
  exists evs,
    trace (snd (execute_kw remote entropy model method args kwargs st)) = trace st ++ evs
    /\ objects (snd (execute_kw remote entropy model method args kwargs st)) = objects st.
Proof.
  rewrite execute_kw_unfold. cbn zeta.
  assert (Hcall : forall st1 a, exists evs,
             trace (snd (_json_rpc remote entropy _OBJECT "execute_kw" a st1))
             = trace st1 ++ evs
             /\ objects (snd (_json_rpc remote entropy _OBJECT "execute_kw" a st1))
                = objects st1).
  { intros st1 a. destruct (_json_rpc_frame remote entropy _OBJECT "execute_kw" a st1)
      as (evs & n & -> & _). eexists. done. }
  destruct (is_None (uid (self st))); [|apply Hcall].
  destruct (authenticate_frame remote entropy st) as (evs & n & _ & _ & _ & Hst).
  destruct (authenticate remote entropy st) as [[u|e] st1]; cbn in Hst.
  - destruct Hst as [-> _].
    destruct (Hcall (with_events (with_uid st u) evs)
                [JStr (db (self (with_events (with_uid st u) evs)));
                 uid (self (with_events (with_uid st u) evs));
                 JStr (api_key (self (with_events (with_uid st u) evs)));
                 JStr model; JStr method; JList args; JObj kwargs])
      as (evs2 & Ht & Ho).
    rewrite Ht, Ho. exists (evs ++ evs2). cbn. by rewrite app_assoc.
  - subst st1. by exists evs.
Qed.



(** The built-ins leave the state alone. *)
Lemma py_getitem_state v k st : snd (py_getitem v k st) = st.
Proof. destruct v; try done. cbn. by destruct (sget k kvs). Qed.

Lemma py_pair_state x st : snd (py_pair x st) = st.
Proof.
  unfold py_pair, bind.
  destruct x as [| | |s|xs|kvs]; try done.
  - destruct (code_points s) as [|a [|b [|c l]]]; done.
  - destruct xs as [|a [|b [|c xs]]]; try done. by destruct a.
  - destruct kvs as [|[k1 v1] [|[k2 v2] [|kv kvs]]]; done.
Qed.

Lemma py_dict_update_state xs : forall d st, snd (py_dict_update d xs st) = st.
Proof.
  induction xs as [|x xs IH]; intros d st; [done|].
  cbn [py_dict_update]. unfold bind.
  pose proof (py_pair_state x st) as Hp.
  destruct (py_pair x st) as [[kv|e] st1]; cbn in Hp; subst st1; [apply IH|done].
Qed.

Lemma py_dict_state v st : snd (py_dict v st) = st.
Proof. destruct v; try done; apply py_dict_update_state. Qed.

Lemma selection_labels_unfold model field st :
  selection_labels remote entropy model field st =
    match fields_get remote entropy model (Some ["selection"%string]) st with
    | (Ok meta, st1) =>
        (fst ((let* fmeta := py_getitem meta field in
               let* sel := py_getitem fmeta "selection" in
               py_dict sel) st1), st1)
    | (Raise e, st1) => (Raise e, st1)
    end.
Proof.
  unfold selection_labels. unfold bind at 1.
  destruct (fields_get remote entropy model _ st) as [[meta|e] st1]; [|done].
  unfold bind.
  pose proof (py_getitem_state meta field st1) as H1.
  destruct (py_getitem meta field st1) as [[fmeta|e] st2]; cbn in H1; subst st2; [|done].
  pose proof (py_getitem_state fmeta "selection" st1) as H2.
  destruct (py_getitem fmeta "selection" st1) as [[sel|e] st2]; cbn in H2; subst st2; [|done].
  pose proof (py_dict_state sel st1) as H3.
  destruct (py_dict sel st1) as [r st2]; cbn in H3; subst st2. done.
Qed.



Lemma next_code_state sel label st : snd (next_code lower sel label st) = st.
Proof.
  induction sel as [|[c l] sel IH]; [done|].
  cbn. destruct l; try done. by destruct (String.eqb _ _).
Qed.

Lemma next_code_skip pre : forall rest label st,
  first_match lower pre label = None ->
  next_code lower (typed_selection pre ++ rest) label st = next_code lower rest label st.
Proof.
  unfold first_match.
  induction pre as [|[c l] pre IH]; intros rest label st Hm; [done|].
  cbn in *. destruct (String.eqb (lower l) (lower label)); [done|]. by apply IH.
Qed.

Lemma move_task_unfold task_id stage_id label st :
  label <> ""%string ->
  move_task remote entropy lower task_id stage_id (Some label) st =
    let stage_only := [("stage_id"%string, JInt stage_id)] in
    let warned st1 :=
      update_task remote entropy task_id stage_only
        (with_events st1 [EvLog (LogStateLabelNotFound label)]) in
    match selection_labels remote entropy _TASK_MODEL "state" st with
    | (Ok sel, st1) =>
        match fst (next_code lower sel label st1) with
        | Ok code => update_task remote entropy task_id (sset "state" code stage_only) st1
        | Raise e => if move_task_catches e then warned st1 else (Raise e, st1)
        end
    | (Raise e, st1) => if move_task_catches e then warned st1 else (Raise e, st1)
    end.
Proof.
  intros Hl. unfold move_task.
  assert (truthy (JStr label) = true) as -> by (by destruct label).
  unfold bind at 1. unfold try_except. unfold bind at 1.
  destruct (selection_labels remote entropy _TASK_MODEL "state" st) as [[sel|e] st1].
  - unfold bind at 1.
    pose proof (next_code_state sel label st1) as Hs.
    destruct (next_code lower sel label st1) as [[code|e] st2]; cbn in Hs; subst st2.
    + done.
    + cbn [fst]. destruct (move_task_catches e); done.
  - destruct (move_task_catches e); done.
Qed.







End Helpers.

(** ** Domain helpers: creating a sub-task *)

Section Subtask.
Variable remote : list event -> json -> post_outcome.
Variable entropy : list event -> Z.
Variable int_of_str : string -> option Z.

Lemma py_int_state v st : snd (py_int int_of_str v st) = st.
Proof. destruct v; try done. cbn. by destruct (int_of_str s). Qed.

Lemma create_objects model values st :
  objects (snd (create remote entropy int_of_str model values st)) = objects st.
Proof.
  unfold create, bind.
  destruct (execute_kw_frame remote entropy model "create" [JObj values] [] st)
    as (evs & _ & Ho).
  destruct (execute_kw remote entropy _ _ _ _ st) as [[r|e] st1]; cbn in Ho; [|done].
  by rewrite py_int_state.
Qed.

Lemma create_subtask_unfold parent_id values st :
  create_subtask remote entropy int_of_str parent_id values st =
    match objects st !! values with
    | Some d =>
        let vals := fresh (dom (objects st)) in
        let d' := sset "parent_id" (JInt parent_id) d in
        create_task remote entropy int_of_str d'
          (mkState (self st) (trace st) (<[vals := d']> (objects st)))
    | None => (Raise TypeError, st)
    end.
Proof.
  unfold create_subtask, dict_copy, setitem, deref, bind.
  destruct (objects st !! values) as [d|] eqn:Hv; [|done].
  cbn [objects self trace]. rewrite lookup_insert_eq. cbn [objects self trace].
  rewrite lookup_insert_eq, insert_insert_eq. done.
Qed.

(** C10.  [create_subtask] writes to one dictionary only, the copy it has
    just allocated: every dictionary that existed before the call, the
    caller's [values] among them, has the same entries afterwards,
    whatever the remote answers.  The creation call is made with the
    entries of that copy: those of [values] with "parent_id" set. *)
Theorem create_subtask_keeps_values parent_id values st :
  let st' := snd (create_subtask remote entropy int_of_str parent_id values st) in
  objects st ⊆ objects st'
  /\ objects st' !! values = objects st !! values
  /\ (forall d, objects st !! values = Some d ->
        let vals := fresh (dom (objects st)) in
        let d' := sset "parent_id" (JInt parent_id) d in
        vals <> values
        /\ objects st' !! vals = Some d'
        /\ create_subtask remote entropy int_of_str parent_id values st
           = create_task remote entropy int_of_str d'
               (mkState (self st) (trace st) (<[vals := d']> (objects st)))).
Proof.
  intros st'. subst st'. rewrite create_subtask_unfold.
  destruct (objects st !! values) as [d|] eqn:Hv; [|done].
  cbn zeta. unfold create_task. rewrite create_objects. cbn [objects].
  assert (objects st !! fresh (dom (objects st)) = None) as Hfresh.
  { apply not_elem_of_dom, is_fresh. }
  split_and!.
  - by apply insert_subseteq.
  - rewrite lookup_insert_ne; [done|]. intros Heq. rewrite Heq, Hv in Hfresh. done.
  - intros d0 [= <-]. split_and!; [|by rewrite lookup_insert_eq|done].
    intros Heq. rewrite Heq, Hv in Hfresh. done.
Qed.
End Subtask.

(** ** The wire protocol *)

Section Wire.
Variable remote : list event -> json -> post_outcome.
Variable entropy : list event -> Z.
Variable int_of_str : string -> option Z.






Lemma py_list_state v st : snd (py_list v st) = st.
Proof. by destruct v. Qed.

(** A facade operation is its [execute_kw] call followed by a conversion
    of the result that touches nothing. *)
Lemma bind_pure_snd {A B} (m : M A) (k : A -> M B) st :
  (forall a s, snd (k a s) = s) -> snd (bind m k st) = snd (m st).
Proof. intros Hk. unfold bind. destruct (m st) as [[a|e] st1]; [apply Hk|done]. Qed.


End Wire.

(** ** Dictionaries, construction and keyword building *)

Section DictGeneric.
Context {V : Type}.
Implicit Types (d : list (string * V)).

Lemma dget_dset_eq k v d : dict_get String.eqb k (dict_set String.eqb k v d) = Some v.
Proof.
  induction d as [|[k' v'] d IH]; cbn.
  - by rewrite String.eqb_refl.
  - destruct (String.eqb k' k) eqn:E; cbn; rewrite E; [done|apply IH].
Qed.

Lemma dget_dset_ne k k' v d :
  k <> k' -> dict_get String.eqb k' (dict_set String.eqb k v d) = dict_get String.eqb k' d.
Proof.
  intros Hne. induction d as [|[k0 v0] d IH]; cbn.
  - by destruct (String.eqb_spec k k').
  - destruct (String.eqb_spec k0 k) as [->|Hk0]; cbn.
    + by destruct (String.eqb_spec k k').
    + destruct (String.eqb_spec k0 k'); [done|apply IH].
Qed.

Lemma keys_dset k v d :
  keys (dict_set String.eqb k v d)
  = match dict_get String.eqb k d with Some _ => keys d | None => keys d ++ [k] end.
Proof.
  unfold keys. induction d as [|[k0 v0] d IH]; cbn; [done|].
  destruct (String.eqb k0 k) eqn:E; cbn; [done|]. rewrite IH.
  by destruct (dict_get String.eqb k d).
Qed.

Lemma dget_None_keys k d : dict_get String.eqb k d = None <-> k ∉ keys d.
Proof.
  unfold keys. induction d as [|[k0 v0] d IH]; cbn.
  - split; [intros _; apply not_elem_of_nil|done].
  - destruct (String.eqb_spec k0 k) as [->|Hne].
    + split; [done|]. intros H. exfalso. apply H. left.
    + rewrite IH, not_elem_of_cons. split; [by intros H; split|by intros [_ H]].
Qed.

Lemma NoDup_keys_dset k v d : NoDup (keys d) -> NoDup (keys (dict_set String.eqb k v d)).
Proof.
  intros Hd. rewrite keys_dset. destruct (dict_get String.eqb k d) eqn:E; [done|].
  apply NoDup_app. split; [done|]. split.
  - intros x Hx Hk. apply list_elem_of_singleton in Hk as ->.
    by apply dget_None_keys in E.
  - apply NoDup_singleton.
Qed.

Lemma dset_same k v d : dict_get String.eqb k d = Some v -> dict_set String.eqb k v d = d.
Proof.
  induction d as [|[k0 v0] d IH]; cbn; [done|].
  destruct (String.eqb k0 k) eqn:E.
  - by intros [= ->].
  - intros H. by rewrite IH.
Qed.
End DictGeneric.

Lemma sget_sset_eq k v d : sget k (sset k v d) = Some v.
Proof. apply dget_dset_eq. Qed.

Lemma sget_sset_ne k k' v d : k <> k' -> sget k' (sset k v d) = sget k' d.
Proof. apply dget_dset_ne. Qed.

Lemma keys_sset k v d :
  keys (sset k v d) = match sget k d with Some _ => keys d | None => keys d ++ [k] end.
Proof. apply keys_dset. Qed.

Lemma NoDup_keys_sset k v (d : list (string * json)) :
  NoDup (keys d) -> NoDup (keys (sset k v d)).
Proof. apply NoDup_keys_dset. Qed.

(** Setting a key to the value it has changes nothing. *)
Lemma sset_same k v d : sget k d = Some v -> sset k v d = d.
Proof. apply dset_same. Qed.

Lemma rstrip_slash_decompose s :
  exists n, s = String.append (rstrip_slash s) (slashes n).
Proof.
  induction s as [|a s [n IH]]; [by exists 0%nat|].
  cbn. destruct (rstrip_slash s) as [|b t] eqn:E.
  - cbn in IH. destruct (Ascii.eqb_spec a (Ascii.ascii_of_nat 47)) as [->|Hne].
    + exists (S n). cbn. by rewrite IH.
    + exists n. cbn. by rewrite IH.
  - exists n. cbn. rewrite IH. done.
Qed.

Lemma rstrip_slash_last s : last_char (rstrip_slash s) <> Some (Ascii.ascii_of_nat 47).
Proof.
  induction s as [|a s IH]; [done|].
  cbn. destruct (rstrip_slash s) as [|b t] eqn:E.
  - destruct (Ascii.eqb_spec a (Ascii.ascii_of_nat 47)) as [->|Hne]; cbn; [done|congruence].
  - cbn in *. done.
Qed.

Lemma rstrip_slash_fixed s :
  last_char s <> Some (Ascii.ascii_of_nat 47) -> rstrip_slash s = s.
Proof.
  induction s as [|a s IH]; [done|].
  cbn. destruct s as [|b t].
  - cbn. destruct (Ascii.eqb_spec a (Ascii.ascii_of_nat 47)) as [->|Hne]; [done|done].
  - intros H. rewrite IH by done. done.
Qed.

(** X1.  The endpoint kept by the constructor is the given URL without
    its trailing slashes: the given URL is the kept one followed by
    slashes only, the kept one does not end in a slash (so stripping is
    idempotent); every other argument is stored as given and no uid is
    cached. *)
Theorem __init___strips_trailing_slashes u d n k t v :
  let c := __init__ u d n k t v in
  (exists m, u = String.append (url c) (slashes m))
  /\ last_char (url c) <> Some (Ascii.ascii_of_nat 47)
  /\ rstrip_slash (url c) = url c
  /\ (db c, username c, api_key c, timeout c, verify_ssl c, uid c) = (d, n, k, t, v, JNull).
Proof.
  cbn. split_and!.
  - apply rstrip_slash_decompose.
  - apply rstrip_slash_last.
  - apply rstrip_slash_fixed, rstrip_slash_last.
  - done.
Qed.

(** X2.  The keyword dictionary [search_read] builds: "fields" is sent
    whenever a field list is given (an empty one too), "limit" whenever a
    limit is given (0 too), but "offset" only when it is not 0 and
    "order" only when it is a non-empty string; no other key is sent and
    none twice. *)
Theorem search_read_opts_keys fields offset limit order :
  let opts := search_read_opts fields offset limit order in
  sget "fields" opts = (fun fs => JList (map JStr fs)) <$> fields
  /\ sget "offset" opts = (if offset =? 0 then None else Some (JInt offset))
  /\ sget "limit" opts = JInt <$> limit
  /\ sget "order" opts
     = match order with
       | Some o => if String.eqb o "" then None else Some (JStr o)
       | None => None
       end
  /\ NoDup (keys opts)
  /\ Forall (fun k => k ∈ ["fields"; "offset"; "limit"; "order"]%string) (keys opts).
Proof.
  unfold search_read_opts.
  destruct fields as [fs|], (Z.eqb_spec offset 0) as [->|Hne], limit as [l|],
           order as [[|a o]|]; cbn.
  all: try (destruct offset; [done| |]).
  all: cbn; split_and!; try done.
  all: by apply (bool_decide_unpack _).
Qed.

Section SubtaskPayload.
Variable remote : list event -> json -> post_outcome.
Variable entropy : list event -> Z.
Variable int_of_str : string -> option Z.

(** X3.  The creation call of [create_subtask] carries the entries of the
    caller's mapping with "parent_id" set to the given parent: a
    "parent_id" already in the mapping is overridden in place, a missing
    one is appended, and every other key keeps its value and position. *)
Theorem create_subtask_payload parent_id values d st :
  objects st !! values = Some d ->
  exists d' st0,
    create_subtask remote entropy int_of_str parent_id values st
    = create_task remote entropy int_of_str d' st0
    /\ self st0 = self st /\ trace st0 = trace st
    /\ sget "parent_id" d' = Some (JInt parent_id)
    /\ (forall k, k <> "parent_id"%string -> sget k d' = sget k d)
    /\ (NoDup (keys d) -> NoDup (keys d'))
    /\ keys d' = match sget "parent_id" d with
                 | Some _ => keys d
                 | None => keys d ++ ["parent_id"%string]
                 end.
Proof.
  intros Hv. rewrite create_subtask_unfold, Hv. cbn zeta.
  eexists _, _. split; [reflexivity|]. cbn. split_and!; try done.
  - apply sget_sset_eq.
  - intros k Hk. by apply sget_sset_ne.
  - apply NoDup_keys_sset.
  - apply keys_sset.
Qed.
End SubtaskPayload.

(** ** Invariants of the client *)

Section Invariants.
Variable remote : list event -> json -> post_outcome.
Variable entropy : list event -> Z.

Lemma evolves_refl st : evolves st st.
Proof.
  split_and!; try done; [|by left].
  exists []. by rewrite app_nil_r.
Qed.

Lemma well_targeted_config c c' ev :
  same_config c c' -> well_targeted c ev -> well_targeted c' ev.
Proof.
  intros (Hu & _ & _ & _ & Ht & Hv). destruct ev; cbn; try done.
  rewrite Hu, Ht, Hv. done.
Qed.

Lemma evolves_trans st1 st2 st3 : evolves st1 st2 -> evolves st2 st3 -> evolves st1 st3.
Proof.
  intros ((e1 & Ht1 & Hq1) & Ho1 & Hc1 & Hu1) ((e2 & Ht2 & Hq2) & Ho2 & Hc2 & Hu2).
  split_and!.
  - exists (e1 ++ e2). split; [by rewrite Ht2, Ht1, app_assoc|].
    apply Forall_app. split; [done|].
    eapply Forall_impl; [exact Hq2|]. intros ev. apply well_targeted_config.
    destruct Hc1 as (? & ? & ? & ? & ? & ?). by split_and!.
  - by rewrite Ho2.
  - destruct Hc1 as (? & ? & ? & ? & ? & ?), Hc2 as (? & ? & ? & ? & ? & ?).
    split_and!; congruence.
  - destruct Hu2 as [->|?]; [done|by right].
Qed.

Lemma well_targeted_retry_events c p a outs :
  Forall (well_targeted c) (retry_events c p a outs).
Proof.
  revert a. induction outs as [|o outs IH]; intros a; [constructor|].
  cbn. constructor; [done|]. destruct outs; [constructor|].
  do 2 (constructor; [done|]). apply IH.
Qed.

Lemma with_events_evolves st evs :
  Forall (well_targeted (self st)) evs -> evolves st (with_events st evs).
Proof. intros H. split_and!; try done; [by exists evs|by left]. Qed.

Lemma _post_evolves p st : evolves st (snd (_post remote p st)).
Proof.
  destruct (_post_shape remote p st) as (outs & _ & -> & _).
  apply with_events_evolves, well_targeted_retry_events.
Qed.

Lemma emit_log_evolves r st : evolves st (with_events st [EvLog r]).
Proof. apply with_events_evolves. by repeat constructor. Qed.

Lemma _json_rpc_evolves service method args st :
  evolves st (snd (_json_rpc remote entropy service method args st)).
Proof.
  rewrite _json_rpc_unfold. cbn zeta.
  set (p := rpc_payload entropy st service method args).
  eapply evolves_trans; [apply (emit_log_evolves (LogRpc p))|].
  pose proof (_post_evolves p (with_events st [EvLog (LogRpc p)])) as Hp.
  destruct (_post remote p _) as [[r|e] st1]; cbn [snd] in *; [|done].
  destruct (body r) as [resp|]; [|done].
  destruct resp; try done.
  - unfold bind, py_contains, py_getitem, py_get, ret, raise; cbn.
    by destruct (String.index 0 "error" s).
  - unfold bind, py_contains, py_getitem, py_get, ret, raise; cbn.
    by destruct (existsb _ xs).
  - destruct (sget "error" kvs) as [err|]; [|done]. cbn [snd].
    eapply evolves_trans; [exact Hp|apply emit_log_evolves].
Qed.

Lemma authenticate_evolves st : evolves st (snd (authenticate remote entropy st)).
Proof.
  rewrite authenticate_unfold.
  pose proof (_json_rpc_evolves _COMMON "authenticate" (auth_args (self st)) st) as Hr.
  destruct (_json_rpc remote entropy _ _ _ st) as [[u|e] st1]; cbn [snd] in *; [|done].
  destruct (isinstance_int u) eqn:Hu; [|done]. cbn [snd].
  eapply evolves_trans; [exact Hr|].
  split_and!; cbn; try done.
  - exists [EvLog (LogAuthenticated u)]. split; [done|]. by repeat constructor.
  - by right.
Qed.

Lemma run_operation_evolves op st :
  evolves st (snd (run_operation remote entropy op st)).
Proof.
  destruct op as [model method args kwargs|calls]; cbn [run_operation].
  - rewrite execute_kw_unfold. cbn zeta.
    destruct (is_None (uid (self st))); [|apply _json_rpc_evolves].
    pose proof (authenticate_evolves st) as Ha.
    destruct (authenticate remote entropy st) as [[u|e] st1]; cbn [snd] in *; [|done].
    eapply evolves_trans; [exact Ha|apply _json_rpc_evolves].
  - rewrite execute_batch_unfold. cbn zeta.
    destruct (truthy (uid (self st))); [apply _json_rpc_evolves|].
    pose proof (authenticate_evolves st) as Ha.
    destruct (authenticate remote entropy st) as [[u|e] st1]; cbn [snd] in *; [|done].
    eapply evolves_trans; [exact Ha|apply _json_rpc_evolves].
Qed.

Lemma run_operations_evolves ops : forall st,
  evolves st (snd (run_operations remote entropy ops st)).
Proof.
  induction ops as [|op ops IH]; intros st; [apply evolves_refl|].
  rewrite run_operations_cons.
  pose proof (run_operation_evolves op st) as H1.
  destruct (run_operation remote entropy op st) as [r st1]. cbn [snd] in H1.
  pose proof (IH st1) as H2.
  destruct (run_operations remote entropy ops st1) as [rs st2]. cbn [snd] in *.
  by eapply evolves_trans.
Qed.

(** X4.  Whatever the remote answers, a sequence of operations leaves the
    settings of the client and the store of dictionaries as they were,
    only appends to the trace, posts only to the endpoint of the client
    with its timeout and TLS flag, never closes the HTTP session, keeps
    the uid an [Optional[int]], and never forgets a cached uid. *)
Theorem operations_keep_the_client ops st :
  let st' := snd (run_operations remote entropy ops st) in
  same_config (self st) (self st')
  /\ objects st' = objects st
  /\ trace st `prefix_of` trace st'
  /\ Forall (well_targeted (self st)) (events_of (run_operations remote entropy ops) st)
  /\ (uid_ok (self st) -> uid_ok (self st'))
  /\ (is_None (uid (self st)) = false -> is_None (uid (self st')) = false).
Proof.
  intros st'. destruct (run_operations_evolves ops st) as ((evs & Ht & Hq) & Ho & Hc & Hu).
  fold st' in Ht, Ho, Hc, Hu. split_and!; try done.
  - by exists evs.
  - by rewrite (events_of_trace _ st evs Ht).
  - unfold uid_ok. intros Hok. destruct Hu as [->|Hi]; [done|by right].
  - intros Hn. destruct Hu as [->|Hi]; [done|]. by destruct (uid (self st')).
Qed.

Lemma rpc_args_rpc_payload st service method args :
  rpc_args (rpc_payload entropy st service method args) = args.
Proof. done. Qed.

End Invariants.

(** ** Answered calls: what the facade makes of a result *)

Section Answered.
Variable remote : list event -> json -> post_outcome.
Variable entropy : list event -> Z.
Variable int_of_str : string -> option Z.

(** X6.  A call that the remote answers at once with a non-error status is
    posted exactly once and never slept on, whatever the body: a body
    that is not JSON raises the decoding error, an error object raises
    [RPCError] after logging it, a body that is JSON but no object raises
    [TypeError] or [AttributeError]; none of these is retried. *)
Theorem _json_rpc_answered_once service method args st resp :
  let p := rpc_payload entropy st service method args in
  let run := _json_rpc remote entropy service method args in
  remote (trace st ++ [EvLog (LogRpc p)]) p = PostReturns resp ->
  ok_status resp = true ->
  posts (events_of run st) = [p]
  /\ sleeps (events_of run st) = []
  /\ (body resp = None -> fst (run st) = Raise JSONDecodeError)
  /\ (forall o err, body resp = Some (JObj o) -> sget "error" o = Some err ->
        fst (run st) = Raise (RPCError err)
        /\ events_of run st
           = [EvLog (LogRpc p); post_event st p (PostReturns resp); EvLog (LogRpcError err)])
  /\ (forall v, body resp = Some v -> (forall o, v <> JObj o) ->
        exists e, fst (run st) = Raise e /\ (e = TypeError \/ e = AttributeError)).
Proof.
  intros p run Hr Hok. subst run.
  pose proof (_json_rpc_unfold remote entropy service method args st) as Heq.
  fold p in Heq. cbn zeta in Heq.
  rewrite (_post_returns remote p (with_events st [EvLog (LogRpc p)]) resp Hr Hok) in Heq.
  rewrite with_events_app in Heq. cbn [app] in Heq.
  assert (Hev : forall tail,
             snd (_json_rpc remote entropy service method args st)
             = with_events st ([EvLog (LogRpc p); post_event st p (PostReturns resp)] ++ tail) ->
             (forall ev, ev ∈ tail -> exists r, ev = EvLog r) ->
             posts (events_of (_json_rpc remote entropy service method args) st) = [p]
             /\ sleeps (events_of (_json_rpc remote entropy service method args) st) = []).
  { intros tail Hs Htail. rewrite (events_of_with_events _ _ _ Hs).
    assert (posts tail = [] /\ sleeps tail = []) as [Hp Hsl].
    { clear Hs. induction tail as [|ev tail IH]; [done|].
      destruct (Htail ev) as [r ->]; [left|]. cbn.
      apply IH. intros ev' Hev'. apply Htail. by right. }
    unfold sleeps at 1. rewrite posts_app, omap_app. fold sleeps. rewrite Hp, Hsl. done. }
  assert (Hplain : forall r0,
             _json_rpc remote entropy service method args st
             = (r0, with_events st [EvLog (LogRpc p); post_event st p (PostReturns resp)]) ->
             posts (events_of (_json_rpc remote entropy service method args) st) = [p]
             /\ sleeps (events_of (_json_rpc remote entropy service method args) st) = []).
  { intros r0 Hs. apply (Hev []).
    - by rewrite Hs, app_nil_r.
    - intros ev Hev'. by apply not_elem_of_nil in Hev'. }
  destruct (body resp) as [v|] eqn:Hb.
  - assert (Hshape : (exists o, v = JObj o) \/
                     ((forall o, v <> JObj o) /\ exists e,
                        (e = TypeError \/ e = AttributeError) /\
                        _json_rpc remote entropy service method args st
                        = (Raise e, with_events st [EvLog (LogRpc p);
                                                    post_event st p (PostReturns resp)]))).
    { destruct v as [| | |s|xs|o]; [right..|left; by exists o]; (split; [done|]);
        rewrite Heq; unfold bind, py_contains, py_getitem, py_get, ret, raise; cbn.
      - eexists; split; [|done]; auto.
      - eexists; split; [|done]; auto.
      - eexists; split; [|done]; auto.
      - destruct (String.index 0 "error" s); eexists; (split; [|done]); auto.
      - destruct (existsb _ xs); eexists; (split; [|done]); auto. }
    destruct Hshape as [[o ->]|(Hno & e & He & Hrun)].
    + destruct (sget "error" o) as [err|] eqn:Herr.
      * destruct (Hev [EvLog (LogRpcError err)]) as [H1 H2].
        { by rewrite Heq, with_events_app. }
        { intros ev ->%list_elem_of_singleton. eauto. }
        split_and!; try done.
        -- intros o' err' [= <-] He'. rewrite Herr in He'. injection He' as <-.
           split; [by rewrite Heq|].
           apply events_of_with_events. by rewrite Heq, with_events_app.
        -- intros v [= <-] Hv. by destruct (Hv o).
      * destruct (Hplain _ Heq) as [H1 H2].
        split_and!; try done.
        -- intros o' err' [= <-] He'. by rewrite Herr in He'.
        -- intros v [= <-] Hv. by destruct (Hv o).
    + destruct (Hplain _ Hrun) as [H1 H2].
      split_and!; try done.
      * intros o err [= ->]. by destruct (Hno o).
      * intros v' [= <-] _. exists e. by rewrite Hrun.
  - destruct (Hplain _ Heq) as [H1 H2].
    split_and!; try done. intros _. by rewrite Heq.
Qed.
End Answered.

Section Results.
Variable remote : list event -> json -> post_outcome.
Variable entropy : list event -> Z.
Variable int_of_str : string -> option Z.

Lemma execute_kw_answered model method args kwargs st v :
  is_None (uid (self st)) = false ->
  answers remote st (kw_payload entropy st model method args kwargs) v ->
  exists st1,
    execute_kw remote entropy model method args kwargs st = (Ok v, st1)
    /\ self st1 = self st
    /\ posts (drop (length (trace st)) (trace st1))
       = [kw_payload entropy st model method args kwargs].
Proof.
  intros Hu (resp & o & Hr & Hok & Hb & He & Hv).
  rewrite execute_kw_unfold. cbn zeta. rewrite Hu.
  unfold kw_payload in Hr. unfold _OBJECT.
  rewrite (_json_rpc_returns remote entropy _ _ _ st resp o Hr Hok Hb He), Hv.
  eexists. split; [done|]. split; [done|]. cbn. by rewrite drop_app_length.
Qed.

(** X7.  [update] and [delete] turn whatever result the remote gives into
    a flag, after a single post: a falsy result ([false], [null], 0, an
    empty list or string, a missing "result") is [False], never an
    exception, so a caller has to test the flag to notice a failed
    write. *)
Theorem update_delete_flag model ids values st v :
  is_None (uid (self st)) = false ->
  (answers remote st
     (kw_payload entropy st model "write" [JList (map JInt ids); JObj values] []) v ->
   fst (update remote entropy model ids values st) = Ok (truthy v)
   /\ posts (events_of (update remote entropy model ids values) st)
      = [kw_payload entropy st model "write" [JList (map JInt ids); JObj values] []])
  /\ (answers remote st (kw_payload entropy st model "unlink" [JList (map JInt ids)] []) v ->
      fst (delete remote entropy model ids st) = Ok (truthy v)
      /\ posts (events_of (delete remote entropy model ids) st)
         = [kw_payload entropy st model "unlink" [JList (map JInt ids)] []]).
Proof.
  intros Hu. split; intros Ha;
    destruct (execute_kw_answered _ _ _ _ st v Hu Ha) as (st1 & Hrun & _ & Hp);
    unfold update, delete, events_of, bind; rewrite Hrun; done.
Qed.

(** X8.  [create] posts its call once and then converts the result with
    [int]: an integer is returned as it is, a boolean as 0 or 1, and a
    result that is [null], a list or an object raises [TypeError], after
    the call has been posted. *)
Theorem create_result model values st v :
  is_None (uid (self st)) = false ->
  answers remote st (kw_payload entropy st model "create" [JObj values] []) v ->
  let run := create remote entropy int_of_str model values in
  posts (events_of run st) = [kw_payload entropy st model "create" [JObj values] []]
  /\ (forall n, v = JInt n -> fst (run st) = Ok n)
  /\ (forall b, v = JBool b -> fst (run st) = Ok (if b then 1 else 0))
  /\ (v = JNull \/ (exists xs, v = JList xs) \/ (exists o, v = JObj o) ->
      fst (run st) = Raise TypeError).
Proof.
  intros Hu Ha run. subst run.
  destruct (execute_kw_answered _ _ _ _ st v Hu Ha) as (st1 & Hrun & _ & Hp).
  unfold create, events_of, bind. rewrite Hrun.
  pose proof (py_int_state int_of_str v st1) as Hs.
  split_and!.
  - by rewrite Hs.
  - by intros n ->.
  - by intros b ->.
  - by intros [->|[[xs ->]|[o ->]]].
Qed.

(** X9.  [search_read] hands over the list the remote returns, unchanged
    and in order; applied to an object [list] yields its keys, and a
    result that is [null], a number or a boolean raises [TypeError]. *)
Theorem search_read_result model domain fields offset limit order st v :
  is_None (uid (self st)) = false ->
  answers remote st
    (kw_payload entropy st model "search_read" [JList (default [] domain)]
       (search_read_opts fields offset limit order)) v ->
  let run := search_read remote entropy model domain fields offset limit order in
  (forall xs, v = JList xs -> fst (run st) = Ok xs)
  /\ (forall o, v = JObj o -> fst (run st) = Ok (map JStr (keys o)))
  /\ (v = JNull \/ (exists n, v = JInt n) \/ (exists b, v = JBool b) ->
      fst (run st) = Raise TypeError).
Proof.
  intros Hu Ha run. subst run.
  destruct (execute_kw_answered _ _ _ _ st v Hu Ha) as (st1 & Hrun & _ & Hp).
  unfold search_read, bind. rewrite Hrun.
  split_and!.
  - by intros xs ->.
  - intros o ->. cbn. unfold keys. by rewrite map_map.
  - by intros [->|[[n ->]|[b ->]]].
Qed.
End Results.

(** ** Selection metadata and moving a task *)

Section Selection.
Variable remote : list event -> json -> post_outcome.
Variable entropy : list event -> Z.
Variable lower : string -> string.

Lemma dict_set_typed c l d :
  dict_set py_key_eqb (JStr c) (JStr l) (typed_selection d)
  = typed_selection (dict_set String.eqb c l d).
Proof.
  unfold typed_selection. induction d as [|[c0 l0] d IH]; cbn; [done|].
  destruct (String.eqb c0 c); cbn; [done|]. by rewrite IH.
Qed.

Lemma py_dict_update_typed sel : forall d st,
  py_dict_update (typed_selection d)
    (map (fun cl => JList [JStr (fst cl); JStr (snd cl)]) sel) st
  = (Ok (typed_selection
           (fold_left (fun d cl => dict_set String.eqb (fst cl) (snd cl) d) sel d)), st).
Proof.
  induction sel as [|[c l] sel IH]; intros d st; [done|].
  cbn [map py_dict_update fst snd]. unfold bind at 1. cbn.
  rewrite dict_set_typed. apply IH.
Qed.

Lemma fold_dset_NoDup sel : forall d : list (string * string),
  NoDup (keys d) ->
  NoDup (keys (fold_left (fun d cl => dict_set String.eqb (fst cl) (snd cl) d) sel d)).
Proof.
  induction sel as [|[c l] sel IH]; intros d Hd; [done|].
  cbn. apply IH. by apply NoDup_keys_dset.
Qed.

Lemma fold_dset_get sel code : forall d : list (string * string),
  dict_get String.eqb code
    (fold_left (fun d cl => dict_set String.eqb (fst cl) (snd cl) d) sel d)
  = fold_left (fun acc cl => if String.eqb (fst cl) code then Some (snd cl) else acc)
      sel (dict_get String.eqb code d).
Proof.
  induction sel as [|[c l] sel IH]; intros d; [done|].
  cbn. rewrite IH. f_equal.
  destruct (String.eqb_spec c code) as [->|Hne].
  - apply dget_dset_eq.
  - by apply dget_dset_ne.
Qed.

Lemma fold_dset_fresh sel : forall d : list (string * string),
  NoDup (keys d ++ map fst sel) ->
  fold_left (fun d cl => dict_set String.eqb (fst cl) (snd cl) d) sel d = d ++ sel.
Proof.
  induction sel as [|[c l] sel IH]; intros d Hd; [by rewrite app_nil_r|].
  cbn in *. 
  assert (dict_set String.eqb c l d = d ++ [(c, l)]) as ->.
  { apply NoDup_app in Hd as (_ & Hd & _).
    assert (c ∉ keys d) as Hc. { intros Hin. apply (Hd c Hin). left. }
    clear -Hc. unfold keys in Hc. induction d as [|[c0 l0] d IH]; cbn; [done|].
    apply not_elem_of_cons in Hc as [Hne Hc].
    destruct (String.eqb_spec c0 c); [done|]. by rewrite IH. }
  rewrite IH.
  - by rewrite <- app_assoc.
  - unfold keys in *. rewrite map_app. cbn. by rewrite <- app_assoc.
Qed.

(** X10.  What [selection_labels] makes of the metadata [fields_get]
    returns: a model without the field raises [KeyError] on the field, a
    field without a selection raises [KeyError] on "selection", and a
    listed selection gives a mapping with each code once, in the place of
    its first pair and with the label of its last pair; a selection that
    lists every code once is returned pair for pair. *)
Theorem selection_labels_metadata model field st m st1 :
  fields_get remote entropy model (Some ["selection"%string]) st = (Ok (JObj m), st1) ->
  let run := selection_labels remote entropy model field in
  (sget field m = None -> run st = (Raise (KeyError field), st1))
  /\ (forall f, sget field m = Some (JObj f) -> sget "selection" f = None ->
        run st = (Raise (KeyError "selection"), st1))
  /\ (forall f sel, sget field m = Some (JObj f) ->
        sget "selection" f = Some (selection_json sel) ->
        run st = (Ok (typed_selection (selection_dict sel)), st1)
        /\ NoDup (keys (selection_dict sel))
        /\ (forall code, dict_get String.eqb code (selection_dict sel) = last_label sel code)
        /\ (NoDup (map fst sel) -> selection_dict sel = sel)).
Proof.
  intros Hf run. subst run. rewrite selection_labels_unfold, Hf.
  split_and!.
  - intros Hm. cbn. unfold bind. cbn. by rewrite Hm.
  - intros f Hm Hs. cbn. unfold bind. cbn. rewrite Hm. cbn. by rewrite Hs.
  - intros f sel Hm Hs. split_and!.
    + cbn. unfold bind. cbn. rewrite Hm. cbn. rewrite Hs. cbn.
      change (@nil (json * json)) with (typed_selection []).
      by rewrite py_dict_update_typed.
    + apply fold_dset_NoDup. constructor.
    + intros code. apply fold_dset_get.
    + intros Hnd. apply (fold_dset_fresh sel []). done.
Qed.
End Selection.

(** ** Further helper behaviour: label lookup and pagination *)

Section MoveTaskErrors.
Variable remote : list event -> json -> post_outcome.
Variable entropy : list event -> Z.
Variable lower : string -> string.

(** X11.  The lookup of [move_task] gives way for an unmatched label only:
    when a label that is not a string comes before any match in the
    mapping, [lbl.lower()] raises [AttributeError], which the handler does
    not catch; the exception reaches the caller and neither the warning
    nor the update is made. *)
Theorem move_task_non_string_label task_id stage_id label st pre code v post st1 :
  label <> ""%string ->
  selection_labels remote entropy _TASK_MODEL "state" st
  = (Ok (typed_selection pre ++ (code, v) :: post), st1) ->
  (forall s, v <> JStr s) ->
  first_match lower pre label = None ->
  move_task remote entropy lower task_id stage_id (Some label) st
  = (Raise AttributeError, st1).
Proof.
  intros Hl Hsel Hv Hm. rewrite move_task_unfold by done. cbn zeta. rewrite Hsel.
  rewrite next_code_skip by done. cbn.
  destruct v; try done. by destruct (Hv s).
Qed.
End MoveTaskErrors.

Section Laziness.
Variable remote : list event -> json -> post_outcome.
Variable entropy : list event -> Z.
Variables (model : string) (domain : option (list json)) (batch : Z)
          (fields : option (list string)) (order : option string).

Lemma search_read_frame offset limit st :
  is_None (uid (self st)) = false ->
  exists evs,
    snd (search_read remote entropy model domain fields offset limit order st)
    = with_events st evs
    /\ length (rpcs evs) = 1%nat.
Proof.
  intros Hu. unfold search_read. rewrite bind_pure_snd by apply py_list_state.
  rewrite execute_kw_unfold. cbn zeta. rewrite Hu.
  destruct (_json_rpc_frame remote entropy _OBJECT "execute_kw"
              [JStr (db (self st)); uid (self st); JStr (api_key (self st));
               JStr model; JStr "search_read"; JList [JList (default [] domain)];
               JObj (search_read_opts fields offset limit order)] st)
    as (evs & n & -> & Hr & _).
  eexists. split; [done|]. cbn. by rewrite Hr.
Qed.

Lemma gen_next_frame g st :
  is_None (uid (self st)) = false ->
  exists evs,
    snd (gen_next remote entropy model domain batch fields order g st) = with_events st evs
    /\ (length (rpcs evs) <= 1)%nat
    /\ (forall records r pending offset,
          g = GenYield records (r :: pending) offset -> evs = []).
Proof.
  intros Hu.
  assert (Hpage : forall offset, exists evs,
             snd (iter_page remote entropy model domain batch fields order offset st)
             = with_events st evs /\ (length (rpcs evs) <= 1)%nat).
  { intros offset. unfold iter_page.
    destruct (search_read_frame offset (Some batch) st Hu) as (evs & Hs & Hr).
    exists evs. split; [|lia]. rewrite bind_pure_snd; [done|].
    intros [|r l] s; done. }
  destruct g as [|records [|r pending] offset|]; cbn [gen_next].
  - destruct (Hpage 0) as (evs & ? & ?). exists evs. by split_and!.
  - destruct (Hpage (offset + Z.of_nat (length records))) as (evs & ? & ?).
    exists evs. by split_and!.
  - exists []. rewrite with_events_nil. split_and!; [done|cbn; lia|done].
  - exists []. rewrite with_events_nil. split_and!; [done|cbn; lia|done].
Qed.

Lemma gen_take_frame n : forall g st,
  is_None (uid (self st)) = false ->
  exists evs,
    snd (gen_take remote entropy model domain batch fields order n g st) = with_events st evs
    /\ (length (rpcs evs) <= n)%nat.
Proof.
  induction n as [|n IH]; intros g st Hu.
  - exists []. by rewrite with_events_nil.
  - destruct (gen_next_frame g st Hu) as (evs & Hs & Hr & _).
    cbn [gen_take]. unfold bind.
    destruct (gen_next remote entropy model domain batch fields order g st)
      as [[[[r|] g']|e] st1]; cbn [snd] in *; subst st1.
    + destruct (IH g' (with_events st evs) Hu) as (evs2 & Hs2 & Hr2).
      destruct (gen_take remote entropy model domain batch fields order n g' _)
        as [[[l g'']|e] st2]; cbn [snd] in *; subst st2;
        exists (evs ++ evs2); rewrite with_events_app, rpcs_app, length_app;
        (split; [done|lia]).
    + exists evs. split; [done|lia].
    + exists evs. split; [done|lia].
Qed.

(** X12.  The generator of [iter_search_read] is lazy: on an authenticated
    client, a consumer that pulls [n] times has caused at most [n] remote
    calls, whatever the remote answers, and a pull inside a page that is
    not used up causes no event at all. *)
Theorem iter_search_read_is_lazy n g st :
  is_None (uid (self st)) = false ->
  (length (rpcs (events_of (gen_take remote entropy model domain batch fields order n g) st))
   <= n)%nat
  /\ (forall records r pending offset,
        g = GenYield records (r :: pending) offset ->
        events_of (gen_next remote entropy model domain batch fields order g) st = []).
Proof.
  intros Hu. split.
  - destruct (gen_take_frame n g st Hu) as (evs & Hs & Hr).
    by rewrite (events_of_with_events _ _ _ Hs).
  - intros records r pending offset ->. unfold events_of. cbn. by rewrite drop_all.
Qed.

(** X13.  Termination is the remote's: against a remote that answers every
    post with the same non-empty page, the offset notwithstanding, every
    pull yields a record and the generator never finishes. *)
Theorem iter_search_read_needs_an_empty_page page n : forall g st,
  page <> [] ->
  (forall tr p, remote tr p = reply (JList page)) ->
  is_None (uid (self st)) = false ->
  g <> GenDone ->
  exists l g',
    fst (gen_take remote entropy model domain batch fields order n g st) = Ok (l, g')
    /\ length l = n /\ g' <> GenDone.
Proof.
  intros g st Hpage Hremote. revert g st.
  assert (Hnext : forall g st, is_None (uid (self st)) = false -> g <> GenDone ->
             exists r g' evs,
               gen_next remote entropy model domain batch fields order g st
               = (Ok (Some r, g'), with_events st evs) /\ g' <> GenDone).
  { intros g st Hu Hg.
    assert (Hiter : forall offset, exists r g' evs,
               iter_page remote entropy model domain batch fields order offset st
               = (Ok (Some r, g'), with_events st evs) /\ g' <> GenDone).
    { intros offset. unfold iter_page, bind.
      rewrite (search_read_page remote entropy model domain batch fields order
                 offset st page Hu (Hremote _ _)).
      destruct page as [|r pending]; [done|]. eexists _, _, _. done. }
    destruct g as [|records [|r pending] offset|]; cbn [gen_next]; [apply Hiter..| |done].
    exists r, (GenYield records pending offset), []. by rewrite with_events_nil. }
  induction n as [|n IH]; intros g st Hu Hg.
  - by exists [], g.
  - destruct (Hnext g st Hu Hg) as (r & g' & evs & Hrun & Hg').
    cbn [gen_take]. unfold bind. rewrite Hrun.
    destruct (IH g' (with_events st evs) Hu Hg') as (l & g'' & Hrest & Hlen & Hg'').
    destruct (gen_take remote entropy model domain batch fields order n g' _)
      as [[[l0 g0]|e] st2]; cbn in Hrest; [|done].
    injection Hrest as -> ->. exists (r :: l), g''. cbn. by rewrite Hlen.
Qed.
End Laziness.

Section Scoped.
Variable remote : list event -> json -> post_outcome.
Variable entropy : list event -> Z.

(** X14.  A scope around a sequence of operations, as the gateway opens
    one per request: when the authentication on entry raises, the body
    is not run and the exception is the scope's; when it returns a
    non-zero uid, the whole scope authenticates exactly once, whatever
    the operations and the answers of the remote, and ends with that uid
    cached. *)
Theorem scoped_operations ops st :
  let run := with_client remote entropy (run_operations remote entropy ops) in
  (forall e st1, authenticate remote entropy st = (Raise e, st1) ->
     run st = (Raise e, st1))
  /\ (forall u st1, authenticate remote entropy st = (Ok u, st1) ->
        truthy u = true ->
        auth_count (events_of run st) = 1%nat
        /\ uid (self (snd (run st))) = u).
Proof.
  intros run. subst run. split.
  - intros e st1 Ha. unfold with_client, __enter__, bind. by rewrite Ha.
  - intros u st1 Ha Hu.
    destruct (authenticate_frame remote entropy st) as (evs & n & Hr & _ & _ & Hst).
    rewrite Ha in Hst. cbn in Hst. destruct Hst as [-> _].
    assert (truthy (uid (self (with_events (with_uid st u) evs))) = true) as Hu' by done.
    destruct (run_operations_cached remote entropy ops _ Hu') as (evs2 & Hs2 & Hc2).
    unfold with_client, __enter__, bind, events_of. rewrite Ha. cbn [ret].
    destruct (run_operations remote entropy ops _) as [rs st2]. cbn in Hs2. subst st2.
    cbn. rewrite <- app_assoc, drop_app_length. split; [|done].
    unfold auth_count in *. rewrite rpcs_app, List.filter_app, length_app, Hr, Hc2. done.
Qed.
End Scoped.

(** ** The REST gateway *)

Section Normalize.
Variable dict_slice_exn : exn.

Lemma slice_10_cases v :
  truthy v = true ->
  (sliceable v = true /\ slice_10 dict_slice_exn v = Returned (cut_10 v))
  \/ (sliceable v = false /\ exists e, slice_10 dict_slice_exn v = Raised (Sdk e)).
Proof.
  intros Ht. unfold sliceable. rewrite Ht. cbn.
  destruct v; cbn; eauto.
Qed.

Lemma _m2o_id_flat v : is_empty_list v = false -> _m2o_id v = Returned (m2o_flat v).
Proof. by destruct v as [| | | |[|x xs]|]. Qed.

Lemma _m2o_id_empty v : is_empty_list v = true -> _m2o_id v = Raised IndexError.
Proof. by destruct v as [| | | |[|x xs]|]. Qed.

Lemma truthy_not_empty v : truthy v = true -> is_empty_list v = false.
Proof. by destruct v as [| | | |[|x xs]|]. Qed.

(** The run of [_normalize_task], case by case. *)
Lemma _normalize_task_cases rec :
  let get k := default JNull (sget k rec) in
  (is_empty_list (get "project_id") = true ->
   _normalize_task dict_slice_exn rec = Raised IndexError)
  /\ (is_empty_list (get "project_id") = false ->
      is_empty_list (get "stage_id") = true ->
      _normalize_task dict_slice_exn rec = Raised IndexError)
  /\ (is_empty_list (get "project_id") = false ->
      is_empty_list (get "stage_id") = false ->
      (sliceable (get "date_deadline") = true ->
       _normalize_task dict_slice_exn rec = Returned (normalized rec))
      /\ (sliceable (get "date_deadline") = false ->
          exists e, _normalize_task dict_slice_exn rec = Raised (Sdk e))).
Proof.
  intros get. unfold _normalize_task, normalized. fold (get "project_id").
  split_and!.
  - intros Hp. by rewrite (_m2o_id_empty _ Hp).
  - intros Hp Hs. rewrite (_m2o_id_flat _ Hp).
    rewrite sget_sset_ne by done. fold (get "stage_id"). by rewrite (_m2o_id_empty _ Hs).
  - intros Hp Hs. rewrite (_m2o_id_flat _ Hp).
    rewrite sget_sset_ne by done. fold (get "stage_id"). rewrite (_m2o_id_flat _ Hs).
    rewrite !sget_sset_ne by done. fold (get "parent_id").
    set (o2 := sset "stage_id" _ (sset "project_id" _ rec)).
    assert (Hpar : (if truthy (get "parent_id")
                    then match _m2o_id (get "parent_id") with
                         | Returned x => Returned (sset "parent_id" x o2)
                         | Raised e => Raised e
                         end
                    else Returned o2)
                   = Returned (if truthy (get "parent_id")
                               then sset "parent_id" (m2o_flat (get "parent_id")) o2
                               else o2)).
    { destruct (truthy (get "parent_id")) eqn:Ht; [|done].
      by rewrite (_m2o_id_flat _ (truthy_not_empty _ Ht)). }
    rewrite Hpar. set (o3 := if truthy (get "parent_id") then _ else o2).
    assert (sget "date_deadline" o3 = sget "date_deadline" rec) as ->.
    { subst o3 o2. destruct (truthy (get "parent_id")); by rewrite !sget_sset_ne. }
    fold (get "date_deadline").
    destruct (truthy (get "date_deadline")) eqn:Ht.
    + destruct (slice_10_cases _ Ht) as [[Hs1 ->]|[Hs1 [e ->]]]; rewrite Hs1.
      * split; [done|done].
      * split; [done|]. intros _. by exists e.
    + split; [done|]. unfold sliceable. by rewrite Ht.
Qed.

Lemma is_empty_list_false_or_true v : is_empty_list v = true \/ is_empty_list v = false.
Proof. destruct (is_empty_list v); auto. Qed.

Lemma _normalize_task_inv rec out :
  _normalize_task dict_slice_exn rec = Returned out ->
  out = normalized rec
  /\ sliceable (default JNull (sget "date_deadline" rec)) = true.
Proof.
  destruct (_normalize_task_cases rec) as (H1 & H2 & H3). cbv beta zeta in H1, H2, H3.
  destruct (is_empty_list (default JNull (sget "project_id" rec))) eqn:Hp.
  { by rewrite (H1 eq_refl). }
  destruct (is_empty_list (default JNull (sget "stage_id" rec))) eqn:Hs.
  { by rewrite (H2 eq_refl eq_refl). }
  destruct (H3 eq_refl eq_refl) as [H4 H5].
  destruct (sliceable (default JNull (sget "date_deadline" rec))) eqn:Hd.
  - rewrite (H4 eq_refl). by intros [= <-].
  - by destruct (H5 eq_refl) as [e ->].
Qed.

(** X15.  When [_normalize_task] fails: it raises [IndexError] exactly
    when "project_id" or "stage_id" is an empty list (a missing or [None]
    field passes), it returns exactly when neither is and the deadline is
    falsy, a string or a list (any other deadline raises from the slice),
    and a "parent_id" never makes it fail. *)
Theorem _normalize_task_outcome rec :
  let get k := default JNull (sget k rec) in
  let run := _normalize_task dict_slice_exn rec in
  (run = Raised IndexError
   <-> is_empty_list (get "project_id") = true \/ is_empty_list (get "stage_id") = true)
  /\ ((exists out, run = Returned out)
      <-> is_empty_list (get "project_id") = false
          /\ is_empty_list (get "stage_id") = false
          /\ sliceable (get "date_deadline") = true)
  /\ (forall out, run = Returned out -> out = normalized rec).
Proof.
  cbv beta zeta.
  destruct (_normalize_task_cases rec) as (H1 & H2 & H3). cbv beta zeta in H1, H2, H3.
  destruct (is_empty_list (default JNull (sget "project_id" rec))) eqn:Hp.
  { rewrite (H1 eq_refl). split_and!.
    - split; auto.
    - split; [by intros [out ?]|by intros (? & _)].
    - done. }
  destruct (is_empty_list (default JNull (sget "stage_id" rec))) eqn:Hs.
  { rewrite (H2 eq_refl eq_refl). split_and!.
    - split; auto.
    - split; [by intros [out ?]|by intros (_ & ? & _)].
    - done. }
  destruct (H3 eq_refl eq_refl) as [H4 H5].
  destruct (sliceable (default JNull (sget "date_deadline" rec))) eqn:Hd.
  - rewrite (H4 eq_refl). split_and!.
    + split; [done|by intros [?|?]].
    + split; [done|eauto].
    + by intros out [= <-].
  - destruct (H5 eq_refl) as [e ->]. split_and!.
    + split; [done|by intros [?|?]].
    + split; [by intros [out ?]|by intros (_ & _ & ?)].
    + done.
Qed.

Lemma m2o_flat_falsy v : truthy v = false -> m2o_flat v = v.
Proof. by destruct v as [| | | |[|x xs]|]. Qed.

Lemma cut_10_falsy v : truthy v = false -> cut_10 v = v.
Proof. destruct v as [| | |[|a s]|[|x xs]|]; done. Qed.

Lemma truthy_Some k (d : list (string * json)) :
  truthy (default JNull (sget k d)) = true -> sget k d = Some (default JNull (sget k d)).
Proof. by destruct (sget k d). Qed.

Lemma normalized_lookup rec :
  let get k := default JNull (sget k rec) in
  (forall k, k ∉ task_fields -> sget k (normalized rec) = sget k rec)
  /\ sget "project_id" (normalized rec) = Some (m2o_flat (get "project_id"))
  /\ sget "stage_id" (normalized rec) = Some (m2o_flat (get "stage_id"))
  /\ sget "parent_id" (normalized rec) = m2o_flat <$> sget "parent_id" rec
  /\ sget "date_deadline" (normalized rec) = cut_10 <$> sget "date_deadline" rec
  /\ (NoDup (keys rec) -> NoDup (keys (normalized rec))).
Proof.
  intros get. unfold normalized. fold (get "project_id") (get "stage_id")
    (get "parent_id") (get "date_deadline").
  pose proof (truthy_Some "parent_id" rec) as Hpar.
  pose proof (truthy_Some "date_deadline" rec) as Hdate.
  fold (get "parent_id") in Hpar. fold (get "date_deadline") in Hdate.
  split_and!.
  - intros k Hk. unfold task_fields in Hk.
    repeat (apply not_elem_of_cons in Hk as [? Hk]).
    destruct (truthy (get "date_deadline")), (truthy (get "parent_id"));
      by rewrite !sget_sset_ne.
  - destruct (truthy (get "date_deadline")), (truthy (get "parent_id"));
      rewrite ?sget_sset_ne by done; rewrite ?sget_sset_ne by done; apply sget_sset_eq.
  - destruct (truthy (get "date_deadline")), (truthy (get "parent_id"));
      rewrite ?sget_sset_ne by done; apply sget_sset_eq.
  - destruct (truthy (get "parent_id")) eqn:Hp.
    + rewrite (Hpar eq_refl). cbn.
      destruct (truthy (get "date_deadline")); rewrite ?sget_sset_ne by done;
        apply sget_sset_eq.
    + assert (sget "parent_id" rec = m2o_flat <$> sget "parent_id" rec) as Heq.
      { unfold get in Hp. destruct (sget "parent_id" rec) as [v|]; [|done].
        cbn in *. by rewrite m2o_flat_falsy. }
      destruct (truthy (get "date_deadline")); by rewrite !sget_sset_ne.
  - destruct (truthy (get "date_deadline")) eqn:Hd.
    + rewrite (Hdate eq_refl). cbn. apply sget_sset_eq.
    + assert (sget "date_deadline" rec = cut_10 <$> sget "date_deadline" rec) as Heq.
      { unfold get in Hd. destruct (sget "date_deadline" rec) as [v|]; [|done].
        cbn in *. by rewrite cut_10_falsy. }
      destruct (truthy (get "parent_id")); by rewrite !sget_sset_ne.
  - intros Hnd.
    destruct (truthy (get "date_deadline")), (truthy (get "parent_id"));
      repeat apply NoDup_keys_sset; done.
Qed.

(** X16.  What [_normalize_task] returns: "project_id" and "stage_id" are
    always present, flattened to the first item of a list and [None] when
    missing; "parent_id" is flattened and "date_deadline" cut to its
    first ten characters when the record has them; every other field is
    as in the record, and no key is duplicated. *)
Theorem _normalize_task_fields rec out :
  _normalize_task dict_slice_exn rec = Returned out ->
  let get k := default JNull (sget k rec) in
  (forall k, k ∉ task_fields -> sget k out = sget k rec)
  /\ sget "project_id" out = Some (m2o_flat (get "project_id"))
  /\ sget "stage_id" out = Some (m2o_flat (get "stage_id"))
  /\ sget "parent_id" out = m2o_flat <$> sget "parent_id" rec
  /\ sget "date_deadline" out = cut_10 <$> sget "date_deadline" rec
  /\ (NoDup (keys rec) -> NoDup (keys out)).
Proof.
  intros Hrun. destruct (_normalize_task_inv rec out Hrun) as [-> _].
  apply normalized_lookup.
Qed.

Lemma take_code_points_idem s : forall n,
  take_code_points n (take_code_points n s) = take_code_points n s.
Proof.
  induction s as [|a s IH]; intros n; [done|].
  cbn. destruct (is_continuation a) eqn:Ha.
  - cbn. by rewrite Ha, IH.
  - destruct n as [|n]; [done|]. cbn. by rewrite Ha, IH.
Qed.

Lemma cut_10_idem v : cut_10 (cut_10 v) = cut_10 v.
Proof.
  destruct v as [| | |s|xs|]; try done; unfold cut_10.
  - by rewrite take_code_points_idem.
  - by rewrite take_take, Nat.min_id.
Qed.

Lemma sliceable_cut_10 v : sliceable v = true -> sliceable (cut_10 v) = true.
Proof.
  destruct v as [| | |s|xs|]; try done; unfold sliceable, cut_10; intros _.
  - by rewrite orb_true_r.
  - by rewrite orb_true_r.
Qed.

Lemma m2o_flat_not_list v : is_list v = false -> m2o_flat v = v.
Proof. by destruct v. Qed.

Lemma is_list_not_empty v : is_list v = false -> is_empty_list v = false.
Proof. by destruct v. Qed.

(** A record whose many2one fields are flat and whose deadline is cut is
    left as it is. *)
Lemma normalized_fixed out p s :
  sget "project_id" out = Some p -> m2o_flat p = p ->
  sget "stage_id" out = Some s -> m2o_flat s = s ->
  (forall v, sget "parent_id" out = Some v -> m2o_flat v = v) ->
  (forall v, sget "date_deadline" out = Some v -> cut_10 v = v) ->
  normalized out = out.
Proof.
  intros Hp Hpf Hs Hsf Hpar Hdate. unfold normalized. cbv beta zeta.
  rewrite Hp, Hs.
  change (default JNull (Some p)) with p. change (default JNull (Some s)) with s.
  rewrite Hpf, Hsf.
  rewrite (sset_same _ _ _ Hp), (sset_same _ _ _ Hs).
  assert ((if truthy (default JNull (sget "parent_id" out))
           then sset "parent_id" (m2o_flat (default JNull (sget "parent_id" out))) out
           else out) = out) as ->.
  { destruct (sget "parent_id" out) as [v|] eqn:E; [|done].
    change (default JNull (Some v)) with v.
    rewrite (Hpar v eq_refl). destruct (truthy v); [|done]. by apply sset_same. }
  destruct (sget "date_deadline" out) as [v|] eqn:E; [|done].
  change (default JNull (Some v)) with v.
  rewrite (Hdate v eq_refl). destruct (truthy v); [|done]. by apply sset_same.
Qed.

(** X17.  Normalising twice changes nothing, for a record whose many2one
    fields hold no nested list: the normalised record is accepted and
    returned as it is. *)
Theorem _normalize_task_idempotent rec out :
  _normalize_task dict_slice_exn rec = Returned out ->
  (forall k v, k ∈ m2o_fields -> sget k out = Some v -> is_list v = false) ->
  _normalize_task dict_slice_exn out = Returned out.
Proof.
  intros Hrun Hflat.
  destruct (_normalize_task_inv rec out Hrun) as [-> Hd].
  destruct (normalized_lookup rec) as (_ & Hp & Hs & Hpar & Hdate & _).
  cbv beta zeta in Hp, Hs.
  assert (Hp' := Hflat "project_id" _ ltac:(by apply (bool_decide_unpack _)) Hp).
  assert (Hs' := Hflat "stage_id" _ ltac:(by apply (bool_decide_unpack _)) Hs).
  assert (normalized (normalized rec) = normalized rec) as Hfix.
  { eapply normalized_fixed; [exact Hp|by apply m2o_flat_not_list|exact Hs
                              |by apply m2o_flat_not_list| |].
    - intros v Hv. apply m2o_flat_not_list.
      apply (Hflat "parent_id"); [by apply (bool_decide_unpack _)|done].
    - intros v. rewrite Hdate. destruct (sget "date_deadline" rec) as [d|]; [|done].
      intros [= <-]. apply cut_10_idem. }
  destruct (_normalize_task_cases (normalized rec)) as (_ & _ & H3). cbv beta zeta in H3.
  rewrite Hp, Hs in H3.
  change (default JNull (Some ?x)) with x in H3.
  destruct (H3 (is_list_not_empty _ Hp') (is_list_not_empty _ Hs')) as [H4 _].
  rewrite H4, Hfix; [done|].
  rewrite Hdate. destruct (sget "date_deadline" rec) as [d|]; [|done].
  cbn. by apply sliceable_cut_10.
Qed.
End Normalize.

Section Routes.
Variable remote : list event -> json -> post_outcome.
Variable entropy : list event -> Z.

Lemma update_answered model ids values st v :
  is_None (uid (self st)) = false ->
  answers remote st
    (kw_payload entropy st model "write" [JList (map JInt ids); JObj values] []) v ->
  exists st1, update remote entropy model ids values st = (Ok (truthy v), st1).
Proof.
  intros Hu Ha.
  destruct (execute_kw_answered remote entropy _ _ _ _ st v Hu Ha) as (st1 & Hrun & _).
  exists st1. unfold update, bind. by rewrite Hrun.
Qed.

Lemma delete_answered model ids st v :
  is_None (uid (self st)) = false ->
  answers remote st (kw_payload entropy st model "unlink" [JList (map JInt ids)] []) v ->
  exists st1, delete remote entropy model ids st = (Ok (truthy v), st1).
Proof.
  intros Hu Ha.
  destruct (execute_kw_answered remote entropy _ _ _ _ st v Hu Ha) as (st1 & Hrun & _).
  exists st1. unfold delete, bind. by rewrite Hrun.
Qed.

(** X18.  The update routes of the gateway answer 404 exactly when the
    result of the remote's [write] is falsy, whatever the reason; a
    truthy result makes them echo the id and the payload sent, not the
    stored record. *)
Theorem update_routes_not_found model id payload st v :
  is_None (uid (self st)) = false ->
  answers remote st
    (kw_payload entropy st model "write" [JList [JInt id]; JObj payload] []) v ->
  let echo := JObj (dict_merge [("id", JInt id)] payload) in
  let reply detail := if truthy v then Returned echo else Raised (HTTPException 404 detail) in
  (model = _PROJECT_MODEL ->
   fst (api_update_project remote entropy id payload st) = reply "Project not found")
  /\ (model = _STAGE_MODEL ->
      fst (api_update_stage remote entropy id payload st) = reply "Stage not found")
  /\ (model = _TASK_MODEL ->
      fst (api_update_task remote entropy id payload st) = reply "Task not found").
Proof.
  intros Hu Ha echo reply.
  destruct (update_answered model [id] payload st v Hu Ha) as (st1 & Hrun).
  split_and!; intros ->;
    unfold api_update_project, api_update_stage, api_update_task,
      update_project, update_stage, update_task, api_bind, sdk;
    rewrite Hrun; unfold reply; by destruct (truthy v).
Qed.

(** X19.  The delete routes answer 404 exactly when the result of the
    remote's [unlink] is falsy, and return no body otherwise. *)
Theorem delete_routes_not_found model id st v :
  is_None (uid (self st)) = false ->
  answers remote st (kw_payload entropy st model "unlink" [JList [JInt id]] []) v ->
  let reply detail := if truthy v then Returned JNull else Raised (HTTPException 404 detail) in
  (model = _PROJECT_MODEL ->
   fst (api_delete_project remote entropy id st) = reply "Project not found")
  /\ (model = _STAGE_MODEL ->
      fst (api_delete_stage remote entropy id st) = reply "Stage not found")
  /\ (model = _TASK_MODEL ->
      fst (api_delete_task remote entropy id st) = reply "Task not found").
Proof.
  intros Hu Ha reply.
  destruct (delete_answered model [id] st v Hu Ha) as (st1 & Hrun).
  split_and!; intros ->;
    unfold api_delete_project, api_delete_stage, api_delete_task,
      delete_project, delete_stage, delete_task, api_bind, sdk;
    rewrite Hrun; unfold reply; by destruct (truthy v).
Qed.

(** X20.  The archive routes drop the flag of the SDK: they report the
    requested "active" value whatever the remote's [write] returned, a
    falsy result included. *)
Theorem archive_routes_ignore_the_flag model id active st v :
  is_None (uid (self st)) = false ->
  answers remote st
    (kw_payload entropy st model "write" [JList [JInt id]; JObj [("active", JBool active)]] [])
    v ->
  let done := Returned (JObj [("id", JInt id); ("active", JBool active)]) in
  (model = _PROJECT_MODEL -> fst (api_archive_project remote entropy id active st) = done)
  /\ (model = _STAGE_MODEL -> fst (api_archive_stage remote entropy id active st) = done).
Proof.
  intros Hu Ha done.
  destruct (update_answered model [id] _ st v Hu Ha) as (st1 & Hrun).
  split_and!; intros ->;
    unfold api_archive_project, api_archive_stage, archive_project, archive_stage,
      update_project, api_bind, sdk;
    by rewrite Hrun.
Qed.

(** X21.  [GET /version] never returns a document: when the remote
    answers the version call with an object that has "server_version",
    the lookup of [__version__] on the client raises [AttributeError];
    otherwise the call or the lookup of the key has raised before. *)
Theorem get_versions_never_returns st :
  (exists e, fst (get_versions remote entropy st) = Raised e)
  /\ (forall o sv,
        answers remote st (rpc_payload entropy st "common" "version" []) (JObj o) ->
        sget "server_version" o = Some sv ->
        fst (get_versions remote entropy st) = Raised (Sdk AttributeError)).
Proof.
  split.
  - unfold get_versions, api_bind, sdk.
    destruct (version remote entropy st) as [[v|e] st1]; [|by eexists].
    destruct (py_getitem v "server_version" st1) as [[x|e] st2]; by eexists.
  - intros o sv (resp & o' & Hr & Hok & Hb & He & Hv) Hsv.
    unfold get_versions, api_bind, sdk, version, _COMMON.
    rewrite (_json_rpc_returns remote entropy _ _ _ st resp o' Hr Hok Hb He), Hv.
    cbn. by rewrite Hsv.
Qed.

Lemma execute_batch_answered calls st v :
  truthy (uid (self st)) = true ->
  answers remote st
    (rpc_payload entropy st "object" "execute"
       [JStr (db (self st)); uid (self st); JStr (api_key (self st)); JList calls]) v ->
  exists st1, execute_batch remote entropy calls st = (Ok v, st1).
Proof.
  intros Hu (resp & o & Hr & Hok & Hb & He & Hv).
  unfold execute_batch, bind, get_self. rewrite Hu. unfold ret, _OBJECT.
  rewrite (_json_rpc_returns remote entropy _ _ _ st resp o Hr Hok Hb He), Hv.
  by eexists.
Qed.

(** X22.  [POST /bulk/{model}] reports the length of whatever the batch
    returned: the number of items of a result list, and [TypeError] for
    a result that is [None], a boolean or a number. *)
Theorem api_bulk_write_counts_the_result model values st v :
  truthy (uid (self st)) = true ->
  answers remote st
    (rpc_payload entropy st "object" "execute"
       [JStr (db (self st)); uid (self st); JStr (api_key (self st));
        JList (map (write_call model) values)]) v ->
  let run := api_bulk_write remote entropy model values in
  (forall xs, v = JList xs ->
     fst (run st) = Returned (JObj [("updated", JInt (Z.of_nat (length xs)))]))
  /\ (v = JNull \/ (exists b, v = JBool b) \/ (exists n, v = JInt n) ->
      fst (run st) = Raised (Sdk TypeError)).
Proof.
  intros Hu Ha run. subst run.
  destruct (execute_batch_answered _ st v Hu Ha) as (st1 & Hrun).
  unfold api_bulk_write, bulk_write, api_bind, sdk. rewrite Hrun.
  split.
  - by intros xs ->.
  - by intros [->|[[b ->]|[n ->]]].
Qed.
End Routes.

Section Listing.
Variable remote : list event -> json -> post_outcome.
Variable entropy : list event -> Z.
Variable dict_slice_exn : exn.

Lemma normalize_all_returns raw :
  Forall (fun r => exists x, normalize_item dict_slice_exn r = Returned x) raw ->
  exists out,
    normalize_all dict_slice_exn raw = Returned out
    /\ Forall2 (fun r x => normalize_item dict_slice_exn r = Returned x) raw out.
Proof.
  induction 1 as [|r raw [x Hx] _ (out & IH & Hall)].
  - exists []. split; [done|constructor].
  - exists (x :: out). cbn. rewrite Hx, IH. split; [done|by constructor].
Qed.

Lemma normalize_all_raises pre r post e :
  Forall (fun r => exists x, normalize_item dict_slice_exn r = Returned x) pre ->
  normalize_item dict_slice_exn r = Raised e ->
  normalize_all dict_slice_exn (pre ++ r :: post) = Raised e.
Proof.
  intros Hpre Hr. induction Hpre as [|r0 pre [x Hx] _ IH]; cbn.
  - by rewrite Hr.
  - by rewrite Hx, IH.
Qed.

(** X23.  [GET /tasks] is all or nothing: when every record the remote
    lists can be normalised, the route returns their normalised forms, one
    per record and in order; otherwise it raises what the first record
    that cannot be normalised raises, and returns no record at all.  An
    item that is not a dictionary raises [AttributeError]. *)
Theorem list_tasks_all_or_nothing project_id st raw :
  is_None (uid (self st)) = false ->
  answers remote st
    (kw_payload entropy st "project.task" "search_read" [JList (tasks_domain project_id)]
       (search_read_opts (Some tasks_fields) 0 None None)) (JList raw) ->
  let run := api_list_tasks remote entropy dict_slice_exn project_id in
  let item := normalize_item dict_slice_exn in
  (Forall (fun r => exists x, item r = Returned x) raw ->
   exists out, fst (run st) = Returned (JList out)
               /\ Forall2 (fun r x => item r = Returned x) raw out)
  /\ (forall pre r post e,
        raw = pre ++ r :: post ->
        Forall (fun r => exists x, item r = Returned x) pre ->
        item r = Raised e ->
        fst (run st) = Raised e)
  /\ (forall r, (forall rec, r <> JObj rec) -> item r = Raised (Sdk AttributeError))
  /\ (forall rec, item (JObj rec)
                  = match _normalize_task dict_slice_exn rec with
                    | Returned _ => Returned (JObj (normalized rec))
                    | Raised e => Raised e
                    end).
Proof.
  intros Hu Ha run item. subst run item.
  destruct (execute_kw_answered remote entropy _ _ _ _ st (JList raw) Hu Ha)
    as (st1 & Hrun & _).
  assert (Hsr : search_read remote entropy "project.task" (Some (tasks_domain project_id))
                  (Some tasks_fields) 0 None None st = (Ok raw, st1)).
  { unfold search_read, bind.
    change (default [] (Some (tasks_domain project_id))) with (tasks_domain project_id).
    by rewrite Hrun. }
  unfold api_list_tasks, api_bind, sdk. rewrite Hsr.
  split_and!.
  - intros Hall. destruct (normalize_all_returns raw Hall) as (out & -> & H2).
    by exists out.
  - intros pre r post e -> Hpre Hr. by rewrite (normalize_all_raises pre r post e Hpre Hr).
  - intros r Hr. destruct r as [| | | | |rec]; try done. by destruct (Hr rec).
  - intros rec. cbn.
    destruct (_normalize_task dict_slice_exn rec) as [out|e] eqn:E; [|done].
    by destruct (_normalize_task_inv dict_slice_exn rec out E) as [-> _].
Qed.
End Listing.

(** ** Construction *)

Example demo_client_fields :
  url demo_client = "https://my.odoo.com/jsonrpc"%string
  /\ uid demo_client = JNull
  /\ rstrip_slash "https://my.odoo.com/jsonrpc///" = "https://my.odoo.com/jsonrpc"%string
  /\ rstrip_slash "a/b" = "a/b"%string.
Proof. vm_compute. done. Qed.

(** ** The transport on concrete remotes *)

Example _post_retries_then_succeeds :
  let run := _post (scripted [status_only 503; PostConnectionError; reply (JInt 1)]) JNull in
  fst (run demo_session) = attempt_result (reply (JInt 1))
  /\ length (posts (events_of run demo_session)) = 3%nat
  /\ sleeps (events_of run demo_session) = [1; 2].
Proof. vm_compute. done. Qed.

Example _post_gives_up :
  let run := _post (scripted [status_only 503; status_only 502; status_only 504]) JNull in
  fst (run demo_session) = Raise (HTTPError 504)
  /\ length (posts (events_of run demo_session)) = 3%nat
  /\ sleeps (events_of run demo_session) = [1; 2].
Proof. vm_compute. done. Qed.

Example _post_client_error :
  let run := _post (scripted [status_only 503; status_only 404; reply (JInt 1)]) JNull in
  fst (run demo_session) = Raise (HTTPError 404)
  /\ length (posts (events_of run demo_session)) = 2%nat
  /\ sleeps (events_of run demo_session) = [1].
Proof. vm_compute. done. Qed.

Example _post_other_exception :
  let run := _post (scripted [PostOtherError; reply (JInt 1)]) JNull in
  fst (run demo_session) = Raise RequestException
  /\ length (posts (events_of run demo_session)) = 1%nat.
Proof. vm_compute. done. Qed.

(** ** The session on concrete remotes *)

(** C2.  Odoo answers an authentication with wrong credentials by the
    JSON value [false].  Python's [isinstance(False, int)] holds, so
    [authenticate] raises nothing on it: it returns [False] and caches it
    as the uid. *)
Theorem authenticate_accepts_rejection :
  let run := authenticate (scripted [reply (JBool false)]) no_entropy
               (new_state demo_client) in
  fst run = Ok (JBool false) /\ uid (self (snd run)) = JBool false.
Proof. vm_compute. done. Qed.

(** Other payloads that are no token: [None], a string, a list. *)
Example authenticate_rejects_wrong_type :
  fst (authenticate (scripted [reply JNull]) no_entropy (new_state demo_client))
  = Raise (AuthenticationError JNull)
  /\ fst (authenticate (scripted [reply (JStr "7")]) no_entropy (new_state demo_client))
     = Raise (AuthenticationError (JStr "7"))
  /\ fst (authenticate (scripted [reply (JList [JInt 7])]) no_entropy (new_state demo_client))
     = Raise (AuthenticationError (JList [JInt 7])).
Proof. vm_compute. done. Qed.

(** A rejection sent as an error object surfaces as [RPCError], from
    [_json_rpc]. *)
Example authenticate_error_object :
  fst (authenticate (scripted [reply_error (JStr "Access Denied")]) no_entropy
         (new_state demo_client))
  = Raise (RPCError (JStr "Access Denied")).
Proof. vm_compute. done. Qed.

Example authenticate_caches_uid :
  let run := authenticate (scripted [reply (JInt 7)]) no_entropy (new_state demo_client) in
  fst run = Ok (JInt 7) /\ uid (self (snd run)) = JInt 7.
Proof. vm_compute. done. Qed.

(** C3.  The remote refuses the credentials: it answers the
    authentication with [false] and the calls made with that uid with an
    error.  After the first operation a uid is cached ([self.uid] is
    [False], not [None]), yet the second [execute_batch] authenticates
    again; on the same remote [execute_kw] takes the cached [False] for a
    token and authenticates once. *)
Theorem execute_batch_reauthenticates :
  let denied := reply_error (JObj [("code", JInt 200); ("message", JStr "Access Denied")]) in
  let remote := scripted [reply (JBool false); denied; reply (JBool false); denied] in
  let batch := CallExecuteBatch [] in
  let kw := CallExecuteKw "res.partner" "search" [JList []] [] in
  let st := new_state demo_client in
  uid (self (snd (run_operation remote no_entropy batch st))) = JBool false
  /\ is_None (uid (self (snd (run_operation remote no_entropy batch st)))) = false
  /\ auth_count (events_of (run_operations remote no_entropy [batch; batch]) st) = 2%nat
  /\ auth_count (events_of (run_operations remote no_entropy [kw; kw]) st) = 1%nat.
Proof. vm_compute. done. Qed.

(** A failed authentication caches nothing, so the next operation
    authenticates again. *)
Example failed_authentication_is_retried :
  let remote := scripted [reply JNull; reply (JInt 7); reply (JList [])] in
  let kw := CallExecuteKw "res.partner" "search" [JList []] [] in
  auth_count (events_of (run_operations remote no_entropy [kw; kw])
                        (new_state demo_client)) = 2%nat.
Proof. vm_compute. done. Qed.

(** One authentication for a whole sequence once a uid is cached. *)
Example lazy_auth_once :
  let remote := scripted [reply (JInt 7); reply (JList []); reply (JList [])] in
  auth_count (events_of (run_operations remote no_entropy
                           [CallExecuteKw "res.partner" "search" [JList []] [];
                            CallExecuteBatch []])
                        (new_state demo_client)) = 1%nat.
Proof. vm_compute. done. Qed.

(** C9, counterexample.  A scope with an empty body already makes the
    authentication call, and its trace holds no [EvClose]. *)
Lemma scoped_session_as_stated_fails :
  ~ scoped_session_as_stated (scripted [reply (JInt 7)]) no_entropy demo_client.
Proof. intros (H & _). vm_compute in H. discriminate H. Qed.

Example scoped_session_never_closes :
  EvClose ∉ events_of (with_client (scripted [reply (JInt 7)]) no_entropy (ret tt))
                      (new_state demo_client).
Proof. vm_compute. intros H. repeat (inversion_clear H as [|? ? ? H']; rename H' into H). Qed.

(** ** Pagination on concrete pages *)

(** C5, witness: pages of 100, 100 and 37 records, then an empty one. *)
Lemma iter_search_read_237 :
  let remote := scripted_from 0 (map (fun page => reply (JList page)) (pages_237 ++ [[]])) in
  let run := gen_take remote no_entropy "res.partner" None 100 None None 238
               iter_search_read in
  let sent := posts (events_of run demo_session) in
  length (concat pages_237) = 237%nat
  /\ fst (run demo_session) = Ok (concat pages_237, GenDone)
  /\ length sent = 4%nat
  /\ map wire_offset sent = [0; 100; 200; 237].
Proof.
  intros remote run sent.
  destruct (iter_search_read_pages remote no_entropy "res.partner" None 100 None None
              pages_237 238 demo_session) as (H1 & H2 & _ & H4 & _).
  - reflexivity.
  - repeat constructor; intros H; apply (f_equal length) in H; vm_compute in H;
      discriminate H.
  - apply (scripted_serves_pages 0 pages_237).
  - vm_compute. lia.
  - split; [reflexivity|]. split; [exact H1|]. split; [exact H2|]. exact H4.
Defined.

(** The generator is lazy: a consumer that pulls one record has caused one
    round trip only. *)
Example iter_search_read_lazy :
  let remote := scripted_from 0 (map (fun page => reply (JList page)) (pages_237 ++ [[]])) in
  let run := gen_take remote no_entropy "res.partner" None 100 None None 1
               iter_search_read in
  length (posts (events_of run demo_session)) = 1%nat
  /\ match fst (run demo_session) with
     | Ok (l, _) => l = [JObj [("id", JInt 0)]]
     | Raise _ => False
     end.
Proof. vm_compute. done. Qed.

(** ** The envelope, the batch and the helpers on concrete remotes *)

(** C7, witness: an error object in a 200 response. *)
Lemma _json_rpc_error_witness :
  let remote := scripted [reply_error (JObj [("code", JInt 200);
                                             ("message", JStr "Odoo Server Error")])] in
  let o := [("jsonrpc"%string, JStr "2.0");
            ("error"%string, JObj [("code", JInt 200);
                                   ("message", JStr "Odoo Server Error")])] in
  body (mkResponse 200 (Some (JObj o))) = Some (JObj o)
  /\ fst (_json_rpc remote no_entropy "common" "version" [] demo_session)
     = Raise (RPCError (JObj [("code", JInt 200); ("message", JStr "Odoo Server Error")])).
Proof.
  intros remote o. split; [reflexivity|].
  set (p := rpc_payload no_entropy demo_session "common" "version" []).
  destruct (_json_rpc_error_iff remote no_entropy "common" "version" [] demo_session
              (mkResponse 200 (Some (JObj o)))
              (snd (_post remote p (with_events demo_session [EvLog (LogRpc p)]))) (JObj o))
    as (H & _).
  - vm_compute. reflexivity.
  - reflexivity.
  - destruct (H o eq_refl) as (H1 & _). apply H1. reflexivity.
Defined.

(** C7, counterexample.  A 200 response whose body decodes to the list
    [["x"]]: it has no "error" field, yet [_json_rpc] returns no "result"
    but raises [AttributeError], from [resp.get]. *)
Lemma _json_rpc_as_stated_fails :
  ~ _json_rpc_as_stated (scripted [PostReturns (mkResponse 200 (Some (JList [JStr "x"])))])
      no_entropy "common" "version" [] demo_session.
Proof.
  intros H.
  set (remote := scripted [PostReturns (mkResponse 200 (Some (JList [JStr "x"])))]) in H.
  set (p := rpc_payload no_entropy demo_session "common" "version" []).
  destruct (H (mkResponse 200 (Some (JList [JStr "x"])))
              (snd (_post remote p (with_events demo_session [EvLog (LogRpc p)])))
              (JList [JStr "x"])) as [_ H2].
  - vm_compute. reflexivity.
  - reflexivity.
  - specialize (H2 eq_refl). vm_compute in H2. discriminate H2.
Qed.

Example _json_rpc_non_object_bodies :
  let run v := fst (_json_rpc (scripted [PostReturns (mkResponse 200 (Some v))]) no_entropy
                      "common" "version" [] demo_session) in
  run (JList [JStr "x"]) = Raise AttributeError
  /\ run (JList [JStr "error"]) = Raise TypeError
  /\ run (JStr "an error") = Raise TypeError
  /\ run (JInt 5) = Raise TypeError
  /\ run JNull = Raise TypeError.
Proof. vm_compute. done. Qed.

(** A result is handed over as it is, whatever its shape. *)
Example _json_rpc_result_verbatim :
  fst (_json_rpc (scripted [reply (JObj [("server_version", JStr "18.0")])]) no_entropy
         "common" "version" [] demo_session)
  = Ok (JObj [("server_version", JStr "18.0")]).
Proof. vm_compute. done. Qed.

(** C4, witness: [bulk_write(model, {1: {a: 1}, 2: {b: 2}})]. *)
Lemma bulk_write_two_entries :
  let remote := scripted [reply (JList [JBool true; JBool true])] in
  let id_vals_map := [(1, [("a"%string, JInt 1)]); (2, [("b"%string, JInt 2)])] in
  let run := bulk_write remote no_entropy "project.task" id_vals_map in
  uid_or_authenticate remote no_entropy demo_session = (Ok (JInt 7), demo_session)
  /\ length (List.filter is_batch (rpcs (events_of run demo_session))) = 1%nat
  /\ length (List.filter is_batch (posts (events_of run demo_session))) = 1%nat
  /\ fst (run demo_session) = Ok (JList [JBool true; JBool true])
  /\ map (write_call "project.task") id_vals_map
     = [JObj [("model", JStr "project.task"); ("method", JStr "write");
              ("args", JList [JList [JInt 1]; JObj [("a", JInt 1)]]);
              ("kwargs", JObj [])];
        JObj [("model", JStr "project.task"); ("method", JStr "write");
              ("args", JList [JList [JInt 2]; JObj [("b", JInt 2)]]);
              ("kwargs", JObj [])]].
Proof.
  intros remote id_vals_map run.
  destruct (bulk_write_single_batch remote no_entropy "project.task" id_vals_map
              demo_session) as (_ & _ & _ & H).
  destruct (H (JInt 7) demo_session eq_refl) as (Hrpcs & _ & _ & Hreply).
  destruct (Hreply (mkResponse 200 (Some (JObj [("jsonrpc"%string, JStr "2.0");
                                                 ("result"%string,
                                                  JList [JBool true; JBool true])])))
                   [("jsonrpc"%string, JStr "2.0");
                    ("result"%string, JList [JBool true; JBool true])]
                   eq_refl eq_refl eq_refl eq_refl) as (Hres & Hposts).
  split; [reflexivity|]. split; [fold run in Hrpcs; by rewrite Hrpcs|].
  split; [fold run in Hposts; by rewrite Hposts|]. split; [exact Hres|reflexivity].
Defined.

(** C4, counterexample.  For a mapping of two entries the remote answers
    the batch with a list of one item: [bulk_write] returns that list. *)
Lemma bulk_write_as_stated_fails :
  ~ bulk_write_as_stated (scripted [reply (JList [JBool true])]) no_entropy "project.task"
      [(1, [("a"%string, JInt 1)]); (2, [("b"%string, JInt 2)])] demo_session.
Proof.
  intros H.
  destruct (H (JList [JBool true])) as (_ & results & Hres & Hlen).
  - vm_compute. reflexivity.
  - injection Hres as <-. vm_compute in Hlen. discriminate Hlen.
Qed.

(** After a 503 the same batch is posted a second time: one call, two
    round trips. *)
Example bulk_write_retried :
  let remote := scripted [status_only 503; reply (JList [JBool true; JBool true])] in
  let id_vals_map := [(1, [("a"%string, JInt 1)]); (2, [("b"%string, JInt 2)])] in
  let run := bulk_write remote no_entropy "project.task" id_vals_map in
  fst (run demo_session) = Ok (JList [JBool true; JBool true])
  /\ length (List.filter is_batch (rpcs (events_of run demo_session))) = 1%nat
  /\ length (List.filter is_batch (posts (events_of run demo_session))) = 2%nat
  /\ sleeps (events_of run demo_session) = [1].
Proof. vm_compute. done. Qed.

(** On a fresh client the batch is preceded by the authentication, and is
    still the only batch call. *)
Example bulk_write_fresh_client :
  let remote := scripted [reply (JInt 7); reply (JList [JBool true; JBool true])] in
  let id_vals_map := [(1, [("a"%string, JInt 1)]); (2, [("b"%string, JInt 2)])] in
  let run := bulk_write remote no_entropy "project.task" id_vals_map in
  fst (run (new_state demo_client)) = Ok (JList [JBool true; JBool true])
  /\ map rpc_target (posts (events_of run (new_state demo_client)))
     = [Some ("common", "authenticate"); Some ("object", "execute")]%string.
Proof. vm_compute. done. Qed.

Example task_state_meta_labels :
  fst (selection_labels (scripted [reply task_state_meta]) no_entropy
         "project.task" "state" demo_session)
  = Ok (typed_selection [("01_in_progress", "In Progress"); ("1_done", "Done");
                         ("1_canceled", "Cancelled")]%string).
Proof. vm_compute. done. Qed.


Example move_task_done :
  let run := move_task (scripted [reply task_state_meta; reply (JBool true)])
               no_entropy lower_ascii 42 5 (Some "done"%string) in
  fst (run demo_session) = Ok true
  /\ map rpc_params (posts (events_of run demo_session)) !! 1%nat
     = Some (write_params 42 [("stage_id", JInt 5); ("state", JStr "1_done")]).
Proof. vm_compute. done. Qed.

Example move_task_unmatched :
  let run := move_task (scripted [reply task_state_meta; reply (JBool true)])
               no_entropy lower_ascii 42 5 (Some "Blocked"%string) in
  fst (run demo_session) = Ok true
  /\ map rpc_params (posts (events_of run demo_session)) !! 1%nat
     = Some (write_params 42 [("stage_id", JInt 5)])
  /\ EvLog (LogStateLabelNotFound "Blocked") ∈ events_of run demo_session.
Proof.
  vm_compute. split; [done|]. split; [done|].
  do 2 apply list_elem_of_further. apply list_elem_of_here.
Qed.

Example move_task_field_absent :
  let run := move_task (scripted [reply (JObj []); reply (JBool true)])
               no_entropy lower_ascii 42 5 (Some "Done"%string) in
  fst (run demo_session) = Ok true
  /\ map rpc_params (posts (events_of run demo_session)) !! 1%nat
     = Some (write_params 42 [("stage_id", JInt 5)]).
Proof. vm_compute. done. Qed.


Example move_task_empty_label :
  let run := move_task (scripted [reply (JBool true)])
               no_entropy lower_ascii 42 5 (Some ""%string) in
  fst (run demo_session) = Ok true
  /\ map rpc_params (posts (events_of run demo_session))
     = [write_params 42 [("stage_id", JInt 5)]].
Proof. vm_compute. done. Qed.

(** ** Creating a sub-task on a concrete store *)

Example create_subtask_store :
  let st := mkState (self demo_session) [] {[ 1%positive := [("name"%string, JStr "Write docs")] ]} in
  let run := create_subtask (scripted [reply (JInt 99)]) no_entropy (fun _ => None) 41 1%positive in
  fst (run st) = Ok 99
  /\ objects (snd (run st)) !! 1%positive = Some [("name"%string, JStr "Write docs")]
  /\ map rpc_params (posts (events_of run st))
     = [JObj [("service", JStr "object");
              ("method", JStr "execute_kw");
              ("args", JList [JStr "my"; JInt 7; JStr "secret";
                              JStr "project.task"; JStr "create";
                              JList [JObj [("name", JStr "Write docs");
                                           ("parent_id", JInt 41)]];
                              JObj []])]].
Proof. vm_compute. done. Qed.

(** ** Answered calls and gateway routes on concrete remotes *)

(** X3, witness: a mapping that already names a parent. *)
Lemma create_subtask_payload_witness :
  let d := [("name"%string, JStr "Write docs"); ("parent_id"%string, JInt 3)] in
  let st := mkState (self demo_session) [] {[ 1%positive := d ]} in
  objects st !! 1%positive = Some d
  /\ exists d' st0,
       create_subtask (scripted [reply (JInt 99)]) no_entropy (fun _ => None) 41 1%positive st
       = create_task (scripted [reply (JInt 99)]) no_entropy (fun _ => None) d' st0
       /\ sget "parent_id" d' = Some (JInt 41)
       /\ keys d' = ["name"; "parent_id"]%string.
Proof.
  intros d st.
  assert (Hd : objects st !! 1%positive = Some d) by (vm_compute; reflexivity).
  split; [exact Hd|].
  destruct (create_subtask_payload (scripted [reply (JInt 99)]) no_entropy (fun _ => None)
              41 1%positive d st Hd) as (d' & st0 & H1 & _ & _ & H2 & _ & _ & H3).
  exists d', st0. split; [exact H1|]. split; [exact H2|exact H3].
Defined.

(** X6, witness: a 200 response whose body is not JSON. *)
Lemma _json_rpc_answered_once_witness :
  let run := _json_rpc (scripted [status_only 200]) no_entropy "common" "version" [] in
  ok_status (mkResponse 200 None) = true
  /\ length (posts (events_of run demo_session)) = 1%nat
  /\ sleeps (events_of run demo_session) = []
  /\ fst (run demo_session) = Raise JSONDecodeError.
Proof.
  intros run.
  destruct (_json_rpc_answered_once (scripted [status_only 200]) no_entropy
              "common" "version" [] demo_session (mkResponse 200 None))
    as (H1 & H2 & H3 & _).
  - vm_compute. reflexivity.
  - reflexivity.
  - split; [reflexivity|]. split; [unfold run; by rewrite H1|].
    split; [exact H2|]. apply H3. reflexivity.
Defined.

(** X7, witness: a [write] the remote answers with 0. *)
Lemma update_delete_flag_witness :
  is_None (uid (self demo_session)) = false
  /\ fst (update (scripted [reply (JInt 0)]) no_entropy "project.task" [42]
            [("name", JStr "x")] demo_session) = Ok false.
Proof.
  split; [reflexivity|].
  destruct (update_delete_flag (scripted [reply (JInt 0)]) no_entropy "project.task" [42]
              [("name"%string, JStr "x")] demo_session (JInt 0) eq_refl) as [H _].
  apply H. answered.
Defined.

(** X8, witness: a [create] the remote answers with [true]. *)
Lemma create_result_witness :
  is_None (uid (self demo_session)) = false
  /\ fst (create (scripted [reply (JBool true)]) no_entropy (fun _ => None) "project.task"
            [("name", JStr "x")] demo_session) = Ok 1.
Proof.
  split; [reflexivity|].
  destruct (create_result (scripted [reply (JBool true)]) no_entropy (fun _ => None)
              "project.task" [("name"%string, JStr "x")] demo_session (JBool true) eq_refl)
    as (_ & _ & H & _).
  - answered.
  - apply (H true). reflexivity.
Defined.

(** X9, witness: a [search_read] the remote answers with an object. *)
Lemma search_read_result_witness :
  is_None (uid (self demo_session)) = false
  /\ fst (search_read (scripted [reply (JObj [("a", JInt 1); ("b", JInt 2)])]) no_entropy
            "project.task" None None 0 None None demo_session)
     = Ok [JStr "a"; JStr "b"].
Proof.
  split; [reflexivity|].
  destruct (search_read_result (scripted [reply (JObj [("a"%string, JInt 1); ("b"%string, JInt 2)])])
              no_entropy "project.task" None None 0 None None demo_session
              (JObj [("a"%string, JInt 1); ("b"%string, JInt 2)]) eq_refl)
    as (_ & H & _).
  - answered.
  - apply (H [("a"%string, JInt 1); ("b"%string, JInt 2)]). reflexivity.
Defined.

(** X10, witness: the metadata of a model without the field asked for. *)
Lemma selection_labels_metadata_witness :
  let remote := scripted [reply task_state_meta] in
  let got := fields_get remote no_entropy "project.task" (Some ["selection"%string])
               demo_session in
  got = (Ok task_state_meta, snd got)
  /\ selection_labels remote no_entropy "project.task" "kanban_state" demo_session
     = (Raise (KeyError "kanban_state"), snd got).
Proof.
  intros remote got.
  assert (Hgot : got = (Ok task_state_meta, snd got)) by (vm_compute; reflexivity).
  split; [exact Hgot|].
  destruct (selection_labels_metadata remote no_entropy "project.task" "kanban_state"
              demo_session _ (snd got) Hgot) as (H & _).
  apply H. reflexivity.
Defined.

(** X11, witness: a selection whose second label is a number. *)
Lemma move_task_non_string_label_witness :
  let meta := JObj [("state", JObj [("selection",
                JList [JList [JStr "a"; JStr "Open"]; JList [JStr "b"; JInt 5]])])] in
  let remote := scripted [reply meta; reply (JBool true)] in
  let got := selection_labels remote no_entropy "project.task" "state" demo_session in
  got = (Ok (typed_selection [("a", "Open")]%string ++ [(JStr "b", JInt 5)]), snd got)
  /\ move_task remote no_entropy lower_ascii 42 5 (Some "done"%string) demo_session
     = (Raise AttributeError, snd got).
Proof.
  intros meta remote got.
  assert (Hgot : got = (Ok (typed_selection [("a", "Open")]%string ++ [(JStr "b", JInt 5)]),
                        snd got)) by (vm_compute; reflexivity).
  split; [exact Hgot|].
  apply (move_task_non_string_label remote no_entropy lower_ascii 42 5 "done" demo_session
           [("a", "Open")]%string (JStr "b") (JInt 5) [] (snd got)).
  - discriminate.
  - exact Hgot.
  - discriminate.
  - reflexivity.
Defined.

(** X12, witness: three pulls on the pages of 100, 100 and 37 records. *)
Lemma iter_search_read_is_lazy_witness :
  let remote := scripted_from 0 (map (fun page => reply (JList page)) (pages_237 ++ [[]])) in
  is_None (uid (self demo_session)) = false
  /\ (length (rpcs (events_of (gen_take remote no_entropy "res.partner" None 100 None None 3
                                 iter_search_read) demo_session)) <= 3)%nat.
Proof.
  intros remote. split; [reflexivity|].
  destruct (iter_search_read_is_lazy remote no_entropy "res.partner" None 100 None None 3
              iter_search_read demo_session eq_refl) as [H _].
  exact H.
Defined.

(** X13, witness: a remote that always answers with the same record. *)
Lemma iter_search_read_needs_an_empty_page_witness :
  let remote := fun (_ : list event) (_ : json) => reply (JList [JInt 1]) in
  is_None (uid (self demo_session)) = false
  /\ exists l g',
       fst (gen_take remote no_entropy "res.partner" None 1 None None 5 iter_search_read
              demo_session) = Ok (l, g')
       /\ length l = 5%nat /\ g' <> GenDone.
Proof.
  intros remote. split; [reflexivity|].
  apply (iter_search_read_needs_an_empty_page remote no_entropy "res.partner" None 1 None None
           [JInt 1] 5 iter_search_read demo_session).
  - discriminate.
  - reflexivity.
  - reflexivity.
  - discriminate.
Defined.

(** X16, witness: a task as [search_read] returns it. *)
Lemma _normalize_task_fields_witness :
  let rec := [("id"%string, JInt 5);
              ("project_id"%string, JList [JInt 3; JStr "Website"]);
              ("stage_id"%string, JList [JInt 9; JStr "Doing"]);
              ("parent_id"%string, JBool false);
              ("date_deadline"%string, JStr "2025-07-01 12:00:00")] in
  let out := [("id"%string, JInt 5);
              ("project_id"%string, JInt 3);
              ("stage_id"%string, JInt 9);
              ("parent_id"%string, JBool false);
              ("date_deadline"%string, JStr "2025-07-01")] in
  _normalize_task TypeError rec = Returned out
  /\ sget "id" out = sget "id" rec
  /\ sget "project_id" out = Some (JInt 3)
  /\ sget "date_deadline" out = Some (JStr "2025-07-01").
Proof.
  intros rec out.
  assert (Hrun : _normalize_task TypeError rec = Returned out) by reflexivity.
  split; [exact Hrun|].
  destruct (_normalize_task_fields TypeError rec out Hrun) as (H1 & H2 & _ & _ & H3 & _).
  split; [apply H1; by apply (bool_decide_unpack _)|]. split; [exact H2|exact H3].
Defined.

(** X17, witness: the same task, normalised again. *)
Lemma _normalize_task_idempotent_witness :
  let rec := [("id"%string, JInt 5);
              ("project_id"%string, JList [JInt 3; JStr "Website"]);
              ("stage_id"%string, JList [JInt 9; JStr "Doing"]);
              ("date_deadline"%string, JStr "2025-07-01 12:00:00")] in
  let out := [("id"%string, JInt 5);
              ("project_id"%string, JInt 3);
              ("stage_id"%string, JInt 9);
              ("date_deadline"%string, JStr "2025-07-01")] in
  _normalize_task TypeError rec = Returned out
  /\ _normalize_task TypeError out = Returned out.
Proof.
  intros rec out.
  assert (Hrun : _normalize_task TypeError rec = Returned out) by reflexivity.
  split; [exact Hrun|].
  apply (_normalize_task_idempotent TypeError rec out Hrun).
  intros k v Hk. unfold m2o_fields in Hk.
  apply elem_of_cons in Hk as [->|Hk]; [by intros [= <-]|].
  apply elem_of_cons in Hk as [->|Hk]; [by intros [= <-]|].
  apply elem_of_cons in Hk as [->|Hk]; [by intros [= <-]|].
  by apply elem_of_nil in Hk.
Defined.

(** X18, witness: an update of a project the remote answers with [false]. *)
Lemma update_routes_not_found_witness :
  is_None (uid (self demo_session)) = false
  /\ fst (api_update_project (scripted [reply (JBool false)]) no_entropy 12
            [("name", JStr "Website revamp")] demo_session)
     = Raised (HTTPException 404 "Project not found").
Proof.
  split; [reflexivity|].
  destruct (update_routes_not_found (scripted [reply (JBool false)]) no_entropy
              "project.project" 12 [("name"%string, JStr "Website revamp")] demo_session
              (JBool false) eq_refl) as (H & _).
  - answered.
  - apply H. reflexivity.
Defined.

(** X19, witness: a deletion of a task the remote answers with [true]. *)
Lemma delete_routes_not_found_witness :
  is_None (uid (self demo_session)) = false
  /\ fst (api_delete_task (scripted [reply (JBool true)]) no_entropy 42 demo_session)
     = Returned JNull.
Proof.
  split; [reflexivity|].
  destruct (delete_routes_not_found (scripted [reply (JBool true)]) no_entropy
              "project.task" 42 demo_session (JBool true) eq_refl) as (_ & _ & H).
  - answered.
  - apply H. reflexivity.
Defined.

(** X20, witness: archiving a stage the remote answers with [false]. *)
Lemma archive_routes_ignore_the_flag_witness :
  is_None (uid (self demo_session)) = false
  /\ fst (api_archive_stage (scripted [reply (JBool false)]) no_entropy 9 false demo_session)
     = Returned (JObj [("id", JInt 9); ("active", JBool false)]).
Proof.
  split; [reflexivity|].
  destruct (archive_routes_ignore_the_flag (scripted [reply (JBool false)]) no_entropy
              "project.task.type" 9 false demo_session (JBool false) eq_refl) as (_ & H).
  - answered.
  - apply H. reflexivity.
Defined.

(** X22, witness: a batch of two writes the remote answers with [true]. *)
Lemma api_bulk_write_counts_the_result_witness :
  let values := [(1, [("a"%string, JInt 1)]); (2, [("b"%string, JInt 2)])] in
  truthy (uid (self demo_session)) = true
  /\ fst (api_bulk_write (scripted [reply (JBool true)]) no_entropy "project.task" values
            demo_session)
     = Raised (Sdk TypeError).
Proof.
  intros values. split; [reflexivity|].
  destruct (api_bulk_write_counts_the_result (scripted [reply (JBool true)]) no_entropy
              "project.task" values demo_session (JBool true) eq_refl) as (_ & H).
  - answered.
  - apply H. right. left. by exists true.
Defined.

(** X23, witness: a listing whose second task has an empty project pair. *)
Lemma list_tasks_all_or_nothing_witness :
  let good := JObj [("id"%string, JInt 5);
                    ("project_id"%string, JList [JInt 3; JStr "Website"]);
                    ("stage_id"%string, JList [JInt 9; JStr "Doing"])] in
  let bad := JObj [("id"%string, JInt 6); ("project_id"%string, JList [])] in
  is_None (uid (self demo_session)) = false
  /\ fst (api_list_tasks (scripted [reply (JList [good; bad])]) no_entropy TypeError (Some 3)
            demo_session)
     = Raised IndexError.
Proof.
  intros good bad. split; [reflexivity|].
  destruct (list_tasks_all_or_nothing (scripted [reply (JList [good; bad])]) no_entropy
              TypeError (Some 3) demo_session [good; bad] eq_refl) as (_ & H & _).
  - answered.
  - apply (H [good] bad []); [reflexivity| |reflexivity].
    constructor; [|constructor]. eexists. reflexivity.
Defined.

(** The cut of a deadline counts code points, as [[:10]] does, not the
    bytes of their encoding. *)
Example _normalize_task_code_points :
  String.length "été 2025-0" = 12%nat
  /\ code_points "été" = ["é"; "t"; "é"]%string
  /\ _normalize_task TypeError
       [("project_id"%string, JInt 3); ("stage_id"%string, JInt 9);
        ("date_deadline"%string, JStr "été 2025-07-01 12:00:00")]
     = Returned [("project_id"%string, JInt 3); ("stage_id"%string, JInt 9);
                 ("date_deadline"%string, JStr "été 2025-0")].
Proof. vm_compute. done. Qed.
